(** * cocenter: the dialogue-state engine of the sales assistant

    A shallow embedding of [agent.py], [memory_utils.py] and the query
    builders of [db_utils.py], and the properties of the specification
    checked against it.

    Conventions of the embedding.
    - Python [str] values are Rocq strings; the character functions
      ([lower], [title], [strip], the classes [\d] and [\D]) are given on
      ASCII, and bytes above 127 are left as they are. The embedding follows
      the code character by character on text in ASCII ([ascii_text]); the
      letters and digits of Unicode beyond ASCII are not modelled.
    - A raw JSON value is a [pyval]; a [dict] read by arbitrary key is a
      [gmap string pyval]; a dict with a fixed set of keys is a record whose
      fields are options ([None]: the key is absent).
    - A function that may raise returns a [res]. *)

From Stdlib Require Import ZArith String Ascii List Lia Bool DecimalString Sorted.
From stdpp Require Import gmap strings list fin_maps.

Import ListNotations.
Local Open Scope string_scope.
Local Open Scope Z_scope.

(* ===================================================================== *)
(** ** Python strings *)
(* ===================================================================== *)

Module PyStr.

Definition code (c : ascii) : nat := nat_of_ascii c.

Definition between (lo hi : nat) (c : ascii) : bool :=
  (Nat.leb lo (code c)) && (Nat.leb (code c) hi).

(** [\d] *)
Definition is_digit (c : ascii) : bool := between 48 57 c.
Definition is_upper (c : ascii) : bool := between 65 90 c.
Definition is_lower (c : ascii) : bool := between 97 122 c.
Definition is_cased (c : ascii) : bool := is_upper c || is_lower c.

(** The characters [str.strip()] removes: tab, line feed, vertical tab,
    form feed, carriage return, the separators 28 to 31, and space. *)
Definition is_space (c : ascii) : bool :=
  between 9 13 c || between 28 32 c.

Definition lower_char (c : ascii) : ascii :=
  if is_upper c then ascii_of_nat (code c + 32) else c.

Definition upper_char (c : ascii) : ascii :=
  if is_lower c then ascii_of_nat (code c - 32) else c.

Fixpoint map_str (f : ascii -> ascii) (s : string) : string :=
  match s with
  | EmptyString => EmptyString
  | String c s' => String (f c) (map_str f s')
  end.

Fixpoint filter_str (p : ascii -> bool) (s : string) : string :=
  match s with
  | EmptyString => EmptyString
  | String c s' => if p c then String c (filter_str p s') else filter_str p s'
  end.

Fixpoint exists_str (p : ascii -> bool) (s : string) : bool :=
  match s with
  | EmptyString => false
  | String c s' => p c || exists_str p s'
  end.

(** [s.lower()] *)
Definition lower (s : string) : string := map_str lower_char s.

(** [s.title()]: a cased character is upper-cased when the character
    before it is not cased, and lower-cased when it is. *)
Fixpoint title_from (previous_is_cased : bool) (s : string) : string :=
  match s with
  | EmptyString => EmptyString
  | String c s' =>
      if is_cased c
      then String (if previous_is_cased then lower_char c else upper_char c)
                  (title_from true s')
      else String c (title_from false s')
  end.

Definition title (s : string) : string := title_from false s.

Fixpoint lstrip (s : string) : string :=
  match s with
  | EmptyString => EmptyString
  | String c s' => if is_space c then lstrip s' else s
  end.

Definition is_empty (s : string) : bool :=
  match s with EmptyString => true | _ => false end.

Fixpoint rstrip (s : string) : string :=
  match s with
  | EmptyString => EmptyString
  | String c s' =>
      let r := rstrip s' in
      if is_space c && is_empty r then EmptyString else String c r
  end.

(** [s.strip()] *)
Definition strip (s : string) : string := rstrip (lstrip s).

(** [pat in s] *)
Fixpoint contains (pat s : string) : bool :=
  String.prefix pat s
  || match s with
     | EmptyString => false
     | String _ s' => contains pat s'
     end.

(** [s.replace(old, new)] for a non-empty [old]: occurrences are found
    from the left and do not overlap. [skip] counts the characters of a
    found occurrence that are still to be dropped. *)
Fixpoint replace_from (old new : string) (skip : nat) (s : string) : string :=
  match s with
  | EmptyString => EmptyString
  | String c s' =>
      match skip with
      | S k => replace_from old new k s'
      | O =>
          if String.prefix old s
          then new ++ replace_from old new (Nat.pred (String.length old)) s'
          else String c (replace_from old new O s')
      end
  end.

Definition replace (old new s : string) : string :=
  if is_empty old then s else replace_from old new O s.

(** [re.sub(r'[,.]', '', s)] *)
Definition is_separator (c : ascii) : bool :=
  (Nat.eqb (code c) 44) || (Nat.eqb (code c) 46).

Definition sub_separators (s : string) : string :=
  filter_str (fun c => negb (is_separator c)) s.

(** [re.sub(r'\D', '', s)] *)
Definition sub_non_digits (s : string) : string := filter_str is_digit s.

(** [re.search(r'(\d+)', s)]: the first maximal run of digits. *)
Fixpoint take_digits (s : string) : string :=
  match s with
  | EmptyString => EmptyString
  | String c s' => if is_digit c then String c (take_digits s') else EmptyString
  end.

Fixpoint search_digits (s : string) : option string :=
  match s with
  | EmptyString => None
  | String c s' => if is_digit c then Some (take_digits s) else search_digits s'
  end.

(** [int(digits)] on a run of digits. *)
Definition digit_value (c : ascii) : Z := Z.of_nat (code c - 48).

Fixpoint int_of_digits_from (acc : Z) (s : string) : Z :=
  match s with
  | EmptyString => acc
  | String c s' => int_of_digits_from (10 * acc + digit_value c) s'
  end.

Definition int_of_digits (s : string) : Z := int_of_digits_from 0 s.

(** [int(s)] raises [ValueError] on a string of more than 4300 digits (the
    default of [sys.set_int_max_str_digits]). *)
Definition int_max_str_digits : nat := 4300.

Definition int_of_digits_checked (s : string) : option Z :=
  if Nat.ltb int_max_str_digits (String.length s) then None
  else Some (int_of_digits s).

(** [re.search(r'(?<!\d)(20\d{2}|19\d{2})(?!\d)', s)] *)
Definition year_token_at (s : string) : bool :=
  match s with
  | String c1 (String c2 (String c3 (String c4 rest))) =>
      (String.eqb (String c1 (String c2 EmptyString)) "20"
       || String.eqb (String c1 (String c2 EmptyString)) "19")
      && is_digit c3 && is_digit c4
      && match rest with
         | EmptyString => true
         | String c5 _ => negb (is_digit c5)
         end
  | _ => false
  end.

Fixpoint search_year_from (previous_is_digit : bool) (s : string)
  : option string :=
  match s with
  | EmptyString => None
  | String c s' =>
      if negb previous_is_digit && year_token_at s
      then Some (String.substring 0 4 s)
      else search_year_from (is_digit c) s'
  end.

Definition search_year (s : string) : option string :=
  search_year_from false s.

(** [str(n)] for an [int]. *)
Definition str_of_int (z : Z) : string :=
  NilZero.string_of_int (Z.to_int z).

(** [str(n)] and [repr(n)] raise [ValueError] on an [int] of more than 4300
    digits, the sign not counted. *)
Definition str_int_fails (z : Z) : bool :=
  Nat.ltb int_max_str_digits (String.length (str_of_int (Z.abs z))).

End PyStr.

(* ===================================================================== *)
(** ** Python values and exceptions *)
(* ===================================================================== *)

(** A [float] read by [json.loads]: a finite value [num/den], or one of the
    literals [Infinity], [-Infinity], [NaN] that the parser accepts. *)
Inductive pyfloat :=
| FFinite (num : Z) (den : positive)
| FInfinity (negative : bool)
| FNaN.

(** The values an entity mapping holds. A float carries its [str()]
    rendering; [POther] is any other JSON value (a list or an object), given
    by its [str()] rendering and its truth value. [json.loads] reads no
    integer of more than 4300 digits ([json_value] below). *)
Inductive pyval :=
| PNone
| PBool (b : bool)
| PInt (z : Z)
| PFloat (f : pyfloat) (repr : string)
| PStr (s : string)
| POther (repr : string) (truth : bool).

Inductive exn := ValueError | OverflowError.

Inductive res (A : Type) :=
| Ok (a : A)
| Raise (e : exn).
Arguments Ok {A} a.
Arguments Raise {A} e.

Definition bind {A B : Type} (m : res A) (k : A -> res B) : res B :=
  match m with
  | Ok a => k a
  | Raise e => Raise e
  end.

Notation "'do' x <- m ; k" := (bind m (fun x => k))
  (at level 10, x name, m at level 100, k at level 200).

(** [str(v)] *)
Definition py_str (v : pyval) : string :=
  match v with
  | PNone => "None"
  | PBool true => "True"
  | PBool false => "False"
  | PInt z => PyStr.str_of_int z
  | PFloat _ repr => repr
  | PStr s => s
  | POther repr _ => repr
  end.

(** [bool(v)] *)
Definition truthy (v : pyval) : bool :=
  match v with
  | PNone => false
  | PBool b => b
  | PInt z => negb (z =? 0)
  | PFloat (FFinite num _) _ => negb (num =? 0)
  | PFloat _ _ => true
  | PStr s => negb (PyStr.is_empty s)
  | POther _ t => t
  end.

(** [d.get(k)] *)
Definition dict_get (d : gmap string pyval) (k : string) : pyval :=
  default PNone (d !! k).

(** [d.get(k, False)] *)
Definition dict_get_flag (d : gmap string pyval) (k : string) : pyval :=
  default (PBool false) (d !! k).

(** Truth of a string and of an integer held in a typed field. *)
Definition str_truthy (s : string) : bool := negb (PyStr.is_empty s).
Definition int_truthy (z : Z) : bool := negb (z =? 0).

(* ===================================================================== *)
(** ** Normalized entities *)
(* ===================================================================== *)

(** The mapping [_normalize_entities] builds and the fallback extractor
    fills: a dict over a fixed set of keys. A field is [None] when the key
    is absent. The filter values are typed as the producers type them
    ([int] for prices and years, [str] for the rest); ['phone'] can be
    present with the value [None] ([Some None]); the intent flags and
    ['confirmation'] are passed through as raw values. No producer writes
    the keys ['year'] or ['price']. *)
Record Entities := mkEntities {
  e_min_price : option Z;
  e_max_price : option Z;
  e_min_year : option Z;
  e_max_year : option Z;
  e_brand : option string;
  e_model : option string;
  e_engine_type : option string;
  e_body_type : option string;
  e_transmission : option string;
  e_first_name : option string;
  e_last_name : option string;
  e_phone : option (option string);
  e_desired_car_description : option string;
  e_is_greeting : option pyval;
  e_is_reset : option pyval;
  e_is_farewell : option pyval;
  e_is_list_all : option pyval;
  e_is_similarity_request : option pyval;
  e_confirmation : option pyval
}.

(** [entities = {}] *)
Definition no_entities : Entities :=
  mkEntities None None None None None None None None None None None None None
             None None None None None None.

Definition is_some {A : Type} (o : option A) : bool :=
  match o with Some _ => true | None => false end.

(** [not entities]: the dict has no key. *)
Definition entities_empty (e : Entities) : bool :=
  negb (is_some (e_min_price e) || is_some (e_max_price e)
        || is_some (e_min_year e) || is_some (e_max_year e)
        || is_some (e_brand e) || is_some (e_model e)
        || is_some (e_engine_type e) || is_some (e_body_type e)
        || is_some (e_transmission e)
        || is_some (e_first_name e) || is_some (e_last_name e)
        || is_some (e_phone e) || is_some (e_desired_car_description e)
        || is_some (e_is_greeting e) || is_some (e_is_reset e)
        || is_some (e_is_farewell e) || is_some (e_is_list_all e)
        || is_some (e_is_similarity_request e) || is_some (e_confirmation e)).

(** [entities.get(flag)] as a truth value. *)
Definition flag_set (o : option pyval) : bool :=
  match o with Some v => truthy v | None => false end.

(** [entities.get('confirmation') == word] *)
Definition confirmation_is (word : string) (e : Entities) : bool :=
  match e_confirmation e with
  | Some (PStr s) => String.eqb s word
  | _ => false
  end.

(* ===================================================================== *)
(** ** Entity normalizer ([agent.py], [_normalize_entities] and helpers) *)
(* ===================================================================== *)

Module Normalizer.
Import PyStr.

Definition _normalize_phone (phone_str : option string) : option string :=
  match phone_str with
  | None => None
  | Some s =>
      let cleaned := sub_non_digits s in
      let n := String.length cleaned in
      if Nat.leb 10 n && Nat.leb n 13 then Some cleaned else None
  end.

(** The string branch of [_parse_price]. Its [try] turns the error of
    [int] on an over-long run of digits into [None]. *)
Definition parse_price_str (price_val : string) : option Z :=
  let price_str := lower price_val in
  let price_str :=
    strip (sub_separators (replace "try" "" (replace "tl" "" price_str))) in
  let '(multiplier, price_str) :=
    if contains "milyon" price_str
    then (1000000, replace "milyon" "" price_str)
    else if contains "bin" price_str || contains "k" price_str
    then (1000, replace "k" "" (replace "bin" "" price_str))
    else (1, price_str) in
  match search_digits (strip price_str) with
  | Some digits =>
      match int_of_digits_checked digits with
      | Some n => Some (n * multiplier)
      | None => None
      end
  | None => None
  end.

(** [int(x)] on a float. *)
Definition int_of_float (f : pyfloat) : res Z :=
  match f with
  | FFinite num den => Ok (Z.quot num (Z.pos den))
  | FInfinity _ => Raise OverflowError
  | FNaN => Raise ValueError
  end.

(** [bool] is a subclass of [int]: [int(True) = 1]. *)
Definition _parse_price (price_val : pyval) : res (option Z) :=
  match price_val with
  | PNone => Ok None
  | PBool b => Ok (Some (if b then 1 else 0))
  | PInt z => Ok (Some z)
  | PFloat f _ => do z <- int_of_float f; Ok (Some z)
  | PStr s => Ok (parse_price_str s)
  | POther repr _ => Ok (parse_price_str repr)
  end.

Definition parse_year_str (year_str : string) : option Z :=
  match search_year year_str with
  | Some digits => int_of_digits_checked digits
  | None => None
  end.

Definition _parse_year (year_val : pyval) : option Z :=
  match year_val with
  | PNone => None
  | PInt z =>
      if (1900 <? z) && (z <? 2100) then Some z
      else parse_year_str (py_str year_val)
  | _ => parse_year_str (py_str year_val)
  end.

(** [value_mapping] *)
Definition engine_type_mapping : list (string * string) :=
  [("electric", "Elektrik"); ("electrical", "Elektrik");
   ("elektrikli", "Elektrik"); ("elektrik", "Elektrik");
   ("diesel", "Dizel"); ("dizel", "Dizel");
   ("gasoline", "Benzin"); ("petrol", "Benzin");
   ("benzinli", "Benzin"); ("benzin", "Benzin");
   ("hybrid", "Hibrit"); ("hibrit", "Hibrit")].

Definition body_type_mapping : list (string * string) :=
  [("suv", "SUV"); ("sedan", "Sedan"); ("hatchback", "Hatchback");
   ("hb", "Hatchback")].

Definition transmission_mapping : list (string * string) :=
  [("automatic", "Otomatik"); ("auto", "Otomatik");
   ("otomatik", "Otomatik"); ("manual", "Manuel"); ("manuel", "Manuel")].

Fixpoint mapping_get (m : list (string * string)) (k : string)
  : option string :=
  match m with
  | [] => None
  | (k', v) :: m' => if String.eqb k' k then Some v else mapping_get m' k
  end.

(** One round of the loop over [llm_filter_keys]; [mapping] is
    [value_mapping.get(context_key)], [None] for brand and model. *)
Definition normalize_filter (mapping : option (list (string * string)))
    (value : pyval) : option string :=
  match value with
  | PStr s =>
      if is_empty (strip s) then None
      else
        let norm_value_lower := lower (strip s) in
        let normalized_value := title (strip s) in
        match mapping with
        | Some m =>
            match mapping_get m norm_value_lower with
            | Some mapped_value =>
                if str_truthy mapped_value then Some mapped_value
                else Some normalized_value
            | None => Some normalized_value
            end
        | None => Some normalized_value
        end
  | _ => None
  end.

(** [if key in entities: ... str(entities[key]) ...] *)
Definition present_str (entities : gmap string pyval) (k : string)
  : option string :=
  match entities !! k with
  | Some v => Some (py_str v)
  | None => None
  end.

(** The last statement, [log.debug(f"Normalized entities: {normalized}")],
    renders the mapping whatever the log level; that raises on an integer
    of more than 4300 digits. The years are below 2100 and the raw values
    are JSON values, so only a price can be that long. *)
Definition renders (value : option Z) : bool :=
  match value with
  | Some z => negb (str_int_fails z)
  | None => true
  end.

Definition _normalize_entities (entities : gmap string pyval)
  : res Entities :=
  do min_p <- _parse_price (dict_get entities "min_price");
  do max_p <- _parse_price (dict_get entities "max_price");
  let min_y := _parse_year (dict_get entities "min_year") in
  let max_y := _parse_year (dict_get entities "max_year") in
  let normalized := {|
    e_min_price := min_p;
    e_max_price := max_p;
    e_min_year := min_y;
    e_max_year := max_y;
    e_brand := normalize_filter None (dict_get entities "brand_name");
    e_model := normalize_filter None (dict_get entities "model_name");
    e_engine_type :=
      normalize_filter (Some engine_type_mapping)
                       (dict_get entities "engine_type");
    e_body_type :=
      normalize_filter (Some body_type_mapping)
                       (dict_get entities "body_type");
    e_transmission :=
      normalize_filter (Some transmission_mapping)
                       (dict_get entities "transmission");
    e_first_name :=
      option_map (fun s => title (strip s)) (present_str entities "first_name");
    e_last_name :=
      option_map (fun s => title (strip s)) (present_str entities "last_name");
    e_phone :=
      option_map (fun s => _normalize_phone (Some s))
                 (present_str entities "phone_number");
    e_desired_car_description :=
      option_map strip (present_str entities "desired_car_description");
    e_is_greeting := Some (dict_get_flag entities "is_greeting");
    e_is_reset := Some (dict_get_flag entities "is_reset");
    e_is_farewell := Some (dict_get_flag entities "is_farewell");
    e_is_list_all := Some (dict_get_flag entities "is_list_all");
    e_is_similarity_request :=
      Some (dict_get_flag entities "is_similarity_request");
    e_confirmation := Some (dict_get entities "confirmation")
  |} in
  if renders min_p && renders max_p then Ok normalized else Raise ValueError.

End Normalizer.

(* ===================================================================== *)
(** ** Short-term memory ([memory_utils.py], [MemoryManager]) *)
(* ===================================================================== *)

Module Memory.

Record Message := mkMessage { role : string; content : string }.

Record MemoryManager := mkMemory {
  max_messages : Z;
  memory : list Message
}.

(** [MemoryManager(max_turns)] *)
Definition init (max_turns : Z) : MemoryManager :=
  {| max_messages := max_turns * 2; memory := [] |}.

(** [add_message]: an empty content is not stored; after the append the
    list is cut from the front down to [max_messages] entries. *)
Definition add_message (role content : string) (m : MemoryManager)
  : MemoryManager :=
  if PyStr.is_empty content then m
  else
    let appended := (memory m ++ [mkMessage role content])%list in
    if max_messages m <? Z.of_nat (length appended)
    then
      let excess := Z.of_nat (length appended) - max_messages m in
      {| max_messages := max_messages m;
         memory := skipn (Z.to_nat excess) appended |}
    else {| max_messages := max_messages m; memory := appended |}.

Definition get_memory (m : MemoryManager) : list Message := memory m.

Definition clear_memory (m : MemoryManager) : MemoryManager :=
  {| max_messages := max_messages m; memory := [] |}.

(** A sequence of [add_message] calls, oldest first. *)
Definition add_messages (calls : list Message) (m : MemoryManager)
  : MemoryManager :=
  fold_left (fun acc msg => add_message (role msg) (content msg) acc) calls m.

(** The calls that store something. *)
Definition stored (calls : list Message) : list Message :=
  List.filter (fun msg => negb (PyStr.is_empty (content msg))) calls.

End Memory.

(* ===================================================================== *)
(** ** Decimal numbers ([decimal.Decimal], default context) *)
(* ===================================================================== *)

Module Dec.

(** [coeff * 10 ^ expo] *)
Record decimal := mkDec { coeff : Z; expo : Z }.

(** A binary float, [mant * 2 ^ bexp]. *)
Record float64 := mkFloat { mant : Z; bexp : Z }.

(** The context precision, and the rounding [ROUND_HALF_EVEN]. *)
Definition prec : Z := 28.

Fixpoint ndigits_fuel (fuel : nat) (n : Z) : Z :=
  match fuel with
  | O => 0
  | S k => if n <=? 0 then 0 else 1 + ndigits_fuel k (n / 10)
  end.

(** Number of decimal digits of [|n|] ([0] for [0]). *)
Definition ndigits (n : Z) : Z :=
  ndigits_fuel (S (Z.to_nat (Z.log2 (Z.abs n)))) (Z.abs n).

(** [|c|] without its last [shift] digits, rounded half to even. *)
Definition round_half_even (c : Z) (shift : Z) : Z :=
  let p := 10 ^ shift in
  let q := Z.abs c / p in
  let r := Z.abs c mod p in
  let up := (p <? 2 * r) || ((p =? 2 * r) && Z.odd q) in
  Z.sgn c * (if up then q + 1 else q).

(** The rounding every arithmetic operation ends with. *)
Definition fix_prec (d : decimal) : decimal :=
  let n := ndigits (coeff d) in
  if n <=? prec then d
  else
    let shift := n - prec in
    let q := round_half_even (coeff d) shift in
    if ndigits q <=? prec then mkDec q (expo d + shift)
    else mkDec (Z.quot q 10) (expo d + shift + 1).

(** The coefficient of [d] at the exponent [e <= expo d]. *)
Definition align (e : Z) (d : decimal) : Z := coeff d * 10 ^ (expo d - e).

Definition exact_add (a b : decimal) : decimal :=
  let e := Z.min (expo a) (expo b) in
  mkDec (align e a + align e b) e.

Definition neg (a : decimal) : decimal := mkDec (- coeff a) (expo a).

Definition add (a b : decimal) : decimal := fix_prec (exact_add a b).
Definition sub (a b : decimal) : decimal := fix_prec (exact_add a (neg b)).
Definition mul (a b : decimal) : decimal :=
  fix_prec (mkDec (coeff a * coeff b) (expo a + expo b)).

(** [Decimal(n)] for an [int], and [Decimal(x)] for a [float]: both
    exact, whatever the precision. The conversion of a float starts from
    its reduced ratio: the mantissa is taken odd when the exponent is
    negative. *)
Definition of_int (n : Z) : decimal := mkDec n 0.

Definition of_float (x : float64) : decimal :=
  if 0 <=? bexp x then mkDec (mant x * 2 ^ bexp x) 0
  else mkDec (mant x * 5 ^ (- bexp x)) (bexp x).

(** Exact comparisons, and the exact distance (scaled to the smaller
    exponent) the query orders by. *)
Definition compare (a b : decimal) : comparison :=
  let e := Z.min (expo a) (expo b) in
  Z.compare (align e a) (align e b).

Definition leb (a b : decimal) : bool :=
  match compare a b with Gt => false | _ => true end.

Definition eqb (a b : decimal) : bool :=
  match compare a b with Eq => true | _ => false end.

Definition abs_diff (a b : decimal) : decimal :=
  let e := Z.min (expo a) (expo b) in
  mkDec (Z.abs (align e a - align e b)) e.

(** The [float] literal [0.15]: the binary64 number nearest to 15/100. *)
Definition float_0_15 : float64 := mkFloat 5404319552844595 (-55).

End Dec.

(* ===================================================================== *)
(** ** Filters *)
(* ===================================================================== *)

(** [context['filters']]: the dict [_reset_context] creates, with the seven
    column keys and the four range keys; no code adds or removes a key. *)
Record Filters := mkFilters {
  f_brand : option string;
  f_model : option string;
  f_engine_type : option string;
  f_body_type : option string;
  f_transmission : option string;
  f_price : option Z;
  f_year : option Z;
  f_min_price : option Z;
  f_max_price : option Z;
  f_min_year : option Z;
  f_max_year : option Z
}.

Definition empty_filters : Filters :=
  mkFilters None None None None None None None None None None None.

Definition set_f_brand (v : option string) (f : Filters) : Filters :=
  mkFilters v (f_model f) (f_engine_type f) (f_body_type f) (f_transmission f)
            (f_price f) (f_year f) (f_min_price f) (f_max_price f)
            (f_min_year f) (f_max_year f).
Definition set_f_model (v : option string) (f : Filters) : Filters :=
  mkFilters (f_brand f) v (f_engine_type f) (f_body_type f) (f_transmission f)
            (f_price f) (f_year f) (f_min_price f) (f_max_price f)
            (f_min_year f) (f_max_year f).
Definition set_f_engine_type (v : option string) (f : Filters) : Filters :=
  mkFilters (f_brand f) (f_model f) v (f_body_type f) (f_transmission f)
            (f_price f) (f_year f) (f_min_price f) (f_max_price f)
            (f_min_year f) (f_max_year f).
Definition set_f_body_type (v : option string) (f : Filters) : Filters :=
  mkFilters (f_brand f) (f_model f) (f_engine_type f) v (f_transmission f)
            (f_price f) (f_year f) (f_min_price f) (f_max_price f)
            (f_min_year f) (f_max_year f).
Definition set_f_transmission (v : option string) (f : Filters) : Filters :=
  mkFilters (f_brand f) (f_model f) (f_engine_type f) (f_body_type f) v
            (f_price f) (f_year f) (f_min_price f) (f_max_price f)
            (f_min_year f) (f_max_year f).
Definition set_f_min_price (v : option Z) (f : Filters) : Filters :=
  mkFilters (f_brand f) (f_model f) (f_engine_type f) (f_body_type f)
            (f_transmission f) (f_price f) (f_year f) v (f_max_price f)
            (f_min_year f) (f_max_year f).
Definition set_f_max_price (v : option Z) (f : Filters) : Filters :=
  mkFilters (f_brand f) (f_model f) (f_engine_type f) (f_body_type f)
            (f_transmission f) (f_price f) (f_year f) (f_min_price f) v
            (f_min_year f) (f_max_year f).
Definition set_f_min_year (v : option Z) (f : Filters) : Filters :=
  mkFilters (f_brand f) (f_model f) (f_engine_type f) (f_body_type f)
            (f_transmission f) (f_price f) (f_year f) (f_min_price f)
            (f_max_price f) v (f_max_year f).
Definition set_f_max_year (v : option Z) (f : Filters) : Filters :=
  mkFilters (f_brand f) (f_model f) (f_engine_type f) (f_body_type f)
            (f_transmission f) (f_price f) (f_year f) (f_min_price f)
            (f_max_price f) (f_min_year f) v.

(** Truth of an optional typed value: [None], [''] and [0] are false. *)
Definition opt_str_truthy (o : option string) : bool :=
  match o with Some s => str_truthy s | None => false end.
Definition opt_int_truthy (o : option Z) : bool :=
  match o with Some z => int_truthy z | None => false end.

(* ===================================================================== *)
(** ** Catalog and customer store ([models.py], [db_utils.py]) *)
(* ===================================================================== *)

Module Catalog.
Import Dec.

Record Car := mkCar {
  car_id : Z;
  car_brand : string;
  car_model : string;
  car_engine_type : option string;
  car_horsepower : option Z;
  car_capacity : option decimal;
  car_price : decimal;
  car_currency : option string;
  car_year : option Z;
  car_body_type : option string;
  car_transmission : option string
}.

Record CustomerLead := mkLead {
  lead_id : Z;
  lead_first_name : string;
  lead_last_name : option string;
  lead_phone : string;
  lead_desired_car_info : option string
}.

(** The two tables, rows in storage order. *)
Record Database := mkDb {
  cars : list Car;
  customer_leads : list CustomerLead
}.

(** [hasattr(Car, name)] *)
Definition car_columns : list string :=
  ["id"; "brand"; "model"; "engine_type"; "horsepower"; "capacity";
   "price"; "currency"; "year"; "body_type"; "transmission"; "created_at"].

Definition hasattr_Car (name : string) : bool :=
  existsb (String.eqb name) car_columns.

(** [ORDER BY]: a stable insertion sort; rows with equal keys stay in
    storage order (the engine leaves their order open). *)
Fixpoint insert_by {A : Type} (le : A -> A -> bool) (x : A) (l : list A)
  : list A :=
  match l with
  | [] => [x]
  | y :: l' => if le x y then x :: l else y :: insert_by le x l'
  end.

Definition sort_by {A : Type} (le : A -> A -> bool) (l : list A) : list A :=
  fold_right (insert_by le) [] l.

(** [func.lower(column) == str(value).lower()] *)
Definition ci_eqb (a b : string) : bool :=
  String.eqb (PyStr.lower a) (PyStr.lower b).

(** A filter on a string column; [None] and [''] are skipped, and a NULL
    column matches nothing. *)
Definition match_str (value : option string) (column : option string)
  : bool :=
  match value with
  | None => true
  | Some v =>
      if PyStr.is_empty v then true
      else match column with
           | Some c => ci_eqb c v
           | None => false
           end
  end.

Definition match_int (op : Z -> Z -> bool) (value : option Z)
    (column : option Z) : bool :=
  match value with
  | None => true
  | Some v => match column with
              | Some c => op c v
              | None => false
              end
  end.

Definition match_price (op : decimal -> decimal -> bool) (value : option Z)
    (column : decimal) : bool :=
  match value with
  | None => true
  | Some v => op column (of_int v)
  end.

(** The conjunction of the [query.filter] calls of
    [find_cars_by_criteria]. *)
Definition car_matches (filters : Filters) (car : Car) : bool :=
  match_str (f_brand filters) (Some (car_brand car))
  && match_str (f_model filters) (Some (car_model car))
  && match_str (f_engine_type filters) (car_engine_type car)
  && match_str (f_body_type filters) (car_body_type car)
  && match_str (f_transmission filters) (car_transmission car)
  && match_price Dec.eqb (f_price filters) (car_price car)
  && match_int Z.eqb (f_year filters) (car_year car)
  && match_price (fun c v => Dec.leb v c) (f_min_price filters) (car_price car)
  && match_price Dec.leb (f_max_price filters) (car_price car)
  && match_int Z.geb (f_min_year filters) (car_year car)
  && match_int Z.leb (f_max_year filters) (car_year car).

(** [if limit: query = query.limit(limit)] *)
Definition apply_limit {A : Type} (limit : nat) (l : list A) : list A :=
  match limit with
  | O => l
  | _ => firstn limit l
  end.

(** [find_cars_by_criteria(db, filters, limit=limit)], with the default
    sort (price, ascending) every caller uses. *)
Definition find_cars_by_criteria (db : Database) (filters : Filters)
    (limit : nat) : list Car :=
  apply_limit limit
    (sort_by (fun a b => Dec.leb (car_price a) (car_price b))
             (List.filter (car_matches filters) (cars db))).

(** [find_customer_lead_by_phone] *)
Definition find_customer_lead_by_phone (db : Database) (phone : string)
  : option CustomerLead :=
  if PyStr.is_empty phone then None
  else
    let cleaned_phone := PyStr.sub_non_digits phone in
    List.find (fun lead => String.eqb (lead_phone lead) cleaned_phone)
              (customer_leads db).

(** The price window of [find_similar_priced_cars]. *)
Definition similar_min_price (target_price : decimal) (tolerance : float64)
  : decimal :=
  mul target_price (sub (of_int 1) (of_float tolerance)).

Definition similar_max_price (target_price : decimal) (tolerance : float64)
  : decimal :=
  mul target_price (add (of_int 1) (of_float tolerance)).

Definition in_price_window (target_price : decimal) (tolerance : float64)
    (car : Car) : bool :=
  Dec.leb (similar_min_price target_price tolerance) (car_price car)
  && Dec.leb (car_price car) (similar_max_price target_price tolerance).

(** The exclusion filter: both given, the pair; only the model, the
    model under any brand; otherwise nothing. *)
Definition not_excluded (exclude_brand exclude_model : option string)
    (car : Car) : bool :=
  if opt_str_truthy exclude_brand && opt_str_truthy exclude_model
  then negb (ci_eqb (car_brand car) (default "" exclude_brand)
             && ci_eqb (car_model car) (default "" exclude_model))
  else if opt_str_truthy exclude_model
  then negb (ci_eqb (car_model car) (default "" exclude_model))
  else true.

(** The key of [order_by(func.abs(Car.price - target_price))]. *)
Definition price_distance (target_price : decimal) (car : Car) : decimal :=
  abs_diff (car_price car) target_price.

Definition find_similar_priced_cars (db : Database)
    (target_price : option decimal)
    (exclude_brand exclude_model : option string)
    (tolerance : float64) (limit : nat) : list Car :=
  match target_price with
  | None => []
  | Some target =>
      firstn limit
        (sort_by (fun a b => Dec.leb (price_distance target a)
                                     (price_distance target b))
           (List.filter
              (fun car => in_price_window target tolerance car
                          && not_excluded exclude_brand exclude_model car)
              (cars db)))
  end.

End Catalog.

(* ===================================================================== *)
(** ** The dialogue agent ([agent.py], [AIAgent]) *)
(* ===================================================================== *)

Module Agent.
Import Dec Catalog Memory.

(** *** Responses

    A response is one of the templates of [RESPONSE_TEMPLATES] (or one of
    the literals of the code) with the data it is formatted from; the
    rendering to text is left to [render] below. *)
Inductive Question :=
| AskQuestion (filter_key : string).

#[warnings="-register-all"]
Inductive Response :=
| Greeting
| ShowResults (found_cars : list Car)
| NoResults
| ShowSimilarResults (similar_cars : list Car)
| NoSimilarResults
| SimilarityContextMissing
| ConfirmReset
| Farewell
| GenericFallback
| ErrorFallback
| ConfirmModelMatch (car : Car)
| ConfirmMultipleModelMatch (found_cars : list Car)
| ModelNotFoundAskBrand (model_name : string)
| ConfirmationAcknowledgeAskNext (confirmed_brand confirmed_model : string)
    (next_q : option Question) (search_prompt : bool)
| ClarificationNeededAfterNo
| ClarificationNeededAmbiguous
| AskNextQuestion (question : Question)
| AcknowledgeAndAsk (acknowledged_info : string) (question : Question)
| OfferSearchOrReset
| NoMoreQuestions
| ListAllResults (found_cars : list Car)
| ListAllEmpty
| NarrowOrAlternatives
| AskNewCriteria
| ProactiveSearchResults (found_cars : list Car)
| ProactiveNoResults
| ProactiveAsk (question : Question)
| ProactiveCannotParse
| ProactiveStart (search_message_part : option Response).

(** *** The context *)
Record Context := mkContext {
  filters : Filters;
  asked_questions : gset string;
  last_question_key : option string;
  search_performed : bool;
  results_shown : bool;
  last_acknowledged_info : option string;
  customer_id : option Z;
  customer_first_name : option string;
  customer_phone : option string;
  customer_desired_car : option string;
  initial_personalized_greeting_done : bool;
  asked_for_customer_info : bool;
  last_response : option Response;
  last_shown_cars : option (list Car);
  last_shown_target_price : option decimal;
  last_shown_target_model : option string;
  last_shown_target_brand : option string;
  awaiting_model_confirmation : bool;
  potential_model_matches : option (list Car)
}.

Definition set_filters (v : Filters) (c : Context) : Context :=
  mkContext v (asked_questions c) (last_question_key c) (search_performed c)
    (results_shown c) (last_acknowledged_info c) (customer_id c)
    (customer_first_name c) (customer_phone c) (customer_desired_car c)
    (initial_personalized_greeting_done c) (asked_for_customer_info c)
    (last_response c) (last_shown_cars c) (last_shown_target_price c)
    (last_shown_target_model c) (last_shown_target_brand c)
    (awaiting_model_confirmation c) (potential_model_matches c).
Definition set_asked_questions (v : gset string) (c : Context) : Context :=
  mkContext (filters c) v (last_question_key c) (search_performed c)
    (results_shown c) (last_acknowledged_info c) (customer_id c)
    (customer_first_name c) (customer_phone c) (customer_desired_car c)
    (initial_personalized_greeting_done c) (asked_for_customer_info c)
    (last_response c) (last_shown_cars c) (last_shown_target_price c)
    (last_shown_target_model c) (last_shown_target_brand c)
    (awaiting_model_confirmation c) (potential_model_matches c).
Definition set_last_question_key (v : option string) (c : Context) : Context :=
  mkContext (filters c) (asked_questions c) v (search_performed c)
    (results_shown c) (last_acknowledged_info c) (customer_id c)
    (customer_first_name c) (customer_phone c) (customer_desired_car c)
    (initial_personalized_greeting_done c) (asked_for_customer_info c)
    (last_response c) (last_shown_cars c) (last_shown_target_price c)
    (last_shown_target_model c) (last_shown_target_brand c)
    (awaiting_model_confirmation c) (potential_model_matches c).
Definition set_search_performed (v : bool) (c : Context) : Context :=
  mkContext (filters c) (asked_questions c) (last_question_key c) v
    (results_shown c) (last_acknowledged_info c) (customer_id c)
    (customer_first_name c) (customer_phone c) (customer_desired_car c)
    (initial_personalized_greeting_done c) (asked_for_customer_info c)
    (last_response c) (last_shown_cars c) (last_shown_target_price c)
    (last_shown_target_model c) (last_shown_target_brand c)
    (awaiting_model_confirmation c) (potential_model_matches c).
Definition set_results_shown (v : bool) (c : Context) : Context :=
  mkContext (filters c) (asked_questions c) (last_question_key c)
    (search_performed c) v (last_acknowledged_info c) (customer_id c)
    (customer_first_name c) (customer_phone c) (customer_desired_car c)
    (initial_personalized_greeting_done c) (asked_for_customer_info c)
    (last_response c) (last_shown_cars c) (last_shown_target_price c)
    (last_shown_target_model c) (last_shown_target_brand c)
    (awaiting_model_confirmation c) (potential_model_matches c).
Definition set_last_acknowledged_info (v : option string) (c : Context) : Context :=
  mkContext (filters c) (asked_questions c) (last_question_key c)
    (search_performed c) (results_shown c) v (customer_id c)
    (customer_first_name c) (customer_phone c) (customer_desired_car c)
    (initial_personalized_greeting_done c) (asked_for_customer_info c)
    (last_response c) (last_shown_cars c) (last_shown_target_price c)
    (last_shown_target_model c) (last_shown_target_brand c)
    (awaiting_model_confirmation c) (potential_model_matches c).
Definition set_customer_id (v : option Z) (c : Context) : Context :=
  mkContext (filters c) (asked_questions c) (last_question_key c)
    (search_performed c) (results_shown c) (last_acknowledged_info c) v
    (customer_first_name c) (customer_phone c) (customer_desired_car c)
    (initial_personalized_greeting_done c) (asked_for_customer_info c)
    (last_response c) (last_shown_cars c) (last_shown_target_price c)
    (last_shown_target_model c) (last_shown_target_brand c)
    (awaiting_model_confirmation c) (potential_model_matches c).
Definition set_customer_first_name (v : option string) (c : Context) : Context :=
  mkContext (filters c) (asked_questions c) (last_question_key c)
    (search_performed c) (results_shown c) (last_acknowledged_info c)
    (customer_id c) v (customer_phone c) (customer_desired_car c)
    (initial_personalized_greeting_done c) (asked_for_customer_info c)
    (last_response c) (last_shown_cars c) (last_shown_target_price c)
    (last_shown_target_model c) (last_shown_target_brand c)
    (awaiting_model_confirmation c) (potential_model_matches c).
Definition set_customer_phone (v : option string) (c : Context) : Context :=
  mkContext (filters c) (asked_questions c) (last_question_key c)
    (search_performed c) (results_shown c) (last_acknowledged_info c)
    (customer_id c) (customer_first_name c) v (customer_desired_car c)
    (initial_personalized_greeting_done c) (asked_for_customer_info c)
    (last_response c) (last_shown_cars c) (last_shown_target_price c)
    (last_shown_target_model c) (last_shown_target_brand c)
    (awaiting_model_confirmation c) (potential_model_matches c).
Definition set_customer_desired_car (v : option string) (c : Context) : Context :=
  mkContext (filters c) (asked_questions c) (last_question_key c)
    (search_performed c) (results_shown c) (last_acknowledged_info c)
    (customer_id c) (customer_first_name c) (customer_phone c) v
    (initial_personalized_greeting_done c) (asked_for_customer_info c)
    (last_response c) (last_shown_cars c) (last_shown_target_price c)
    (last_shown_target_model c) (last_shown_target_brand c)
    (awaiting_model_confirmation c) (potential_model_matches c).
Definition set_initial_personalized_greeting_done (v : bool) (c : Context) : Context :=
  mkContext (filters c) (asked_questions c) (last_question_key c)
    (search_performed c) (results_shown c) (last_acknowledged_info c)
    (customer_id c) (customer_first_name c) (customer_phone c)
    (customer_desired_car c) v (asked_for_customer_info c) (last_response c)
    (last_shown_cars c) (last_shown_target_price c) (last_shown_target_model
    c) (last_shown_target_brand c) (awaiting_model_confirmation c)
    (potential_model_matches c).
Definition set_last_response (v : option Response) (c : Context) : Context :=
  mkContext (filters c) (asked_questions c) (last_question_key c)
    (search_performed c) (results_shown c) (last_acknowledged_info c)
    (customer_id c) (customer_first_name c) (customer_phone c)
    (customer_desired_car c) (initial_personalized_greeting_done c)
    (asked_for_customer_info c) v (last_shown_cars c)
    (last_shown_target_price c) (last_shown_target_model c)
    (last_shown_target_brand c) (awaiting_model_confirmation c)
    (potential_model_matches c).
Definition set_last_shown_cars (v : option (list Car)) (c : Context) : Context :=
  mkContext (filters c) (asked_questions c) (last_question_key c)
    (search_performed c) (results_shown c) (last_acknowledged_info c)
    (customer_id c) (customer_first_name c) (customer_phone c)
    (customer_desired_car c) (initial_personalized_greeting_done c)
    (asked_for_customer_info c) (last_response c) v (last_shown_target_price
    c) (last_shown_target_model c) (last_shown_target_brand c)
    (awaiting_model_confirmation c) (potential_model_matches c).
Definition set_last_shown_target_price (v : option decimal) (c : Context) : Context :=
  mkContext (filters c) (asked_questions c) (last_question_key c)
    (search_performed c) (results_shown c) (last_acknowledged_info c)
    (customer_id c) (customer_first_name c) (customer_phone c)
    (customer_desired_car c) (initial_personalized_greeting_done c)
    (asked_for_customer_info c) (last_response c) (last_shown_cars c) v
    (last_shown_target_model c) (last_shown_target_brand c)
    (awaiting_model_confirmation c) (potential_model_matches c).
Definition set_last_shown_target_model (v : option string) (c : Context) : Context :=
  mkContext (filters c) (asked_questions c) (last_question_key c)
    (search_performed c) (results_shown c) (last_acknowledged_info c)
    (customer_id c) (customer_first_name c) (customer_phone c)
    (customer_desired_car c) (initial_personalized_greeting_done c)
    (asked_for_customer_info c) (last_response c) (last_shown_cars c)
    (last_shown_target_price c) v (last_shown_target_brand c)
    (awaiting_model_confirmation c) (potential_model_matches c).
Definition set_last_shown_target_brand (v : option string) (c : Context) : Context :=
  mkContext (filters c) (asked_questions c) (last_question_key c)
    (search_performed c) (results_shown c) (last_acknowledged_info c)
    (customer_id c) (customer_first_name c) (customer_phone c)
    (customer_desired_car c) (initial_personalized_greeting_done c)
    (asked_for_customer_info c) (last_response c) (last_shown_cars c)
    (last_shown_target_price c) (last_shown_target_model c) v
    (awaiting_model_confirmation c) (potential_model_matches c).
Definition set_awaiting_model_confirmation (v : bool) (c : Context) : Context :=
  mkContext (filters c) (asked_questions c) (last_question_key c)
    (search_performed c) (results_shown c) (last_acknowledged_info c)
    (customer_id c) (customer_first_name c) (customer_phone c)
    (customer_desired_car c) (initial_personalized_greeting_done c)
    (asked_for_customer_info c) (last_response c) (last_shown_cars c)
    (last_shown_target_price c) (last_shown_target_model c)
    (last_shown_target_brand c) v (potential_model_matches c).
Definition set_potential_model_matches (v : option (list Car)) (c : Context) : Context :=
  mkContext (filters c) (asked_questions c) (last_question_key c)
    (search_performed c) (results_shown c) (last_acknowledged_info c)
    (customer_id c) (customer_first_name c) (customer_phone c)
    (customer_desired_car c) (initial_personalized_greeting_done c)
    (asked_for_customer_info c) (last_response c) (last_shown_cars c)
    (last_shown_target_price c) (last_shown_target_model c)
    (last_shown_target_brand c) (awaiting_model_confirmation c) v.

(** The agent: the context, the memory, and the attribute
    [updated_keys_this_turn]. *)
Record Agent := mkAgent {
  current_context : Context;
  memory_manager : MemoryManager;
  updated_keys_this_turn : gset string
}.

(** *** Configuration *)

(** [FILTER_QUESTIONS], without the texts: field, asked flag, priority;
    listed by priority. *)
Definition FILTER_QUESTIONS : list (string * (string * Z)) :=
  [("brand", ("asked_brand", 1));
   ("engine_type", ("asked_engine", 2));
   ("body_type", ("asked_body", 3));
   ("price_range", ("asked_price", 4));
   ("transmission", ("asked_transmission", 5));
   ("year_range", ("asked_year", 6));
   ("model", ("asked_model", 7))].

Fixpoint assoc {A : Type} (l : list (string * A)) (k : string) : option A :=
  match l with
  | [] => None
  | (k', v) :: l' => if String.eqb k' k then Some v else assoc l' k
  end.

(** [FILTER_QUESTIONS[q_key][1]] when [q_key in FILTER_QUESTIONS]. *)
Definition asked_flag_of (q_key : string) : option string :=
  option_map fst (assoc FILTER_QUESTIONS q_key).

Definition SEARCH_TRIGGER_FIELDS : list string :=
  ["brand"; "model"; "engine_type"; "body_type"; "transmission"; "year"].

Definition DISPLAY_NAMES : list (string * string) :=
  [("brand", "Marka"); ("model", "Model"); ("engine_type", "Motor Tipi");
   ("body_type", "Gövde Tipi"); ("transmission", "Vites Tipi");
   ("min_price", "Min Fiyat"); ("max_price", "Maks Fiyat");
   ("min_year", "Min Yıl"); ("max_year", "Maks Yıl");
   ("price_range", "Fiyat Aralığı"); ("year_range", "Yıl Aralığı");
   ("first_name", "Ad"); ("last_name", "Soyad"); ("phone", "Telefon")].

(** [_reset_context], the context part. *)
Definition fresh_context : Context :=
  {| filters := empty_filters;
     asked_questions := ∅;
     last_question_key := None;
     search_performed := false;
     results_shown := false;
     last_acknowledged_info := None;
     customer_id := None;
     customer_first_name := None;
     customer_phone := None;
     customer_desired_car := None;
     initial_personalized_greeting_done := false;
     asked_for_customer_info := false;
     last_response := None;
     last_shown_cars := None;
     last_shown_target_price := None;
     last_shown_target_model := None;
     last_shown_target_brand := None;
     awaiting_model_confirmation := false;
     potential_model_matches := None |}.

(** [_reset_context]: a fresh context, and the memory cleared. *)
Definition _reset_context (a : Agent) : Agent :=
  {| current_context := fresh_context;
     memory_manager := clear_memory (memory_manager a);
     updated_keys_this_turn := updated_keys_this_turn a |}.

(** [AIAgent.__init__] *)
Definition new_agent : Agent :=
  {| current_context := fresh_context;
     memory_manager := Memory.init 3;
     updated_keys_this_turn := ∅ |}.

(** *** Context update ([_update_context_with_entities]) *)

(** [f"{decimal.Decimal(n):,.0f}"]: the digits in groups of three. *)
Fixpoint group_digits (seen : nat) (reversed : list ascii) : list ascii :=
  match reversed with
  | [] => []
  | c :: rest =>
      match seen with
      | 3%nat => ","%char :: c :: group_digits 1 rest
      | _ => c :: group_digits (S seen) rest
      end
  end.

Definition format_thousands (n : Z) : string :=
  let digits := list_ascii_of_string (PyStr.str_of_int (Z.abs n)) in
  let grouped := rev (group_digits 0 (rev digits)) in
  String.append (if (n <? 0)%Z then "-" else "") (string_of_list_ascii grouped).

Definition price_value_str (n : Z) : string :=
  (format_thousands n ++ " TL")%string.

Definition base_key_of (context_key : string) : string :=
  PyStr.replace "max_" "" (PyStr.replace "min_" "" context_key).

Definition is_range_bound (context_key : string) : bool :=
  existsb (String.eqb context_key)
          ["min_price"; "max_price"; "min_year"; "max_year"].

Definition question_key_of (context_key : string) : string :=
  if existsb (String.eqb context_key) ["min_price"; "max_price"]
  then "price_range"
  else if existsb (String.eqb context_key) ["min_year"; "max_year"]
  then "year_range"
  else context_key.

Definition display_name (context_key : string) : string :=
  default (PyStr.title (PyStr.replace "_" " " context_key))
          (assoc DISPLAY_NAMES context_key).

(** The state the loop over [potential_filter_keys] threads. *)
Record Merge := mkMerge {
  m_filters : Filters;
  m_asked : gset string;
  m_updated : bool;
  m_keys : gset string;
  m_parts : list string
}.

(** One round of the loop, for the key [context_key] whose value in the
    entities is [new_value] ([None]: the key is absent). *)
Definition merge_filter {V : Type} `{EqDecision V}
    (get : Filters -> option V) (set : option V -> Filters -> Filters)
    (value_str : V -> string) (context_key : string)
    (new_value : option V) (st : Merge) : Merge :=
  match new_value with
  | None => st
  | Some v =>
      if hasattr_Car (base_key_of context_key) || is_range_bound context_key
      then
        if bool_decide (get (m_filters st) = Some v) then st
        else
          {| m_filters := set (Some v) (m_filters st);
             m_asked :=
               match asked_flag_of (question_key_of context_key) with
               | Some asked_flag => {[asked_flag]} ∪ m_asked st
               | None => m_asked st
               end;
             m_updated := true;
             m_keys := {[context_key]} ∪ m_keys st;
             m_parts :=
               (m_parts st
                ++ [(display_name context_key ++ ": " ++ value_str v)%string])%list
          |}
      else st
  end.

(** The loop. The keys are the members of a Python set, visited in an
    order the language leaves open; the rounds touch different keys, so
    only the order of the acknowledged parts depends on it. The key
    ['year'] of the set is in no entity mapping: its round does nothing. *)
Definition merge_filters (entities : Entities) (st : Merge) : Merge :=
  let st := merge_filter f_brand set_f_brand id "brand" (e_brand entities) st in
  let st := merge_filter f_model set_f_model id "model" (e_model entities) st in
  let st := merge_filter f_engine_type set_f_engine_type id "engine_type"
              (e_engine_type entities) st in
  let st := merge_filter f_body_type set_f_body_type id "body_type"
              (e_body_type entities) st in
  let st := merge_filter f_transmission set_f_transmission id "transmission"
              (e_transmission entities) st in
  let st := merge_filter f_min_price set_f_min_price price_value_str
              "min_price" (e_min_price entities) st in
  let st := merge_filter f_max_price set_f_max_price price_value_str
              "max_price" (e_max_price entities) st in
  let st := merge_filter f_min_year set_f_min_year PyStr.str_of_int
              "min_year" (e_min_year entities) st in
  merge_filter f_max_year set_f_max_year PyStr.str_of_int
              "max_year" (e_max_year entities) st.

(** [", ".join(parts)] *)
Fixpoint join_parts (parts : list string) : string :=
  match parts with
  | [] => ""
  | [p] => p
  | p :: rest => (p ++ ", " ++ join_parts rest)%string
  end.

Definition is_nil {A : Type} (l : list A) : bool :=
  match l with [] => true | _ => false end.

(** The customer part of the update. *)
Definition merge_customer (entities : Entities) (ctx : Context)
  : Context * bool * gset string :=
  let '(ctx, updated, keys) :=
    match e_first_name entities with
    | Some first_name =>
        if bool_decide (customer_first_name ctx = Some first_name)
        then (ctx, false, ∅)
        else (set_customer_first_name (Some first_name) ctx, true,
              ({[ "first_name" ]} : gset string))
    | None => (ctx, false, ∅)
    end in
  match e_phone entities with
  | Some phone =>
      if bool_decide (customer_phone ctx = phone) then (ctx, updated, keys)
      else (set_customer_phone phone ctx, true, {[ "phone" ]} ∪ keys)
  | None => (ctx, updated, keys)
  end.

(** Reset of the model on a brand change. *)
Definition reset_model_on_brand_change
    (current_brand_before_update : option string) (st : Merge) : Merge :=
  let new_brand := f_brand (m_filters st) in
  if opt_str_truthy new_brand
     && negb (bool_decide (new_brand = current_brand_before_update))
  then
    match f_model (m_filters st) with
    | Some _ =>
        if hasattr_Car "model"
        then
          {| m_filters := set_f_model None (m_filters st);
             m_asked :=
               match asked_flag_of "model" with
               | Some model_asked_flag => m_asked st ∖ {[model_asked_flag]}
               | None => m_asked st
               end;
             m_updated := true;
             m_keys := m_keys st;
             m_parts := m_parts st |}
        else st
    | None => st
    end
  else st.

Definition _update_context_with_entities (entities : Entities) (a : Agent)
  : Agent * bool :=
  if entities_empty entities then (a, false)
  else
    let '(ctx, updated, keys) := merge_customer entities (current_context a) in
    let current_brand_before_update := f_brand (filters ctx) in
    let st :=
      merge_filters entities
        (mkMerge (filters ctx) (asked_questions ctx) updated keys []) in
    let st := reset_model_on_brand_change current_brand_before_update st in
    let ctx := set_asked_questions (m_asked st) (set_filters (m_filters st) ctx) in
    let ctx :=
      if m_updated st
      then
        let ctx :=
          set_last_acknowledged_info
            (if is_nil (m_parts st) then None
             else Some (join_parts (m_parts st))) ctx in
        set_results_shown false (set_search_performed false ctx)
      else set_last_acknowledged_info None ctx in
    ({| current_context := ctx;
        memory_manager := memory_manager a;
        updated_keys_this_turn := m_keys st |},
     m_updated st).

(** *** Minimum criteria ([_should_search]) *)

(** [filters.get(key) is not None] *)
Definition filter_is_set (f : Filters) (key : string) : bool :=
  if String.eqb key "brand" then is_some (f_brand f)
  else if String.eqb key "model" then is_some (f_model f)
  else if String.eqb key "engine_type" then is_some (f_engine_type f)
  else if String.eqb key "body_type" then is_some (f_body_type f)
  else if String.eqb key "transmission" then is_some (f_transmission f)
  else if String.eqb key "price" then is_some (f_price f)
  else if String.eqb key "year" then is_some (f_year f)
  else if String.eqb key "min_price" then is_some (f_min_price f)
  else if String.eqb key "max_price" then is_some (f_max_price f)
  else if String.eqb key "min_year" then is_some (f_min_year f)
  else if String.eqb key "max_year" then is_some (f_max_year f)
  else false.

Definition filled_trigger_fields (f : Filters) : list string :=
  (List.filter (fun key => filter_is_set f key && hasattr_Car key)
               SEARCH_TRIGGER_FIELDS
   ++ (if (filter_is_set f "min_price" || filter_is_set f "max_price")
          && hasattr_Car "price"
       then ["price_range"] else [])
   ++ (if (filter_is_set f "min_year" || filter_is_set f "max_year")
          && hasattr_Car "year"
       then ["year_range"] else []))%list.

Definition _should_search (ctx : Context) : bool :=
  negb (is_nil (filled_trigger_fields (filters ctx))).

(** *** Next question ([_get_next_question]) *)

Definition needs_asking (f : Filters) (filter_key : string) : bool :=
  if String.eqb filter_key "price_range"
  then negb (filter_is_set f "min_price") && negb (filter_is_set f "max_price")
  else if String.eqb filter_key "year_range"
  then negb (filter_is_set f "min_year") && negb (filter_is_set f "max_year")
  else if String.eqb filter_key "model"
  then filter_is_set f "brand" && negb (filter_is_set f "model")
  else negb (filter_is_set f filter_key).

Definition question_field_exists (filter_key : string) : bool :=
  hasattr_Car (PyStr.replace "year_range" "year"
                 (PyStr.replace "price_range" "price" filter_key))
  || existsb (String.eqb filter_key) ["price_range"; "year_range"].

Fixpoint first_open_question (questions : list (string * (string * Z)))
    (ctx : Context) : option string :=
  match questions with
  | [] => None
  | (filter_key, (asked_flag, _)) :: rest =>
      if negb (question_field_exists filter_key)
      then first_open_question rest ctx
      else if bool_decide (asked_flag ∈ asked_questions ctx)
      then first_open_question rest ctx
      else if needs_asking (filters ctx) filter_key then Some filter_key
      else first_open_question rest ctx
  end.

Definition _get_next_question (ctx : Context) : option Question * Context :=
  match first_open_question FILTER_QUESTIONS ctx with
  | Some filter_key =>
      (Some (AskQuestion filter_key),
       set_last_question_key (Some filter_key) ctx)
  | None => (None, set_last_question_key None ctx)
  end.

(** *** Action executor ([_execute_action]) *)

Inductive Action :=
| search | ask | list_all | find_similar | clarify_model
| handle_model_confirmation | wait | reset | farewell | greeting.

#[export] Instance Action_eq_dec : EqDecision Action.
Proof. solve_decision. Defined.

(** What a call of the executor did: the catalog lookup of the search
    branch, the body of the ask branch, and so on. The search branch
    logs nothing when it hands over to [ask] or [clarify_model]. *)
Inductive Event :=
| SearchRun (active_filters : Filters)
| AskRun
| ListAllRun
| FindSimilarRun
| ClarifyModelRun
| ModelConfirmationRun
| WaitRun.

Definition filters_all_unset (f : Filters) : bool :=
  negb (is_some (f_brand f) || is_some (f_model f)
        || is_some (f_engine_type f) || is_some (f_body_type f)
        || is_some (f_transmission f) || is_some (f_price f)
        || is_some (f_year f) || is_some (f_min_price f)
        || is_some (f_max_price f) || is_some (f_min_year f)
        || is_some (f_max_year f)).

Definition clear_similarity_context (ctx : Context) : Context :=
  set_last_shown_target_brand None
    (set_last_shown_target_model None
       (set_last_shown_target_price None (set_last_shown_cars None ctx))).

(** Storing the anchor of a successful search. *)
Definition store_similarity_context (found_cars : list Car) (first_car : Car)
    (ctx : Context) : Context :=
  set_last_shown_target_brand (Some (car_brand first_car))
    (set_last_shown_target_model (Some (car_model first_car))
       (set_last_shown_target_price (Some (car_price first_car))
          (set_last_shown_cars (Some found_cars) ctx))).

(** The branch [if action == "search"]. [active_filters] is the filter
    dict without its unset keys, which is what the record already is. *)
Definition search_branch (db : Database) (ctx : Context) (response : Response)
  : Action * Context * Response * list Event :=
  let active_filters := filters ctx in
  if opt_str_truthy (f_model active_filters)
     && negb (opt_str_truthy (f_brand active_filters))
  then (clarify_model, ctx, response, [])
  else if filters_all_unset active_filters
  then (ask, ctx, response, [])
  else
    let found_cars := find_cars_by_criteria db active_filters 5 in
    let ctx := set_search_performed true ctx in
    match found_cars with
    | first_car :: _ =>
        let ctx := set_results_shown true ctx in
        (search, store_similarity_context found_cars first_car ctx,
         ShowResults found_cars, [SearchRun active_filters])
    | [] =>
        (search, set_results_shown false ctx, NoResults,
         [SearchRun active_filters])
    end.

(** The branch [if action == "ask"]. *)
Definition ask_branch (ctx : Context) : Context * Response :=
  let '(next_question, ctx) := _get_next_question ctx in
  match next_question with
  | Some question =>
      let ctx :=
        match last_question_key ctx with
        | Some key =>
            match asked_flag_of key with
            | Some asked_flag =>
                set_asked_questions ({[asked_flag]} ∪ asked_questions ctx) ctx
            | None => ctx
            end
        | None => ctx
        end in
      if opt_str_truthy (last_acknowledged_info ctx)
      then (set_last_acknowledged_info None ctx,
            AcknowledgeAndAsk (default "" (last_acknowledged_info ctx)) question)
      else (ctx, AskNextQuestion question)
  | None =>
      if _should_search ctx && negb (search_performed ctx)
      then (ctx, OfferSearchOrReset)
      else (ctx, NoMoreQuestions)
  end.

(** The branch [elif action == "list_all"]. *)
Definition list_all_branch (db : Database) (ctx : Context)
  : Context * Response :=
  let found_cars := find_cars_by_criteria db empty_filters 5 in
  let ctx := set_search_performed true ctx in
  if is_nil found_cars then (set_results_shown false ctx, ListAllEmpty)
  else (set_results_shown true ctx, ListAllResults found_cars).

(** The tolerance the executor passes, the literal [0.15]. *)
Definition similarity_tolerance : float64 := float_0_15.

(** The branch [elif action == "find_similar"]. *)
Definition find_similar_branch (db : Database) (ctx : Context)
  : Context * Response :=
  let target_price := last_shown_target_price ctx in
  let exclude_model := last_shown_target_model ctx in
  let exclude_brand := last_shown_target_brand ctx in
  if is_some target_price && opt_str_truthy exclude_model
     && opt_str_truthy exclude_brand
  then
    let similar_cars :=
      find_similar_priced_cars db target_price exclude_brand exclude_model
                               similarity_tolerance 5 in
    let ctx := set_search_performed true ctx in
    if is_nil similar_cars then (set_results_shown false ctx, NoSimilarResults)
    else (set_results_shown true ctx, ShowSimilarResults similar_cars)
  else (set_results_shown false ctx, SimilarityContextMissing).

(** The branch [if action == "clarify_model"]. The lookup uses every set
    filter but the brand. *)
Definition clarify_model_branch (db : Database) (ctx : Context)
  : Context * Response :=
  match f_model (filters ctx) with
  | Some model_name =>
      if str_truthy model_name
      then
        let clarification_filters := set_f_brand None (filters ctx) in
        let found_cars := find_cars_by_criteria db clarification_filters 3 in
        match found_cars with
        | [] =>
            let ctx :=
              if hasattr_Car "model"
              then set_filters (set_f_model None (filters ctx)) ctx
              else ctx in
            (set_potential_model_matches None
               (set_awaiting_model_confirmation false ctx),
             ModelNotFoundAskBrand (PyStr.title model_name))
        | [car] =>
            (set_awaiting_model_confirmation true
               (set_potential_model_matches (Some found_cars) ctx),
             ConfirmModelMatch car)
        | _ =>
            (set_awaiting_model_confirmation true
               (set_potential_model_matches (Some found_cars) ctx),
             ConfirmMultipleModelMatch found_cars)
        end
      else (ctx, GenericFallback)
  | None => (ctx, GenericFallback)
  end.

Definition clear_model (ctx : Context) : Context :=
  if hasattr_Car "model"
  then set_filters (set_f_model None (filters ctx)) ctx
  else ctx.

Definition add_asked (q_key : string) (ctx : Context) : Context :=
  match asked_flag_of q_key with
  | Some asked_flag =>
      set_asked_questions ({[asked_flag]} ∪ asked_questions ctx) ctx
  | None => ctx
  end.

(** The branch [elif action == "handle_model_confirmation"]. *)
Definition handle_model_confirmation_branch (entities : Entities)
    (ctx : Context) : Context * Response :=
  let '(ctx, response) :=
    match confirmation_is "yes" entities, potential_model_matches ctx with
    | true, Some (confirmed_car :: _) =>
        let confirmed_brand := car_brand confirmed_car in
        let confirmed_model := car_model confirmed_car in
        let ctx :=
          set_filters
            (set_f_model (Some confirmed_model)
               (set_f_brand (Some confirmed_brand) (filters ctx))) ctx in
        let ctx := add_asked "model" (add_asked "brand" ctx) in
        let '(next_q, ctx) := _get_next_question ctx in
        let search_prompt :=
          _should_search ctx && negb (search_performed ctx) in
        (ctx,
         ConfirmationAcknowledgeAskNext confirmed_brand confirmed_model
                                        next_q search_prompt)
    | _, _ =>
        if confirmation_is "no" entities
        then (clear_model ctx, ClarificationNeededAfterNo)
        else (clear_model ctx, ClarificationNeededAmbiguous)
    end in
  (set_potential_model_matches None
     (set_awaiting_model_confirmation false ctx),
   response).

(** The branch [elif action == "wait"]: every response is a non-empty
    text, so a stored response is a true value. *)
Definition wait_branch (ctx : Context) (response : Response) : Response :=
  match last_response ctx with
  | Some r => r
  | None => GenericFallback
  end.

(** The result is the context, the final value of the variable
    [action], and what was done. *)
Definition _execute_action (db : Database) (action : Action)
    (entities : Entities) (ctx : Context) : Context * Action * list Event :=
  let ctx :=
    if bool_decide (action = handle_model_confirmation) then ctx
    else set_results_shown false (set_search_performed false ctx) in
  let ctx :=
    if bool_decide (action = find_similar) then ctx
    else clear_similarity_context ctx in
  let ctx :=
    if bool_decide (action = clarify_model)
       || bool_decide (action = handle_model_confirmation)
    then ctx
    else set_awaiting_model_confirmation false
           (set_potential_model_matches None ctx) in
  let response := GenericFallback in
  let '(action, ctx, response, ev_search) :=
    if bool_decide (action = search) then search_branch db ctx response
    else (action, ctx, response, []) in
  let '(ctx, response, ev_second) :=
    if bool_decide (action = ask)
    then let '(ctx, r) := ask_branch ctx in (ctx, r, [AskRun])
    else if bool_decide (action = list_all)
    then let '(ctx, r) := list_all_branch db ctx in (ctx, r, [ListAllRun])
    else if bool_decide (action = find_similar)
    then let '(ctx, r) := find_similar_branch db ctx in (ctx, r, [FindSimilarRun])
    else (ctx, response, []) in
  let '(ctx, response, ev_third) :=
    if bool_decide (action = clarify_model)
    then let '(ctx, r) := clarify_model_branch db ctx in
         (ctx, r, [ClarifyModelRun])
    else if bool_decide (action = handle_model_confirmation)
    then let '(ctx, r) := handle_model_confirmation_branch entities ctx in
         (ctx, r, [ModelConfirmationRun])
    else if bool_decide (action = wait)
    then (ctx, wait_branch ctx response, [WaitRun])
    else (ctx, response, []) in
  let ctx :=
    if negb (existsb (fun a => bool_decide (action = a))
                     [wait; reset; farewell; greeting; list_all])
    then set_last_response (Some response) ctx
    else if bool_decide (action = wait) then ctx
    else if is_some (last_response ctx) then ctx
    else set_last_response (Some response) ctx in
  (ctx, action, (ev_search ++ ev_second ++ ev_third)%list).

(** *** Immediate actions ([_handle_immediate_actions]) *)

Definition with_context (ctx : Context) (a : Agent) : Agent :=
  {| current_context := ctx;
     memory_manager := memory_manager a;
     updated_keys_this_turn := updated_keys_this_turn a |}.

(** [any(f for f in filters.values() if f is not None)] *)
Definition any_filter_true (f : Filters) : bool :=
  opt_str_truthy (f_brand f) || opt_str_truthy (f_model f)
  || opt_str_truthy (f_engine_type f) || opt_str_truthy (f_body_type f)
  || opt_str_truthy (f_transmission f) || opt_int_truthy (f_price f)
  || opt_int_truthy (f_year f) || opt_int_truthy (f_min_price f)
  || opt_int_truthy (f_max_price f) || opt_int_truthy (f_min_year f)
  || opt_int_truthy (f_max_year f).

(** [any(entities.get(k) for k in filter_keys if entities.get(k) is not
    None)] *)
Definition has_other_filters (entities : Entities) : bool :=
  opt_str_truthy (e_brand entities) || opt_str_truthy (e_model entities)
  || opt_str_truthy (e_engine_type entities)
  || opt_str_truthy (e_body_type entities)
  || opt_str_truthy (e_transmission entities)
  || opt_int_truthy (e_min_price entities)
  || opt_int_truthy (e_max_price entities)
  || opt_int_truthy (e_min_year entities)
  || opt_int_truthy (e_max_year entities).

(** The result is the agent, [action_taken], the action handled (if
    any) and what the executor did. *)
Definition _handle_immediate_actions (db : Database) (entities : Entities)
    (a : Agent) : Agent * bool * option Action * list Event :=
  let '(a, action_taken, action, response, events) :=
    if flag_set (e_is_reset entities)
    then (_reset_context a, true, Some reset, Some ConfirmReset, [])
    else if flag_set (e_is_farewell entities)
    then (a, true, Some farewell, Some Farewell, [])
    else if flag_set (e_is_greeting entities)
            && negb (initial_personalized_greeting_done (current_context a))
    then
      let is_context_empty :=
        negb (any_filter_true (filters (current_context a))) in
      if is_context_empty && negb (is_some (customer_id (current_context a)))
      then (a, true, Some greeting, Some Greeting, [])
      else (a, false, None, None, [])
    else if flag_set (e_is_list_all entities)
    then
      if negb (has_other_filters entities)
      then
        let '(ctx, _, events) :=
          _execute_action db list_all entities (current_context a) in
        (with_context ctx a, true, Some list_all, None, events)
      else (a, false, None, None, [])
    else (a, false, None, None, []) in
  if action_taken
  then
    let ctx := current_context a in
    let ctx :=
      match response with
      | Some r =>
          if bool_decide (action = Some list_all) then ctx
          else set_last_response (Some r) ctx
      | None => ctx
      end in
    let ctx :=
      if is_some (last_response ctx) then ctx
      else set_last_response (Some GenericFallback) ctx in
    (with_context ctx a, true, action, events)
  else (a, false, action, events).

(** *** A turn ([process_message]) *)

(** The outcome of a turn: the agent after it, the text returned, the
    action carried out (the final value of the executor's [action], or
    the immediate action; [None] when the turn ends without one), and
    what the executor did. *)
Record Turn := mkTurn {
  t_agent : Agent;
  t_response : option Response;
  t_action : option Action;
  t_events : list Event
}.

Definition remember (role content : string) (a : Agent) : Agent :=
  {| current_context := current_context a;
     memory_manager := add_message role content (memory_manager a);
     updated_keys_this_turn := updated_keys_this_turn a |}.

(** The end of every path: the stored response goes to the memory and
    is returned. [None] is an empty content, which the memory skips. *)
Definition finish (render : Response -> string) (action : option Action)
    (events : list Event) (a : Agent) : Turn :=
  let final_response := last_response (current_context a) in
  {| t_agent :=
       match final_response with
       | Some r => remember "assistant" (render r) a
       | None => a
       end;
     t_response := final_response;
     t_action := action;
     t_events := events |}.

(** Customer identification. *)
Definition identify_customer (db : Database) (entities : Entities)
    (ctx : Context) : Context :=
  match e_phone entities with
  | Some (Some phone_from_entities) =>
      if str_truthy phone_from_entities
         && (negb (bool_decide (Some phone_from_entities = customer_phone ctx))
             || negb (is_some (customer_phone ctx)))
      then
        let ctx :=
          if opt_int_truthy (customer_id ctx)
          then set_initial_personalized_greeting_done false
                 (set_customer_desired_car None
                    (set_customer_first_name None (set_customer_id None ctx)))
          else ctx in
        match find_customer_lead_by_phone db phone_from_entities with
        | Some customer =>
            set_customer_desired_car (lead_desired_car_info customer)
              (set_customer_phone (Some (lead_phone customer))
                 (set_customer_first_name (Some (lead_first_name customer))
                    (set_customer_id (Some (lead_id customer)) ctx)))
        | None =>
            let ctx := set_customer_phone (Some phone_from_entities) ctx in
            if opt_str_truthy (e_first_name entities)
            then set_customer_first_name (e_first_name entities) ctx
            else ctx
        end
      else ctx
  | _ => ctx
  end.

(** The standard flow: the action chosen after the context update when
    no clarification is due. *)
Definition select_action (entities : Entities) (context_updated : bool)
    (a : Agent) : Action * Agent :=
  let ctx := current_context a in
  if context_updated
  then (if _should_search ctx then search else ask, a)
  else if confirmation_is "yes" entities
  then
    if results_shown ctx
    then (wait, with_context (set_last_response (Some NarrowOrAlternatives) ctx) a)
    else (if _should_search ctx then search else ask, a)
  else if confirmation_is "no" entities
  then
    if results_shown ctx
    then
      let a := _reset_context a in
      (wait,
       with_context
         (set_last_response (Some AskNewCriteria) (current_context a)) a)
    else
      match last_question_key ctx with
      | Some q_key =>
          if str_truthy q_key
          then (ask, with_context (add_asked q_key ctx) a)
          else (ask, a)
      | None => (ask, a)
      end
  else
    if _should_search ctx && negb (search_performed ctx)
    then (search, a) else (ask, a).

(** The start of [process_message]: the user message goes to the
    memory and [updated_keys_this_turn] is emptied. *)
Definition begin_turn (user_message : string) (a : Agent) : Agent :=
  let a := remember "user" user_message a in
  {| current_context := current_context a;
     memory_manager := memory_manager a;
     updated_keys_this_turn := ∅ |}.

(** The section "Handle Immediate Actions". *)
Definition immediate_step (db : Database) (entities : Entities) (a : Agent)
  : Agent * bool * option Action * list Event :=
  if flag_set (e_is_reset entities) || flag_set (e_is_farewell entities)
     || (flag_set (e_is_greeting entities)
         && negb (initial_personalized_greeting_done (current_context a)))
     || flag_set (e_is_list_all entities)
  then _handle_immediate_actions db entities a
  else (a, false, None, []).

(** The test "Check for Model Clarification Need". *)
Definition needs_clarification (context_updated : bool) (a : Agent) : bool :=
  let current_filters := filters (current_context a) in
  opt_str_truthy (f_model current_filters)
  && negb (opt_str_truthy (f_brand current_filters))
  && (bool_decide ("model" ∈ updated_keys_this_turn a)
      || negb context_updated).

(** The section "Normal Dialogue Flow", to the end of the turn. *)
Definition normal_flow (db : Database) (render : Response -> string)
    (entities : Entities) (a : Agent) : Turn :=
  let '(a, context_updated) := _update_context_with_entities entities a in
  if needs_clarification context_updated a
  then
    let '(ctx, action, events) :=
      _execute_action db clarify_model entities (current_context a) in
    finish render (Some action) events (with_context ctx a)
  else
    let '(action, a) := select_action entities context_updated a in
    let '(ctx, action, events) :=
      _execute_action db action entities (current_context a) in
    finish render (Some action) events (with_context ctx a).

(** [process_message], from the entities the extraction gives for the
    message (the extractor, an external service, or the keyword
    fallback), on a run that reaches one of the [return]s of the [try];
    the handler of the [try] is in [process_message_try] below. The
    transcript log is not part of the state. *)
Definition process_message (db : Database) (render : Response -> string)
    (user_message : string) (entities : Entities) (a : Agent) : Turn :=
  let a := begin_turn user_message a in
  if awaiting_model_confirmation (current_context a)
  then
    let ctx := set_last_response None (current_context a) in
    let '(ctx, action, events) :=
      _execute_action db handle_model_confirmation entities ctx in
    finish render (Some action) events (with_context ctx a)
  else if flag_set (e_is_similarity_request entities)
  then
    let ctx := current_context a in
    if results_shown ctx
       && is_some (last_shown_target_price ctx)
       && opt_str_truthy (last_shown_target_model ctx)
       && opt_str_truthy (last_shown_target_brand ctx)
    then
      let '(ctx, action, events) :=
        _execute_action db find_similar entities ctx in
      finish render (Some action) events (with_context ctx a)
    else
      finish render None []
        (with_context (set_last_response (Some SimilarityContextMissing) ctx) a)
  else
    let a := with_context (identify_customer db entities (current_context a)) a in
    let '(a, action_taken, immediate, events) := immediate_step db entities a in
    if action_taken
    then finish render immediate events a
    else normal_flow db render entities a.

(** *** The [try] of [process_message]

    The body of [process_message] is one [try] statement, and
    [process_message] above is a run of that body to one of its [return]s.
    How a run ends is an input of the embedding: the body completes, on the
    entities the extraction gave, or an exception leaves it, with the agent
    in the state the body had brought it to and the executor's record so
    far. The body can raise in the keyword fallback (a local variable is
    unbound when its first price pattern matches), in
    [_get_criteria_summary] (the format [:,.0f] of a price bound too large
    for a float) and in the database. *)
Inductive Body :=
| Completes (entities : Entities)
| Raises (at_raise : Agent) (events : list Event).

(** The handler, [except Exception]: the clarification sub-state is
    cleared, the error fallback goes to the memory and is returned. It is
    not stored as [last_response]. *)
Definition handle_exception (render : Response -> string)
    (events : list Event) (a : Agent) : Turn :=
  let ctx :=
    set_potential_model_matches None
      (set_awaiting_model_confirmation false (current_context a)) in
  {| t_agent := remember "assistant" (render ErrorFallback) (with_context ctx a);
     t_response := Some ErrorFallback;
     t_action := None;
     t_events := events |}.

(** [process_message], the whole of it. *)
Definition process_message_try (db : Database) (render : Response -> string)
    (user_message : string) (body : Body) (a : Agent) : Turn :=
  match body with
  | Completes entities => process_message db render user_message entities a
  | Raises at_raise events => handle_exception render events at_raise
  end.

(** *** Proactive start ([generate_proactive_start_message]) *)

(** What [_parse_desired_car_info] returns from the free text of a lead: a
    dict with at most these five keys. The parsing of the text is not part
    of the embedding. *)
Record DesiredCar := mkDesired {
  d_brand : option string;
  d_model : option string;
  d_engine_type : option string;
  d_body_type : option string;
  d_transmission : option string
}.

(** [if initial_filters] *)
Definition desired_has_key (d : DesiredCar) : bool :=
  is_some (d_brand d) || is_some (d_model d) || is_some (d_engine_type d)
  || is_some (d_body_type d) || is_some (d_transmission d).

Definition set_if_given {V : Type} (set : option V -> Filters -> Filters)
    (value : option V) (f : Filters) : Filters :=
  match value with
  | Some v => set (Some v) f
  | None => f
  end.

(** [filters.update(initial_filters)] *)
Definition update_filters (d : DesiredCar) (f : Filters) : Filters :=
  set_if_given set_f_transmission (d_transmission d)
    (set_if_given set_f_body_type (d_body_type d)
       (set_if_given set_f_engine_type (d_engine_type d)
          (set_if_given set_f_model (d_model d)
             (set_if_given set_f_brand (d_brand d) f)))).

Definition _initialize_with_customer (customer : CustomerLead) (a : Agent)
  : Agent :=
  let a := _reset_context a in
  with_context
    (set_initial_personalized_greeting_done true
       (set_customer_desired_car (lead_desired_car_info customer)
          (set_customer_phone (Some (lead_phone customer))
             (set_customer_first_name (Some (lead_first_name customer))
                (set_customer_id (Some (lead_id customer))
                   (current_context a)))))) a.

(** The branches on the parsed filters; the result is the context and the
    second part of the message. *)
Definition proactive_part (db : Database) (initial_filters : DesiredCar)
    (ctx : Context) : Context * option Response :=
  if desired_has_key initial_filters
  then
    let ctx := set_filters (update_filters initial_filters (filters ctx)) ctx in
    if opt_str_truthy (f_model (filters ctx))
       && negb (opt_str_truthy (f_brand (filters ctx)))
    then
      let '(ctx, _, _) := _execute_action db clarify_model no_entities ctx in
      (ctx, last_response ctx)
    else if _should_search ctx
    then
      let found_cars := find_cars_by_criteria db (filters ctx) 3 in
      let ctx := set_search_performed true ctx in
      match found_cars with
      | first_car :: _ =>
          (store_similarity_context found_cars first_car
             (set_results_shown true ctx),
           Some (ProactiveSearchResults found_cars))
      | [] => (set_results_shown false ctx, Some ProactiveNoResults)
      end
    else
      let '(next_q, ctx) := _get_next_question ctx in
      match next_q with
      | Some question =>
          (match last_question_key ctx with
           | Some key => add_asked key ctx
           | None => ctx
           end,
           Some (ProactiveAsk question))
      | None => (ctx, Some GenericFallback)
      end
  else (ctx, Some ProactiveCannotParse).

(** [generate_proactive_start_message(customer)], with the result of
    [_parse_desired_car_info] on the lead's text. *)
Definition generate_proactive_start_message (db : Database)
    (render : Response -> string) (customer : option CustomerLead)
    (initial_filters : DesiredCar) (a : Agent) : Agent * Response :=
  match customer with
  | None => (a, Greeting)
  | Some customer =>
      let a := _initialize_with_customer customer a in
      let ctx :=
        set_results_shown false
          (set_search_performed false
             (set_potential_model_matches None
                (set_awaiting_model_confirmation false
                   (clear_similarity_context (current_context a))))) in
      let '(ctx, search_message_part) :=
        proactive_part db initial_filters ctx in
      let full_message := ProactiveStart search_message_part in
      let a := remember "assistant" (render full_message) (with_context ctx a) in
      (with_context (set_last_response (Some full_message) (current_context a)) a,
       full_message)
  end.

End Agent.

(* ===================================================================== *)
(** * Notions used in the statements *)
(* ===================================================================== *)

(** The digits of a string, in order. *)
Definition digits_of (s : string) : string :=
  PyStr.filter_str PyStr.is_digit s.


(** A text in ASCII. The embedding gives the character classes of Python
    ([\d], the cased letters, the white space) on ASCII, so it is on such
    text that it follows the code character by character. *)
Definition ascii_text (s : string) : Prop :=
  PyStr.exists_str (fun c => Nat.leb 128 (PyStr.code c)) s = false.







(** The guard of a round of the update loop. *)
Definition round_enabled (context_key : string) : bool :=
  Catalog.hasattr_Car (Agent.base_key_of context_key)
  || Agent.is_range_bound context_key.

Definition apply_opt {V : Type} (set : option V -> Filters -> Filters)
    (new_value : option V) (f : Filters) : Filters :=
  match new_value with
  | Some v => set (Some v) f
  | None => f
  end.

(** The filters after the update loop: every value of the entities over
    the stored one. *)
Definition overlay (entities : Entities) (f : Filters) : Filters :=
  apply_opt set_f_max_year (e_max_year entities)
    (apply_opt set_f_min_year (e_min_year entities)
       (apply_opt set_f_max_price (e_max_price entities)
          (apply_opt set_f_min_price (e_min_price entities)
             (apply_opt set_f_transmission (e_transmission entities)
                (apply_opt set_f_body_type (e_body_type entities)
                   (apply_opt set_f_engine_type (e_engine_type entities)
                      (apply_opt set_f_model (e_model entities)
                         (apply_opt set_f_brand (e_brand entities) f)))))))).

Definition or_else {A : Type} (new old : option A) : option A :=
  match new with Some _ => new | None => old end.

(** The update up to its last stage, the writing back to the context. *)
Definition merged (entities : Entities) (a : Agent.Agent) : Agent.Merge :=
  let '(ctx, updated, keys) :=
    Agent.merge_customer entities (Agent.current_context a) in
  Agent.reset_model_on_brand_change (f_brand (Agent.filters ctx))
    (Agent.merge_filters entities
       (Agent.mkMerge (Agent.filters ctx) (Agent.asked_questions ctx)
                      updated keys [])).

(** [later] keeps what [earlier] has recorded of the turn. *)
Definition extends (earlier later : Agent.Merge) : Prop :=
  Agent.m_keys earlier ⊆ Agent.m_keys later
  /\ (forall part, In part (Agent.m_parts earlier) ->
                   In part (Agent.m_parts later))
  /\ (Agent.m_updated earlier = true -> Agent.m_updated later = true).

(** Every value of the mapping is the value already stored. *)
Definition agrees {A : Type} (new stored : option A) : Prop :=
  forall v, new = Some v -> stored = Some v.

Definition entities_match (e : Entities) (ctx : Agent.Context) : Prop :=
  agrees (e_brand e) (f_brand (Agent.filters ctx))
  /\ agrees (e_model e) (f_model (Agent.filters ctx))
  /\ agrees (e_engine_type e) (f_engine_type (Agent.filters ctx))
  /\ agrees (e_body_type e) (f_body_type (Agent.filters ctx))
  /\ agrees (e_transmission e) (f_transmission (Agent.filters ctx))
  /\ agrees (e_min_price e) (f_min_price (Agent.filters ctx))
  /\ agrees (e_max_price e) (f_max_price (Agent.filters ctx))
  /\ agrees (e_min_year e) (f_min_year (Agent.filters ctx))
  /\ agrees (e_max_year e) (f_max_year (Agent.filters ctx))
  /\ agrees (e_first_name e) (Agent.customer_first_name ctx)
  /\ (forall phone, e_phone e = Some phone -> Agent.customer_phone ctx = phone).

(** *** Data of the examples *)

Definition demo_render (r : Agent.Response) : string := "...".

Definition price_of_cents (cents : Z) : Dec.decimal := Dec.mkDec cents (-2).

Definition demo_car (id : Z) (brand model : string) (cents : Z) : Catalog.Car :=
  Catalog.mkCar id brand model (Some "Benzin") None None
                (price_of_cents cents) (Some "TL") (Some 2021) (Some "Sedan")
                (Some "Otomatik").

Definition toyota_corolla : Catalog.Car :=
  demo_car 1 "Toyota" "Corolla" 60000000.

(** A catalog with the anchor at 600000.00 and a car on each end of the
    interval of the specification. *)
Definition demo_catalog : Catalog.Database :=
  Catalog.mkDb
    [toyota_corolla;
     demo_car 2 "Honda" "Civic" 51000000;
     demo_car 3 "Renault" "Megane" 69000000]
    [].

(** The normalized mapping of a message that names nothing. *)
Definition plain_entities : Entities :=
  mkEntities None None None None None None None None None None None None None
             (Some (PBool false)) (Some (PBool false)) (Some (PBool false))
             (Some (PBool false)) (Some (PBool false)) (Some PNone).

Definition with_brand (brand : string) (e : Entities) : Entities :=
  mkEntities (e_min_price e) (e_max_price e) (e_min_year e) (e_max_year e)
             (Some brand) (e_model e) (e_engine_type e) (e_body_type e)
             (e_transmission e) (e_first_name e) (e_last_name e) (e_phone e)
             (e_desired_car_description e) (e_is_greeting e) (e_is_reset e)
             (e_is_farewell e) (e_is_list_all e) (e_is_similarity_request e)
             (e_confirmation e).

Definition with_model (model : string) (e : Entities) : Entities :=
  mkEntities (e_min_price e) (e_max_price e) (e_min_year e) (e_max_year e)
             (e_brand e) (Some model) (e_engine_type e) (e_body_type e)
             (e_transmission e) (e_first_name e) (e_last_name e) (e_phone e)
             (e_desired_car_description e) (e_is_greeting e) (e_is_reset e)
             (e_is_farewell e) (e_is_list_all e) (e_is_similarity_request e)
             (e_confirmation e).

Definition with_confirmation (word : string) (e : Entities) : Entities :=
  mkEntities (e_min_price e) (e_max_price e) (e_min_year e) (e_max_year e)
             (e_brand e) (e_model e) (e_engine_type e) (e_body_type e)
             (e_transmission e) (e_first_name e) (e_last_name e) (e_phone e)
             (e_desired_car_description e) (e_is_greeting e) (e_is_reset e)
             (e_is_farewell e) (e_is_list_all e) (e_is_similarity_request e)
             (Some (PStr word)).

Definition farewell_entities : Entities :=
  mkEntities None None None None None None None None None None None None None
             (Some (PBool false)) (Some (PBool false)) (Some (PBool true))
             (Some (PBool false)) (Some (PBool false)) (Some PNone).

Definition similarity_entities : Entities :=
  mkEntities None None None None None None None None None None None None None
             (Some (PBool false)) (Some (PBool false)) (Some (PBool false))
             (Some (PBool false)) (Some (PBool true)) (Some PNone).

(** An agent whose context is [ctx]. *)
Definition agent_with (ctx : Agent.Context) : Agent.Agent :=
  Agent.with_context ctx Agent.new_agent.

(** The filters of the specification's data model: the keys ['price'] and
    ['year'] of the dict are never given a value. *)
Definition columns_unset (ctx : Agent.Context) : Prop :=
  f_price (Agent.filters ctx) = None /\ f_year (Agent.filters ctx) = None.

(** The agents a conversation can reach, through the entry points of the
    session: a turn, a proactive start, a reset. *)
Inductive reachable (db : Catalog.Database)
    (render : Agent.Response -> string) : Agent.Agent -> Prop :=
| reach_new : reachable db render Agent.new_agent
| reach_turn a user_message entities :
    reachable db render a ->
    reachable db render
      (Agent.t_agent (Agent.process_message db render user_message entities a))
| reach_proactive a customer initial_filters :
    reachable db render a ->
    reachable db render
      (Agent.generate_proactive_start_message db render customer
         initial_filters a).1
| reach_reset a :
    reachable db render a ->
    reachable db render (Agent._reset_context a).

(** The agent at the context update of a turn that reaches it. *)
Definition at_update (db : Catalog.Database) (user_message : string)
    (entities : Entities) (a : Agent.Agent) : Agent.Agent :=
  let a := Agent.begin_turn user_message a in
  (Agent.immediate_step db entities
     (Agent.with_context
        (Agent.identify_customer db entities (Agent.current_context a)) a)).1.1.1.

(** The turn reaches the context update: no confirmation is pending, the
    message is no similarity request and no immediate action is taken. *)
Definition reaches_update (db : Catalog.Database) (user_message : string)
    (entities : Entities) (a : Agent.Agent) : bool :=
  let a := Agent.begin_turn user_message a in
  negb (Agent.awaiting_model_confirmation (Agent.current_context a))
  && negb (flag_set (e_is_similarity_request entities))
  && negb (Agent.immediate_step db entities
             (Agent.with_context
                (Agent.identify_customer db entities (Agent.current_context a))
                a)).1.1.2.

(** The column keys hold in [later] what they hold in [earlier]. *)
Definition same_columns (earlier later : Agent.Context) : Prop :=
  f_price (Agent.filters later) = f_price (Agent.filters earlier)
  /\ f_year (Agent.filters later) = f_year (Agent.filters earlier).

(** *** Notions of the further properties *)

(** A price value on which [int()] raises: a float that is not finite. *)
Definition non_finite (v : pyval) : bool :=
  match v with
  | PFloat (FInfinity _) _ => true
  | PFloat FNaN _ => true
  | _ => false
  end.

(** A value as [json.loads] delivers it, with its text in ASCII: an integer
    has at most 4300 digits (the parser's [int()] refuses more), and the
    integer part of a finite float can be printed (a double has at most 309
    digits). *)
Definition json_value (v : pyval) : Prop :=
  match v with
  | PInt z => PyStr.str_int_fails z = false
  | PFloat (FFinite num den) _ =>
      PyStr.str_int_fails (Z.quot num (Z.pos den)) = false
  | PStr s | POther s _ => ascii_text s
  | _ => True
  end.

Definition json_mapping (entities : gmap string pyval) : Prop :=
  forall k v, entities !! k = Some v -> json_value v.

(** A price given as a text that parses to an integer of more than 4300
    digits: a run of digits that [int()] still accepts, made longer by the
    multiplier. *)
Definition over_long_price (v : pyval) : bool :=
  match v with
  | PStr s | POther s _ =>
      match Normalizer.parse_price_str s with
      | Some n => PyStr.str_int_fails n
      | None => false
      end
  | _ => false
  end.

(** The three tables of [value_mapping], and no table for brand and model. *)
Definition filter_mappings : list (option (list (string * string))) :=
  [None; Some Normalizer.engine_type_mapping;
   Some Normalizer.body_type_mapping; Some Normalizer.transmission_mapping].

(** What holds of every entry of a table: the value is a non-empty string
    without surrounding blanks, and its lower-case form is a key of the
    table for the same value. *)
Definition entry_is_canonical (m : list (string * string))
    (entry : string * string) : bool :=
  str_truthy entry.2
  && String.eqb (PyStr.strip entry.2) entry.2
  && match Normalizer.mapping_get m (PyStr.lower entry.2) with
     | Some v => String.eqb v entry.2
     | None => false
     end.

(** Two optional texts that differ at most in the case of their letters. *)
Definition same_text (a b : option string) : Prop :=
  option_map PyStr.lower a = option_map PyStr.lower b.

(** Two filter dicts that differ at most in the case of the letters of
    their text values. *)
Definition same_up_to_case (f g : Filters) : Prop :=
  same_text (f_brand f) (f_brand g)
  /\ same_text (f_model f) (f_model g)
  /\ same_text (f_engine_type f) (f_engine_type g)
  /\ same_text (f_body_type f) (f_body_type g)
  /\ same_text (f_transmission f) (f_transmission g)
  /\ f_price f = f_price g /\ f_year f = f_year g
  /\ f_min_price f = f_min_price g /\ f_max_price f = f_max_price g
  /\ f_min_year f = f_min_year g /\ f_max_year f = f_max_year g.

(** [a] costs no more than [b]. *)
Definition cheaper_or_equal (a b : Catalog.Car) : Prop :=
  Dec.leb (Catalog.car_price a) (Catalog.car_price b) = true.

(** The price of [a] is no farther from [target] than the price of [b]. *)
Definition nearer_or_equal (target : Dec.decimal) (a b : Catalog.Car) : Prop :=
  Dec.leb (Catalog.price_distance target a) (Catalog.price_distance target b)
  = true.

(** A question that will not be asked: its flag is in [asked_questions], or
    its filter needs no asking. *)
Definition question_closed (ctx : Agent.Context)
    (entry : string * (string * Z)) : Prop :=
  entry.2.1 ∈ Agent.asked_questions ctx
  \/ Agent.needs_asking (Agent.filters ctx) entry.1 = false.

(** The context after one ask action. *)
Definition ask_once (db : Catalog.Database) (entities : Entities)
    (ctx : Agent.Context) : Agent.Context :=
  (Agent._execute_action db Agent.ask entities ctx).1.1.

(** The questions whose flag is not in [asked_questions]. *)
Definition unflagged (ctx : Agent.Context) : list (string * (string * Z)) :=
  List.filter
    (fun entry => negb (bool_decide (entry.2.1 ∈ Agent.asked_questions ctx)))
    Agent.FILTER_QUESTIONS.

(** A value that is set stays set. *)
Definition stays_set {A : Type} (before after : option A) : Prop :=
  is_some before = true -> is_some after = true.

(** A message that asks for the whole list and nothing else: the list-all
    flag alone among the intent flags, and no filter value. *)
Definition list_all_request (entities : Entities) : bool :=
  flag_set (e_is_list_all entities)
  && negb (flag_set (e_is_similarity_request entities))
  && negb (flag_set (e_is_reset entities))
  && negb (flag_set (e_is_farewell entities))
  && negb (flag_set (e_is_greeting entities))
  && negb (Agent.has_other_filters entities).

(** The reply of the list-all branch. *)
Definition listing (db : Catalog.Database) : Agent.Response :=
  (Agent.list_all_branch db Agent.fresh_context).2.

Definition list_all_entities : Entities :=
  mkEntities None None None None None None None None None None None None None
             (Some (PBool false)) (Some (PBool false)) (Some (PBool false))
             (Some (PBool true)) (Some (PBool false)) (Some PNone).

Definition reset_entities : Entities :=
  mkEntities None None None None None None None None None None None None None
             (Some (PBool false)) (Some (PBool true)) (Some (PBool false))
             (Some (PBool false)) (Some (PBool false)) (Some PNone).

(** The sub-state of the model clarification is consistent: either no
    candidate is stored and no confirmation is awaited, or a confirmation is
    awaited on one to three stored candidates, all of them cars of the
    catalog that carry the model of the filters. *)
Definition candidates_consistent (db : Catalog.Database)
    (ctx : Agent.Context) : Prop :=
  match Agent.potential_model_matches ctx with
  | None => Agent.awaiting_model_confirmation ctx = false
  | Some found =>
      Agent.awaiting_model_confirmation ctx = true
      /\ found <> []
      /\ (length found <= 3)%nat
      /\ exists model_name,
           f_model (Agent.filters ctx) = Some model_name
           /\ model_name <> ""
           /\ forall car, In car found ->
                In car (Catalog.cars db)
                /\ PyStr.lower (Catalog.car_model car)
                   = PyStr.lower model_name
  end.

(** No candidate is stored and no confirmation is awaited. *)
Definition idle (ctx : Agent.Context) : Prop :=
  Agent.potential_model_matches ctx = None
  /\ Agent.awaiting_model_confirmation ctx = false.

(** The turn resets the conversation: it carries out the reset intent, or
    it waits on the request for new criteria, the answer to a "no" after
    results were shown. *)
Definition resets_conversation (t : Agent.Turn) : Prop :=
  Agent.t_action t = Some Agent.reset
  \/ (Agent.t_action t = Some Agent.wait
      /\ Agent.t_response t = Some Agent.AskNewCriteria).

(** The customer fields of [later] are those of [earlier]. *)
Definition same_customer (earlier later : Agent.Context) : Prop :=
  Agent.customer_id later = Agent.customer_id earlier
  /\ Agent.customer_first_name later = Agent.customer_first_name earlier
  /\ Agent.customer_phone later = Agent.customer_phone earlier
  /\ Agent.customer_desired_car later = Agent.customer_desired_car earlier
  /\ Agent.initial_personalized_greeting_done later
     = Agent.initial_personalized_greeting_done earlier.

(* ===================================================================== *)
(** * Properties *)
(* ===================================================================== *)

(** ** Memory store *)

Section MemoryFacts.
Import Memory.

(** One call, in closed form: the appended list without its excess. *)
Lemma add_message_memory role content m :
  memory (add_message role content m) =
  if PyStr.is_empty content then memory m
  else
    let appended := (memory m ++ [mkMessage role content])%list in
    skipn (Z.to_nat (Z.of_nat (length appended) - max_messages m)) appended.
Proof.
  unfold add_message.
  destruct (PyStr.is_empty content); [reflexivity|].
  cbv zeta.
  destruct (Z.ltb_spec (max_messages m)
              (Z.of_nat (length (memory m ++ [mkMessage role content]))))
    as [Hlt|Hge]; cbn [memory]; [reflexivity|].
  replace (Z.to_nat _) with 0%nat by lia. reflexivity.
Qed.

Lemma add_message_max role content m :
  max_messages (add_message role content m) = max_messages m.
Proof.
  unfold add_message.
  destruct (PyStr.is_empty content); [reflexivity|].
  cbv zeta. destruct (_ <? _); reflexivity.
Qed.

(** Cutting the front twice is cutting it once. *)
Lemma cut_front_app {A : Type} (bound : nat) (old new : list A) :
  skipn (length (skipn (length old - bound) old ++ new) - bound)
        (skipn (length old - bound) old ++ new)
  = skipn (length (old ++ new) - bound) (old ++ new).
Proof.
  rewrite !length_app, length_skipn.
  destruct (Nat.le_gt_cases (length old) bound) as [Hle|Hgt].
  - replace (length old - bound)%nat with 0%nat by lia.
    rewrite !skipn_O, Nat.sub_0_r. reflexivity.
  - rewrite !skipn_app, skipn_skipn, length_skipn.
    f_equal; f_equal; lia.
Qed.

(** The invariant of a run of calls: the memory is the end of everything
    stored so far. *)
Lemma add_messages_memory (N : nat) (calls : list Message) :
  forall m,
    max_messages m = Z.of_nat (2 * N) ->
    memory m = skipn (length (memory m) - 2 * N) (memory m) ->
    memory (add_messages calls m)
    = skipn (length (memory m ++ stored calls) - 2 * N)
            (memory m ++ stored calls).
Proof.
  induction calls as [|msg calls IH]; intros m Hmax Hm.
  - cbn. rewrite app_nil_r. exact Hm.
  - cbn [add_messages fold_left].
    change (fold_left _ calls ?x) with (add_messages calls x).
    rewrite IH.
    + rewrite add_message_memory. cbn [stored List.filter].
      destruct (PyStr.is_empty (content msg)) eqn:Hc; cbn [negb].
      * reflexivity.
      * cbv zeta. rewrite Hmax.
        replace (Z.to_nat _) with
          (length (memory m ++ [mkMessage (role msg) (content msg)]) - 2 * N)%nat
          by lia.
        rewrite cut_front_app. rewrite <- app_assoc. cbn [app].
        destruct msg; reflexivity.
    + rewrite add_message_max. exact Hmax.
    + rewrite add_message_memory.
      destruct (PyStr.is_empty (content msg)); [exact Hm|].
      cbv zeta. rewrite Hmax.
      set (appended := (memory m ++ [mkMessage (role msg) (content msg)])%list).
      replace (Z.to_nat _) with (length appended - 2 * N)%nat by lia.
      rewrite length_skipn.
      replace (length appended - (length appended - 2 * N) - 2 * N)%nat
        with 0%nat by lia.
      reflexivity.
Qed.

End MemoryFacts.

(** C8. The memory is a bounded FIFO: after any sequence of [add_message]
    calls on a manager created with [max_turns = N], the memory holds at
    most [2 * N] messages, and it is exactly the last [2 * N] of the
    messages stored (those with a non-empty content), in their order: what
    is dropped is the oldest part. *)
Theorem memory_bounded_fifo (N : nat) (calls : list Memory.Message) :
  let m := Memory.add_messages calls (Memory.init (Z.of_nat N)) in
  (length (Memory.memory m) <= 2 * N)%nat
  /\ Memory.memory m
     = skipn (length (Memory.stored calls) - 2 * N) (Memory.stored calls).
Proof.
  cbv zeta.
  assert (H : Memory.memory (Memory.add_messages calls (Memory.init (Z.of_nat N)))
              = skipn (length (Memory.stored calls) - 2 * N) (Memory.stored calls)).
  { rewrite (add_messages_memory N).
    - reflexivity.
    - cbn. lia.
    - reflexivity. }
  split; [|exact H].
  rewrite H, length_skipn. lia.
Qed.

(** With [max_turns = 1], the third message evicts the first. *)
Example memory_evicts_oldest :
  Memory.memory
    (Memory.add_messages
       [Memory.mkMessage "user" "a"; Memory.mkMessage "assistant" "b";
        Memory.mkMessage "user" ""; Memory.mkMessage "user" "c"]
       (Memory.init 1))
  = [Memory.mkMessage "assistant" "b"; Memory.mkMessage "user" "c"].
Proof. reflexivity. Qed.

(** ** Price parsing *)

Section DigitFacts.
Import PyStr.
























End DigitFacts.




(** ** Entity normalizer *)

Section NormalizerFacts.
Import PyStr Normalizer.

Lemma title_nonempty s : is_empty s = false -> title s <> "".
Proof.
  destruct s as [|c s]; [discriminate|]. intros _.
  unfold title. cbn. destruct (is_cased c); discriminate.
Qed.

(** A string filter the normalizer emits is never the empty string. *)
Lemma normalize_filter_nonempty mapping value s :
  normalize_filter mapping value = Some s -> s <> "".
Proof.
  unfold normalize_filter. destruct value as [| | | |x|]; try discriminate.
  destruct (is_empty (strip x)) eqn:Hx; [discriminate|].
  pose proof (title_nonempty _ Hx) as Ht.
  destruct mapping as [m|]; [|intros [= <-]; exact Ht].
  destruct (mapping_get m (lower (strip x))) as [mapped|];
    [|intros [= <-]; exact Ht].
  destruct (str_truthy mapped) eqn:Hm; intros [= <-]; [|exact Ht].
  destruct mapped; [discriminate|discriminate].
Qed.

Lemma normalize_entities_fields entities e :
  _normalize_entities entities = Ok e ->
  e_brand e = normalize_filter None (dict_get entities "brand_name")
  /\ e_model e = normalize_filter None (dict_get entities "model_name")
  /\ e_phone e
     = option_map (fun s => _normalize_phone (Some s))
                  (present_str entities "phone_number")
  /\ _parse_price (dict_get entities "min_price") = Ok (e_min_price e)
  /\ _parse_price (dict_get entities "max_price") = Ok (e_max_price e)
  /\ e_min_year e = _parse_year (dict_get entities "min_year")
  /\ e_max_year e = _parse_year (dict_get entities "max_year").
Proof.
  unfold _normalize_entities, bind.
  destruct (_parse_price (dict_get entities "min_price")) as [min_p|];
    [|discriminate].
  destruct (_parse_price (dict_get entities "max_price")) as [max_p|];
    [|discriminate].
  cbv zeta. destruct (renders min_p && renders max_p); [|discriminate].
  intros [= <-]. cbn. auto 10.
Qed.

(** The brand and the model of a normalized mapping are not empty. *)
Lemma normalize_brand_model_nonempty entities e :
  _normalize_entities entities = Ok e ->
  e_brand e <> Some "" /\ e_model e <> Some "".
Proof.
  intros H. destruct (normalize_entities_fields _ _ H) as (Hb & Hm & _).
  split; intros Heq.
  - rewrite Hb in Heq. exact (normalize_filter_nonempty _ _ _ Heq eq_refl).
  - rewrite Hm in Heq. exact (normalize_filter_nonempty _ _ _ Heq eq_refl).
Qed.

(** A normalized mapping always has the flag keys: it is never empty. *)
Lemma normalize_entities_nonempty entities e :
  _normalize_entities entities = Ok e -> entities_empty e = false.
Proof.
  unfold _normalize_entities, bind.
  destruct (_parse_price (dict_get entities "min_price")) as [min_p|];
    [|discriminate].
  destruct (_parse_price (dict_get entities "max_price")) as [max_p|];
    [|discriminate].
  cbv zeta. destruct (renders min_p && renders max_p); [|discriminate].
  intros [= <-]. unfold entities_empty. cbn.
  rewrite !orb_true_r. reflexivity.
Qed.

(** The phone key of the input always gives a phone key in the output,
    with the value [None] when the number of digits is not in 10..13. *)
Lemma normalize_phone_key entities e v :
  _normalize_entities entities = Ok e ->
  entities !! "phone_number" = Some v ->
  e_phone e = Some (_normalize_phone (Some (py_str v))).
Proof.
  intros H Hv. destruct (normalize_entities_fields _ _ H) as (_ & _ & Hp & _).
  rewrite Hp. unfold present_str. rewrite Hv. reflexivity.
Qed.

Lemma normalize_phone_invalid s :
  (String.length (sub_non_digits s) < 10
   \/ 13 < String.length (sub_non_digits s))%nat ->
  _normalize_phone (Some s) = None.
Proof.
  intros H. unfold _normalize_phone.
  destruct (Nat.leb_spec 10 (String.length (sub_non_digits s)));
    destruct (Nat.leb_spec (String.length (sub_non_digits s)) 13);
    cbn; try reflexivity; lia.
Qed.

(** The other fields are left out when they cannot be parsed: a price or
    a year is in the output exactly when its parser returns a number. *)
Lemma normalize_price_year_omitted entities e :
  _normalize_entities entities = Ok e ->
  (e_min_price e = None
   <-> _parse_price (dict_get entities "min_price") = Ok None)
  /\ (e_min_year e = None <-> _parse_year (dict_get entities "min_year") = None).
Proof.
  intros H.
  destruct (normalize_entities_fields _ _ H) as (_ & _ & _ & Hp & _ & Hy & _).
  rewrite Hp, Hy. split; split; congruence.
Qed.

End NormalizerFacts.

(** C5, at the failing input: a phone of seven digits. The output mapping
    has the key ['phone'], with the value [None]. *)
Theorem normalize_short_phone_present_as_none :
  exists e,
    Normalizer._normalize_entities {[ "phone_number" := PStr "1234567" ]} = Ok e
    /\ e_phone e = Some None.
Proof. eexists. split; [vm_compute; reflexivity|reflexivity]. Qed.

(** The price path raises on a float that is not finite. *)
Example normalize_infinite_price_raises :
  Normalizer._normalize_entities
    {[ "min_price" := PFloat (FInfinity false) "inf" ]}
  = Raise OverflowError.
Proof. vm_compute. reflexivity. Qed.

(** What follows in the update: the phone known to the context is
    overwritten with [None] and the context counts as updated. *)
Example invalid_phone_erases_stored_phone :
  let a :=
    agent_with (Agent.set_customer_phone (Some "05321234567")
                                         Agent.fresh_context) in
  let e :=
    mkEntities None None None None None None None None None None None
               (Some None) None (Some (PBool false)) (Some (PBool false))
               (Some (PBool false)) (Some (PBool false)) (Some (PBool false))
               (Some PNone) in
  Normalizer._normalize_entities {[ "phone_number" := PStr "1234567" ]} = Ok e
  /\ Agent.customer_phone
       (Agent.current_context (Agent._update_context_with_entities e a).1)
     = None
  /\ (Agent._update_context_with_entities e a).2 = true.
Proof. vm_compute. repeat split; reflexivity. Qed.

(** The scenario of the specification: eleven digits are kept. *)
Example normalize_phone_scenario :
  Normalizer._normalize_phone (Some "0532 123 45 67") = Some "05321234567".
Proof. reflexivity. Qed.

(** ** Context update *)

Section UpdateFacts.
Import Agent.

Lemma merge_filter_filters {V : Type} `{EqDecision V}
    (get : Filters -> option V) (set : option V -> Filters -> Filters)
    value_str context_key new_value st :
  round_enabled context_key = true ->
  (forall f, set (get f) f = f) ->
  m_filters (merge_filter get set value_str context_key new_value st)
  = apply_opt set new_value (m_filters st).
Proof.
  intros Hen Heta. unfold merge_filter, apply_opt.
  destruct new_value as [v|]; [|reflexivity].
  unfold round_enabled in Hen. rewrite Hen.
  case_bool_decide as Heq; [|reflexivity].
  rewrite <- Heq. symmetry. apply Heta.
Qed.

(** A round whose value is the stored one does nothing. *)
Lemma merge_filter_same {V : Type} `{EqDecision V}
    (get : Filters -> option V) (set : option V -> Filters -> Filters)
    value_str context_key new_value st :
  agrees new_value (get (m_filters st)) ->
  merge_filter get set value_str context_key new_value st = st.
Proof.
  intros Hsame. unfold merge_filter.
  destruct new_value as [v|]; [|reflexivity].
  destruct (_ || _); [|reflexivity].
  rewrite bool_decide_eq_true_2; [reflexivity|]. apply Hsame. reflexivity.
Qed.

(** A round that changes the value records the key and its part. *)
Lemma merge_filter_changed {V : Type} `{EqDecision V}
    (get : Filters -> option V) (set : option V -> Filters -> Filters)
    value_str context_key v st :
  round_enabled context_key = true ->
  get (m_filters st) <> Some v ->
  let st' := merge_filter get set value_str context_key (Some v) st in
  context_key ∈ m_keys st'
  /\ In (display_name context_key ++ ": " ++ value_str v)%string (m_parts st')
  /\ m_updated st' = true.
Proof.
  intros Hen Hdiff. cbv zeta. unfold merge_filter.
  unfold round_enabled in Hen. rewrite Hen.
  rewrite bool_decide_eq_false_2 by exact Hdiff. cbn.
  split; [set_solver|]. split; [|reflexivity].
  apply in_or_app. right. left. reflexivity.
Qed.

Lemma extends_refl st : extends st st.
Proof. unfold extends. auto. Qed.

Lemma extends_trans st1 st2 st3 :
  extends st1 st2 -> extends st2 st3 -> extends st1 st3.
Proof.
  unfold extends. intros (K1 & P1 & U1) (K2 & P2 & U2).
  split; [set_solver|]. split; auto.
Qed.

Lemma merge_filter_extends {V : Type} `{EqDecision V}
    (get : Filters -> option V) (set : option V -> Filters -> Filters)
    value_str context_key new_value st :
  extends st (merge_filter get set value_str context_key new_value st).
Proof.
  unfold merge_filter.
  destruct new_value as [v|]; [|apply extends_refl].
  destruct (_ || _); [|apply extends_refl].
  case_bool_decide; [apply extends_refl|].
  unfold extends. cbn. split; [set_solver|]. split; [|auto].
  intros part Hp. apply in_or_app. left. exact Hp.
Qed.

Lemma merge_filters_filters entities st :
  m_filters (merge_filters entities st) = overlay entities (m_filters st).
Proof.
  unfold merge_filters, overlay.
  repeat (rewrite merge_filter_filters;
          [|reflexivity|intros []; reflexivity]).
  reflexivity.
Qed.

Ltac by_entity_fields entities :=
  unfold overlay, apply_opt;
  destruct (e_max_year entities), (e_min_year entities),
    (e_max_price entities), (e_min_price entities),
    (e_transmission entities), (e_body_type entities),
    (e_engine_type entities), (e_model entities), (e_brand entities);
  reflexivity.

Lemma overlay_brand entities f :
  f_brand (overlay entities f) = or_else (e_brand entities) (f_brand f).
Proof. by_entity_fields entities. Qed.

Lemma overlay_model entities f :
  f_model (overlay entities f) = or_else (e_model entities) (f_model f).
Proof. by_entity_fields entities. Qed.

Lemma overlay_year entities f : f_year (overlay entities f) = f_year f.
Proof. by_entity_fields entities. Qed.

Lemma overlay_price entities f : f_price (overlay entities f) = f_price f.
Proof. by_entity_fields entities. Qed.

(** The whole loop does nothing on matching values. *)
Lemma merge_filters_same entities st :
  agrees (e_brand entities) (f_brand (m_filters st)) ->
  agrees (e_model entities) (f_model (m_filters st)) ->
  agrees (e_engine_type entities) (f_engine_type (m_filters st)) ->
  agrees (e_body_type entities) (f_body_type (m_filters st)) ->
  agrees (e_transmission entities) (f_transmission (m_filters st)) ->
  agrees (e_min_price entities) (f_min_price (m_filters st)) ->
  agrees (e_max_price entities) (f_max_price (m_filters st)) ->
  agrees (e_min_year entities) (f_min_year (m_filters st)) ->
  agrees (e_max_year entities) (f_max_year (m_filters st)) ->
  merge_filters entities st = st.
Proof.
  intros. unfold merge_filters.
  rewrite (merge_filter_same f_brand) by assumption.
  rewrite (merge_filter_same f_model) by assumption.
  rewrite (merge_filter_same f_engine_type) by assumption.
  rewrite (merge_filter_same f_body_type) by assumption.
  rewrite (merge_filter_same f_transmission) by assumption.
  rewrite (merge_filter_same f_min_price) by assumption.
  rewrite (merge_filter_same f_max_price) by assumption.
  rewrite (merge_filter_same f_min_year) by assumption.
  apply merge_filter_same. assumption.
Qed.

(** The loop keeps what the customer part recorded, and records the model
    when its value changes. *)
Lemma merge_filters_extends entities st :
  extends st (merge_filters entities st).
Proof.
  unfold merge_filters.
  repeat (eapply extends_trans; [|apply merge_filter_extends]).
  apply extends_refl.
Qed.

Lemma merge_filters_model_changed entities st m :
  e_model entities = Some m ->
  f_model (m_filters st) <> Some m ->
  let st' := merge_filters entities st in
  "model" ∈ m_keys st'
  /\ In ("Model: " ++ m)%string (m_parts st')
  /\ m_updated st' = true.
Proof.
  intros Hm Hdiff. cbv zeta. unfold merge_filters. rewrite Hm.
  set (st1 := merge_filter f_brand set_f_brand id "brand" (e_brand entities) st).
  set (st2 := merge_filter f_model set_f_model id "model" (Some m) st1).
  assert (H2 : "model" ∈ m_keys st2
               /\ In ("Model: " ++ m)%string (m_parts st2)
               /\ m_updated st2 = true).
  { apply (merge_filter_changed f_model set_f_model id "model" m st1 eq_refl).
    unfold st1. rewrite merge_filter_filters;
      [|reflexivity|intros []; reflexivity].
    unfold apply_opt. destruct (e_brand entities); exact Hdiff. }
  clearbody st2.
  match goal with
  | |- context [m_keys ?st'] => assert (He : extends st2 st')
  end.
  { repeat (eapply extends_trans; [|apply merge_filter_extends]).
    apply extends_refl. }
  destruct H2 as (K & P & U). destruct He as (Ke & Pe & Ue).
  split; [set_solver|]. split; auto.
Qed.

Lemma merge_customer_filters entities ctx :
  filters (merge_customer entities ctx).1.1 = filters ctx
  /\ asked_questions (merge_customer entities ctx).1.1 = asked_questions ctx.
Proof.
  unfold merge_customer.
  destruct (e_first_name entities) as [n|], (e_phone entities) as [p|];
    repeat case_bool_decide; cbn; auto.
Qed.

(** On matching customer values the customer part does nothing. *)
Lemma merge_customer_same entities ctx :
  agrees (e_first_name entities) (customer_first_name ctx) ->
  (forall phone, e_phone entities = Some phone -> customer_phone ctx = phone) ->
  merge_customer entities ctx = (ctx, false, ∅).
Proof.
  intros Hn Hp. unfold merge_customer.
  destruct (e_first_name entities) as [n|].
  - rewrite bool_decide_eq_true_2 by (apply Hn; reflexivity).
    destruct (e_phone entities) as [p|]; [|reflexivity].
    rewrite bool_decide_eq_true_2 by (apply Hp; reflexivity). reflexivity.
  - destruct (e_phone entities) as [p|]; [|reflexivity].
    rewrite bool_decide_eq_true_2 by (apply Hp; reflexivity). reflexivity.
Qed.

(** What the update writes back. *)
Lemma update_writes_back entities a :
  entities_empty entities = false ->
  let r := _update_context_with_entities entities a in
  let st := merged entities a in
  filters (current_context r.1) = m_filters st
  /\ asked_questions (current_context r.1) = m_asked st
  /\ r.2 = m_updated st
  /\ updated_keys_this_turn r.1 = m_keys st
  /\ last_acknowledged_info (current_context r.1)
     = (if m_updated st
        then if is_nil (m_parts st) then None
             else Some (join_parts (m_parts st))
        else None).
Proof.
  intros Hne. cbv zeta. unfold _update_context_with_entities, merged.
  rewrite Hne.
  destruct (merge_customer entities (current_context a)) as [[ctx updated] keys].
  cbv zeta.
  destruct (m_updated _); cbn; auto 10.
Qed.

(** When the brand changes to a non-empty value and a model is set, the
    last stage clears the model and drops its flag. *)
Lemma reset_model_fires before st b :
  f_brand (m_filters st) = Some b -> b <> "" -> Some b <> before ->
  is_some (f_model (m_filters st)) = true ->
  let st' := reset_model_on_brand_change before st in
  m_filters st' = set_f_model None (m_filters st)
  /\ m_asked st' = m_asked st ∖ {[ "asked_model" ]}
  /\ m_updated st' = true
  /\ m_keys st' = m_keys st
  /\ m_parts st' = m_parts st.
Proof.
  intros Hb Hne Hdiff Hm. cbv zeta. unfold reset_model_on_brand_change.
  rewrite Hb. cbn [opt_str_truthy].
  assert (Ht : str_truthy b = true) by (destruct b; [congruence|reflexivity]).
  rewrite Ht, bool_decide_eq_false_2 by exact Hdiff. cbn [negb andb].
  destruct (f_model (m_filters st)); [|discriminate].
  cbn. auto.
Qed.

(** When the brand is unchanged, the last stage does nothing. *)
Lemma reset_model_idle st :
  reset_model_on_brand_change (f_brand (m_filters st)) st = st.
Proof.
  unfold reset_model_on_brand_change.
  rewrite bool_decide_eq_true_2 by reflexivity.
  rewrite andb_false_r. reflexivity.
Qed.

Lemma brand_entity_nonempty entities b :
  e_brand entities = Some b -> entities_empty entities = false.
Proof.
  intros H. unfold entities_empty. rewrite H. cbn.
  rewrite !orb_true_r. reflexivity.
Qed.

(** The state of the update before its last stage, when a new non-empty
    brand comes in and a model is stored or comes in too. *)
Lemma merged_on_brand_change entities a b :
  e_brand entities = Some b -> b <> "" ->
  Some b <> f_brand (filters (current_context a)) ->
  is_some (or_else (e_model entities)
                   (f_model (filters (current_context a)))) = true ->
  exists st,
    merged entities a
      = reset_model_on_brand_change
          (f_brand (filters (current_context a))) st
    /\ f_brand (m_filters st) = Some b
    /\ is_some (f_model (m_filters st)) = true
    /\ (forall m, e_model entities = Some m ->
                  f_model (filters (current_context a)) <> Some m ->
                  "model" ∈ m_keys st
                  /\ In ("Model: " ++ m)%string (m_parts st)).
Proof.
  intros Hbrand Hne Hdiff Hmodel. unfold merged.
  pose proof (merge_customer_filters entities (current_context a)) as [Hcf Hca].
  destruct (merge_customer entities (current_context a))
    as [[ctx updated] keys]. cbn in Hcf, Hca. cbv beta iota.
  rewrite Hcf.
  eexists. split; [reflexivity|].
  rewrite merge_filters_filters, overlay_brand, overlay_model, Hbrand.
  cbn [m_filters or_else].
  split; [reflexivity|]. split; [exact Hmodel|].
  intros m Hm Hold.
  destruct (merge_filters_model_changed entities
              (mkMerge (filters (current_context a)) (asked_questions ctx)
                       updated keys [])
              m Hm) as (K & P & _); [exact Hold|auto].
Qed.

End UpdateFacts.

(** C2. Take a context whose model filter is set, and an entity mapping
    whose brand is a value (not empty, as every brand of a normalized
    mapping is) other than the stored brand. After the update the brand is
    the new one, the model filter is null and the flag of the model
    question is not in [asked_questions]. *)
Theorem brand_change_clears_model
    (entities : Entities) (a : Agent.Agent) (b : string) :
  f_model (Agent.filters (Agent.current_context a)) <> None ->
  e_brand entities = Some b ->
  b <> "" ->
  Some b <> f_brand (Agent.filters (Agent.current_context a)) ->
  let ctx' :=
    Agent.current_context (Agent._update_context_with_entities entities a).1 in
  f_brand (Agent.filters ctx') = Some b
  /\ f_model (Agent.filters ctx') = None
  /\ "asked_model" ∉ Agent.asked_questions ctx'.
Proof.
  intros Hmodel Hbrand Hne Hdiff. cbv zeta.
  destruct (update_writes_back entities a (brand_entity_nonempty _ _ Hbrand))
    as (Hf & Ha & _).
  rewrite Hf, Ha.
  destruct (merged_on_brand_change entities a b Hbrand Hne Hdiff)
    as (st & -> & Hsb & Hsm & _).
  { destruct (e_model entities); [reflexivity|].
    cbn. destruct (f_model _); [reflexivity|congruence]. }
  destruct (reset_model_fires _ st b Hsb Hne Hdiff Hsm) as (-> & -> & _).
  split; [|split].
  - destruct (Agent.m_filters st); exact Hsb.
  - destruct (Agent.m_filters st); reflexivity.
  - rewrite not_elem_of_difference. right. apply elem_of_singleton. reflexivity.
Qed.

(** C2 at an input: the stored Toyota Corolla and the new brand Honda. *)
Lemma brand_change_clears_model_witness :
  let a :=
    agent_with
      (Agent.set_asked_questions {[ "asked_brand"; "asked_model" ]}
         (Agent.set_filters
            (set_f_model (Some "Corolla")
               (set_f_brand (Some "Toyota") empty_filters))
            Agent.fresh_context)) in
  let ctx' :=
    Agent.current_context
      (Agent._update_context_with_entities
         (with_brand "Honda" plain_entities) a).1 in
  f_brand (Agent.filters ctx') = Some "Honda"
  /\ f_model (Agent.filters ctx') = None
  /\ "asked_model" ∉ Agent.asked_questions ctx'.
Proof.
  cbv zeta.
  apply (brand_change_clears_model (with_brand "Honda" plain_entities) _ "Honda").
  - discriminate.
  - reflexivity.
  - discriminate.
  - discriminate.
Defined.



(** The text acknowledged in that turn names the model that was dropped.
    Its two parts come in the order in which the loop visits a Python set,
    which the language leaves open. *)
Example same_turn_model_acknowledged :
  exists parts,
    Agent.last_acknowledged_info
      (Agent.current_context
         (Agent._update_context_with_entities
            (with_model "Corolla" (with_brand "Toyota" plain_entities))
            Agent.new_agent).1)
    = Some (Agent.join_parts parts)
    /\ Permutation parts ["Marka: Toyota"; "Model: Corolla"].
Proof.
  exists ["Marka: Toyota"; "Model: Corolla"].
  split; [vm_compute; reflexivity|reflexivity].
Qed.

(** ** Idempotence of the update *)

Section IdempotenceFacts.
Import Agent.

(** On a mapping without keys the update returns at once: nothing is
    touched, the acknowledgment of an earlier turn included. *)
Lemma update_empty_mapping entities a :
  entities_empty entities = true ->
  _update_context_with_entities entities a = (a, false).
Proof. intros H. unfold _update_context_with_entities. rewrite H. reflexivity. Qed.

(** On a mapping with at least one key, all of whose values are the stored
    ones, the update changes nothing but the acknowledgment, which it
    clears, and returns "not updated". *)
Lemma update_idempotent_on_keys entities a :
  entities_empty entities = false ->
  entities_match entities (current_context a) ->
  let r := _update_context_with_entities entities a in
  r.2 = false
  /\ current_context r.1
     = set_last_acknowledged_info None (current_context a)
  /\ filters (current_context r.1) = filters (current_context a)
  /\ asked_questions (current_context r.1) = asked_questions (current_context a)
  /\ search_performed (current_context r.1) = search_performed (current_context a)
  /\ results_shown (current_context r.1) = results_shown (current_context a)
  /\ last_acknowledged_info (current_context r.1) = None.
Proof.
  intros Hne (Hb & Hm & He & Hbt & Ht & Hp1 & Hp2 & Hy1 & Hy2 & Hn & Hph).
  cbv zeta. unfold _update_context_with_entities. rewrite Hne.
  rewrite (merge_customer_same _ _ Hn Hph). cbv beta iota zeta.
  rewrite merge_filters_same by assumption.
  change (f_brand (filters (current_context a)))
    with (f_brand (m_filters (mkMerge (filters (current_context a))
                                (asked_questions (current_context a))
                                false ∅ []))).
  rewrite reset_model_idle. cbn.
  destruct (current_context a). cbn. auto 10.
Qed.

End IdempotenceFacts.

(** The mapping of the first turn below is what the normalizer gives for
    a brand name alone. *)
Example normalize_brand_only :
  Normalizer._normalize_entities {[ "brand_name" := PStr "toyota" ]}
  = Ok (with_brand "Toyota" plain_entities).
Proof. vm_compute. reflexivity. Qed.

(** C9, at the failing input. First turn: the brand Toyota is merged, the
    acknowledgment "Marka: Toyota" is stored and a search runs. Second
    turn: the extraction gives the empty mapping (the keyword fallback on
    a message with no keyword). The update returns "not updated" and
    leaves the context as it is, the acknowledgment too; the reply of the
    second turn acknowledges the brand once more. *)
Theorem stale_acknowledgment_after_empty_mapping :
  let t1 :=
    Agent.process_message demo_catalog demo_render "Toyota"
      (with_brand "Toyota" plain_entities) Agent.new_agent in
  let t2 :=
    Agent.process_message demo_catalog demo_render "hmm" no_entities
      (Agent.t_agent t1) in
  Agent.t_action t1 = Some Agent.search
  /\ Agent.last_acknowledged_info (Agent.current_context (Agent.t_agent t1))
     = Some "Marka: Toyota"
  /\ Agent._update_context_with_entities no_entities (Agent.t_agent t1)
     = (Agent.t_agent t1, false)
  /\ Agent.t_response t2
     = Some (Agent.AcknowledgeAndAsk "Marka: Toyota"
                                     (Agent.AskQuestion "engine_type")).
Proof.
  cbv zeta. split; [vm_compute; reflexivity|].
  split; [vm_compute; reflexivity|].
  split; [apply update_empty_mapping; reflexivity|].
  vm_compute; reflexivity.
Qed.

(** The same second turn with the mapping the normalizer gives for such a
    message: the acknowledgment is cleared and the question comes alone. *)
Example no_stale_acknowledgment_on_normalized_mapping :
  let t1 :=
    Agent.process_message demo_catalog demo_render "Toyota"
      (with_brand "Toyota" plain_entities) Agent.new_agent in
  Agent.t_response
    (Agent.process_message demo_catalog demo_render "hmm" plain_entities
       (Agent.t_agent t1))
  = Some (Agent.AskNextQuestion (Agent.AskQuestion "engine_type")).
Proof. vm_compute. reflexivity. Qed.

(** ** The executor and the turn *)

(** Comparisons of the action with the names the code tests it against. *)
Ltac decide_actions :=
  repeat match goal with
    | |- context [bool_decide (?x = ?y)] =>
        first [ rewrite (bool_decide_eq_true_2 (x = y)) by reflexivity
              | rewrite (bool_decide_eq_false_2 (x = y)) by discriminate ]
    end.

Section ExecutorFacts.
Import Agent.

Lemma str_truthy_nonempty s : s <> "" -> str_truthy s = true.
Proof. destruct s; [congruence|reflexivity]. Qed.

(** The clarification branch, called as such. *)
Lemma execute_clarify db entities ctx :
  (_execute_action db clarify_model entities ctx).1.2 = clarify_model
  /\ (_execute_action db clarify_model entities ctx).2 = [ClarifyModelRun].
Proof.
  unfold _execute_action. decide_actions. cbn -[clarify_model_branch].
  destruct (clarify_model_branch db _) as [ctx' r].
  decide_actions. cbn. auto.
Qed.

(** The search branch hands over to the clarification when the model is
    set without a brand: no lookup of the search branch runs. *)
Lemma execute_search_redirected db entities ctx :
  opt_str_truthy (f_model (filters ctx)) = true ->
  opt_str_truthy (f_brand (filters ctx)) = false ->
  (_execute_action db search entities ctx).1.2 = clarify_model
  /\ (_execute_action db search entities ctx).2 = [ClarifyModelRun].
Proof.
  intros Hm Hb. unfold _execute_action, search_branch. decide_actions.
  cbn -[clarify_model_branch].
  rewrite Hm, Hb. cbn -[clarify_model_branch]. decide_actions.
  cbn -[clarify_model_branch].
  destruct (clarify_model_branch db _) as [ctx' r].
  decide_actions. cbn. auto.
Qed.

Lemma model_set_should_search ctx :
  is_some (f_model (filters ctx)) = true -> _should_search ctx = true.
Proof.
  unfold _should_search, filled_trigger_fields.
  destruct (filters ctx) as [b m e bt t p y p1 p2 y1 y2]. cbn.
  intros Hm. rewrite Hm.
  destruct b; cbn; reflexivity.
Qed.

Lemma finish_outcome render action events a :
  t_action (finish render action events a) = action
  /\ t_events (finish render action events a) = events
  /\ current_context (t_agent (finish render action events a))
     = current_context a.
Proof.
  unfold finish. cbn. destruct (last_response (current_context a)); cbn; auto.
Qed.

End ExecutorFacts.

(** C1, as stated, fails: in a context with a model and no brand, with no
    confirmation pending, a farewell turn is answered by the farewell and
    the clarification is not run. *)
Lemma clarification_preempted_by_farewell_counterexample :
  let ctx :=
    Agent.set_filters (set_f_model (Some "Corolla") empty_filters)
                      Agent.fresh_context in
  let t :=
    Agent.process_message demo_catalog demo_render "bye" farewell_entities
                          (agent_with ctx) in
  f_model (Agent.filters ctx) <> None
  /\ f_brand (Agent.filters ctx) = None
  /\ Agent.awaiting_model_confirmation ctx = false
  /\ Agent.t_action t <> Some Agent.clarify_model
  /\ Agent.t_events t = [].
Proof.
  cbv zeta. split; [discriminate|]. split; [reflexivity|].
  split; [reflexivity|]. split; [vm_compute; discriminate|].
  vm_compute. reflexivity.
Qed.

(** A turn that reaches the context update is the normal flow from there. *)
Lemma process_message_normal_flow db render user_message entities a :
  reaches_update db user_message entities a = true ->
  Agent.process_message db render user_message entities a
  = Agent.normal_flow db render entities
      (at_update db user_message entities a).
Proof.
  unfold reaches_update, at_update, Agent.process_message. cbv zeta.
  destruct (Agent.awaiting_model_confirmation _); [discriminate|].
  destruct (flag_set (e_is_similarity_request entities)); [discriminate|].
  destruct (Agent.immediate_step db entities _) as [[[a' taken] imm] ev].
  cbn. destruct taken; [discriminate|]. reflexivity.
Qed.

(** In the normal flow, when the context after the update has a model
    (not empty) and no brand, the clarification is what is carried out,
    directly or through the search branch. *)
Lemma normal_flow_clarifies
    (db : Catalog.Database) (render : Agent.Response -> string)
    (entities : Entities) (a : Agent.Agent) (m : string) :
  let updated := (Agent._update_context_with_entities entities a).1 in
  f_model (Agent.filters (Agent.current_context updated)) = Some m ->
  m <> "" ->
  f_brand (Agent.filters (Agent.current_context updated)) = None ->
  let t := Agent.normal_flow db render entities a in
  Agent.t_action t = Some Agent.clarify_model
  /\ Agent.t_events t = [Agent.ClarifyModelRun].
Proof.
  cbv zeta. unfold Agent.normal_flow.
  destruct (Agent._update_context_with_entities entities a)
    as [a1 context_updated]. cbn [fst].
  intros Hm Hne Hb.
  assert (Hmt : opt_str_truthy (f_model (Agent.filters (Agent.current_context a1)))
                = true)
    by (rewrite Hm; apply str_truthy_nonempty; exact Hne).
  assert (Hbt : opt_str_truthy (f_brand (Agent.filters (Agent.current_context a1)))
                = false)
    by (rewrite Hb; reflexivity).
  destruct (Agent.needs_clarification context_updated a1) eqn:Hneed.
  - pose proof (execute_clarify db entities (Agent.current_context a1)) as [Ha He].
    destruct (Agent._execute_action db Agent.clarify_model entities _)
      as [[ctx action] events]. cbn in Ha, He. subst.
    destruct (finish_outcome render (Some Agent.clarify_model)
                [Agent.ClarifyModelRun] (Agent.with_context ctx a1))
      as (-> & -> & _). auto.
  - unfold Agent.needs_clarification in Hneed. rewrite Hmt, Hbt in Hneed.
    cbn in Hneed. apply orb_false_elim in Hneed. destruct Hneed as [_ Hupd].
    apply negb_false_iff in Hupd. subst context_updated.
    unfold Agent.select_action.
    rewrite model_set_should_search by (rewrite Hm; reflexivity).
    pose proof (execute_search_redirected db entities
                  (Agent.current_context a1) Hmt Hbt) as [Ha He].
    destruct (Agent._execute_action db Agent.search entities _)
      as [[ctx action] events]. cbn in Ha, He. subst.
    destruct (finish_outcome render (Some Agent.clarify_model)
                [Agent.ClarifyModelRun] (Agent.with_context ctx a1))
      as (-> & -> & _). auto.
Qed.

(** C1, amended. Take a turn that reaches the context update: no
    confirmation is pending, the message is no similarity request and no
    immediate action (reset, farewell, greeting, list-all) is taken. When
    the context after the update has a model (not empty) and no brand, the
    action carried out is [clarify_model], and the executor runs the
    clarification only: neither the lookup of the search branch nor the
    ask branch. *)
Theorem clarification_law
    (db : Catalog.Database) (render : Agent.Response -> string)
    (user_message : string) (entities : Entities) (a : Agent.Agent)
    (m : string) :
  reaches_update db user_message entities a = true ->
  let updated :=
    (Agent._update_context_with_entities entities
       (at_update db user_message entities a)).1 in
  f_model (Agent.filters (Agent.current_context updated)) = Some m ->
  m <> "" ->
  f_brand (Agent.filters (Agent.current_context updated)) = None ->
  let t := Agent.process_message db render user_message entities a in
  Agent.t_action t = Some Agent.clarify_model
  /\ Agent.t_events t = [Agent.ClarifyModelRun].
Proof.
  intros Hreach. cbv zeta. intros Hm Hne Hb.
  rewrite process_message_normal_flow by exact Hreach.
  exact (normal_flow_clarifies db render entities _ m Hm Hne Hb).
Qed.

(** C1 amended, at an input: the first message names the model Corolla. *)
Lemma clarification_law_witness :
  let t :=
    Agent.process_message demo_catalog demo_render "Corolla"
      (with_model "Corolla" plain_entities) Agent.new_agent in
  Agent.t_action t = Some Agent.clarify_model
  /\ Agent.t_events t = [Agent.ClarifyModelRun].
Proof.
  cbv zeta.
  apply (clarification_law demo_catalog demo_render "Corolla"
           (with_model "Corolla" plain_entities) Agent.new_agent "Corolla").
  - vm_compute. reflexivity.
  - vm_compute. reflexivity.
  - discriminate.
  - vm_compute. reflexivity.
Defined.

(** The search branch is where the law is enforced when the model was set
    in an earlier turn and another field changes: the selector chooses
    [search] and the executor hands over. *)
Example clarification_through_search_branch :
  let ctx :=
    Agent.set_filters (set_f_model (Some "Corolla") empty_filters)
                      Agent.fresh_context in
  let t :=
    Agent.process_message demo_catalog demo_render "otomatik"
      (mkEntities None None None None None None None None (Some "Otomatik")
                  None None None None (Some (PBool false)) (Some (PBool false))
                  (Some (PBool false)) (Some (PBool false))
                  (Some (PBool false)) (Some PNone))
      (agent_with ctx) in
  Agent.t_action t = Some Agent.clarify_model
  /\ Agent.t_events t = [Agent.ClarifyModelRun].
Proof. vm_compute. split; reflexivity. Qed.

(** ** Model confirmation *)

Section ConfirmationFacts.
Import Agent.

Lemma execute_confirmation db entities ctx :
  let cleared := clear_similarity_context ctx in
  _execute_action db handle_model_confirmation entities ctx
  = (set_last_response
       (Some (handle_model_confirmation_branch entities cleared).2)
       (handle_model_confirmation_branch entities cleared).1,
     handle_model_confirmation, [ModelConfirmationRun]).
Proof.
  cbv zeta. unfold _execute_action. decide_actions.
  cbn -[handle_model_confirmation_branch clear_similarity_context].
  destruct (handle_model_confirmation_branch entities _) as [ctx' r].
  decide_actions. reflexivity.
Qed.

Lemma next_question_keeps ctx :
  filters (_get_next_question ctx).2 = filters ctx
  /\ asked_questions (_get_next_question ctx).2 = asked_questions ctx
  /\ awaiting_model_confirmation (_get_next_question ctx).2
     = awaiting_model_confirmation ctx
  /\ potential_model_matches (_get_next_question ctx).2
     = potential_model_matches ctx.
Proof.
  unfold _get_next_question.
  destruct (first_open_question FILTER_QUESTIONS ctx); cbn; auto.
Qed.

(** Every way through the confirmation branch leaves the sub-state. *)
Lemma confirmation_branch_exits entities ctx :
  awaiting_model_confirmation (handle_model_confirmation_branch entities ctx).1
  = false
  /\ potential_model_matches (handle_model_confirmation_branch entities ctx).1
     = None.
Proof.
  unfold handle_model_confirmation_branch.
  destruct (confirmation_is "yes" entities),
    (potential_model_matches ctx) as [[|car rest]|];
    try destruct (confirmation_is "no" entities);
    try destruct (_get_next_question _) as [next_q ctx'];
    cbn; auto.
Qed.

(** On "yes" the first candidate is adopted and both flags are set. *)
Lemma confirmation_branch_yes entities ctx car rest :
  potential_model_matches ctx = Some (car :: rest) ->
  confirmation_is "yes" entities = true ->
  let ctx' := (handle_model_confirmation_branch entities ctx).1 in
  f_brand (filters ctx') = Some (Catalog.car_brand car)
  /\ f_model (filters ctx') = Some (Catalog.car_model car)
  /\ "asked_brand" ∈ asked_questions ctx'
  /\ "asked_model" ∈ asked_questions ctx'.
Proof.
  intros Hp Hyes. cbv zeta. unfold handle_model_confirmation_branch.
  rewrite Hyes, Hp.
  match goal with
  | |- context [_get_next_question ?c] =>
      pose proof (next_question_keeps c) as (Hf & Ha & _);
      destruct (_get_next_question c) as [next_q ctx']
  end.
  cbn in Hf, Ha |- *. rewrite Hf, Ha.
  split; [reflexivity|]. split; [reflexivity|].
  rewrite !elem_of_union, !elem_of_singleton. auto.
Qed.

End ConfirmationFacts.

(** C6. In a turn that starts while a model confirmation is awaited: after
    the turn, whatever the confirmation value, nothing is awaited and the
    stored candidates are gone; and when candidates are stored and the
    value is 'yes', brand and model of the filters are those of the first
    candidate and the flags of the brand and model questions are set. *)
Theorem model_confirmation_law
    (db : Catalog.Database) (render : Agent.Response -> string)
    (user_message : string) (entities : Entities) (a : Agent.Agent) :
  Agent.awaiting_model_confirmation (Agent.current_context a) = true ->
  let t := Agent.process_message db render user_message entities a in
  let ctx' := Agent.current_context (Agent.t_agent t) in
  Agent.t_action t = Some Agent.handle_model_confirmation
  /\ Agent.awaiting_model_confirmation ctx' = false
  /\ Agent.potential_model_matches ctx' = None
  /\ forall car rest,
       Agent.potential_model_matches (Agent.current_context a)
       = Some (car :: rest) ->
       confirmation_is "yes" entities = true ->
       f_brand (Agent.filters ctx') = Some (Catalog.car_brand car)
       /\ f_model (Agent.filters ctx') = Some (Catalog.car_model car)
       /\ "asked_brand" ∈ Agent.asked_questions ctx'
       /\ "asked_model" ∈ Agent.asked_questions ctx'.
Proof.
  intros Hawait. cbv zeta. unfold Agent.process_message. cbv zeta.
  change (Agent.current_context (Agent.begin_turn user_message a))
    with (Agent.current_context a).
  rewrite Hawait, execute_confirmation.
  set (ctx0 := Agent.clear_similarity_context
                 (Agent.set_last_response None (Agent.current_context a))).
  destruct (finish_outcome render (Some Agent.handle_model_confirmation)
              [Agent.ModelConfirmationRun]
              (Agent.with_context
                 (Agent.set_last_response
                    (Some (Agent.handle_model_confirmation_branch entities ctx0).2)
                    (Agent.handle_model_confirmation_branch entities ctx0).1)
                 (Agent.begin_turn user_message a)))
    as (-> & _ & ->).
  destruct (confirmation_branch_exits entities ctx0) as [He1 He2].
  split; [reflexivity|]. split; [exact He1|]. split; [exact He2|].
  intros car rest Hp Hyes.
  exact (confirmation_branch_yes entities ctx0 car rest Hp Hyes).
Qed.

(** C6 at an input: the scenario of the specification. The first turn
    names the model Corolla, of which the catalog has one; the second
    answers "evet". *)
Lemma model_confirmation_law_witness :
  let t1 :=
    Agent.process_message demo_catalog demo_render "Corolla"
      (with_model "Corolla" plain_entities) Agent.new_agent in
  let t :=
    Agent.process_message demo_catalog demo_render "evet"
      (with_confirmation "yes" no_entities) (Agent.t_agent t1) in
  let ctx' := Agent.current_context (Agent.t_agent t) in
  Agent.awaiting_model_confirmation ctx' = false
  /\ Agent.potential_model_matches ctx' = None
  /\ f_brand (Agent.filters ctx') = Some "Toyota"
  /\ f_model (Agent.filters ctx') = Some "Corolla"
  /\ "asked_brand" ∈ Agent.asked_questions ctx'
  /\ "asked_model" ∈ Agent.asked_questions ctx'.
Proof.
  cbv zeta.
  destruct (model_confirmation_law demo_catalog demo_render "evet"
              (with_confirmation "yes" no_entities)
              (Agent.t_agent
                 (Agent.process_message demo_catalog demo_render "Corolla"
                    (with_model "Corolla" plain_entities) Agent.new_agent)))
    as (_ & H1 & H2 & H3).
  - vm_compute. reflexivity.
  - split; [exact H1|]. split; [exact H2|].
    apply (H3 toyota_corolla []).
    + vm_compute. reflexivity.
    + reflexivity.
Defined.

(** ** Minimum criteria *)

Section SearchFacts.
Import Agent.

Lemma should_search_closed_form ctx :
  _should_search ctx
  = (is_some (f_brand (filters ctx)) || is_some (f_model (filters ctx))
     || is_some (f_engine_type (filters ctx))
     || is_some (f_body_type (filters ctx))
     || is_some (f_transmission (filters ctx))
     || is_some (f_year (filters ctx))
     || is_some (f_min_price (filters ctx))
     || is_some (f_max_price (filters ctx))
     || is_some (f_min_year (filters ctx))
     || is_some (f_max_year (filters ctx))).
Proof.
  unfold _should_search, filled_trigger_fields.
  destruct (filters ctx) as [b m e bt t p y p1 p2 y1 y2].
  destruct b, m, e, bt, t, y, p1, p2, y1, y2; reflexivity.
Qed.

Lemma is_some_true {A : Type} (o : option A) : is_some o = true <-> o <> None.
Proof. destruct o; cbn; split; congruence. Qed.

End SearchFacts.

(** C3. On the filters of a conversation (the column keys ['price'] and
    ['year'] hold no value), the search is permitted exactly when one of
    brand, model, engine type, body type, transmission is set, or a bound
    of the price range, or a bound of the year range. *)
Theorem should_search_iff (ctx : Agent.Context) :
  columns_unset ctx ->
  Agent._should_search ctx = true
  <-> (f_brand (Agent.filters ctx) <> None
       \/ f_model (Agent.filters ctx) <> None
       \/ f_engine_type (Agent.filters ctx) <> None
       \/ f_body_type (Agent.filters ctx) <> None
       \/ f_transmission (Agent.filters ctx) <> None)
      \/ (f_min_price (Agent.filters ctx) <> None
          \/ f_max_price (Agent.filters ctx) <> None)
      \/ (f_min_year (Agent.filters ctx) <> None
          \/ f_max_year (Agent.filters ctx) <> None).
Proof.
  intros [_ Hyear]. rewrite should_search_closed_form, Hyear.
  cbn [is_some]. rewrite orb_false_r.
  rewrite !orb_true_iff, !is_some_true. tauto.
Qed.

(** C3 at an input: the engine type "Elektrik" alone permits the search. *)
Lemma should_search_iff_witness :
  Agent._should_search
    (Agent.set_filters (set_f_engine_type (Some "Elektrik") empty_filters)
                       Agent.fresh_context)
  = true.
Proof.
  apply (should_search_iff
           (Agent.set_filters (set_f_engine_type (Some "Elektrik") empty_filters)
                              Agent.fresh_context)).
  - split; reflexivity.
  - left. right. right. left. discriminate.
Defined.

(** The empty filter set does not. *)
Example should_search_empty :
  Agent._should_search Agent.fresh_context = false.
Proof. reflexivity. Qed.

(** The code also lists the column key ['year'] among the trigger fields:
    a value there would permit the search on its own. *)
Example should_search_on_year_column :
  Agent._should_search
    (Agent.set_filters
       (mkFilters None None None None None None (Some 2020) None None None None)
       Agent.fresh_context)
  = true.
Proof. reflexivity. Qed.

(** ** Similar prices *)

Section SimilarityFacts.
Import Dec Catalog.

(** The literal [0.15] is the binary64 number nearest to 15/100: its
    mantissa has 53 bits and it is within half a unit in the last place. *)
Lemma float_0_15_nearest :
  2 ^ 52 <= mant float_0_15 < 2 ^ 53
  /\ 2 * Z.abs (100 * mant float_0_15 - 15 * 2 ^ (- bexp float_0_15)) <= 100.
Proof. vm_compute. repeat split; discriminate. Qed.

(** It is below 15/100, so [Decimal(0.15)] is too. *)
Lemma decimal_of_float_0_15 :
  of_float float_0_15
  = mkDec 1499999999999999944488848768742172978818416595458984375 (-55).
Proof. vm_compute. reflexivity. Qed.

(** The bounds of the window around 600000.00. *)
Lemma similar_bounds_600000 :
  similar_min_price (mkDec 60000000 (-2)) float_0_15
  = mkDec 5100000000000000033306690739 (-22)
  /\ similar_max_price (mkDec 60000000 (-2)) float_0_15
     = mkDec 6899999999999999966693309262 (-22).
Proof. vm_compute. split; reflexivity. Qed.

Lemma leb_align a b :
  Dec.leb a b
  = (align (Z.min (expo a) (expo b)) a <=? align (Z.min (expo a) (expo b)) b).
Proof. reflexivity. Qed.

(** For a price with two decimals, the window around 600000.00 is
    510000.01 to 689999.99: the two ends of the 15 % interval are out. *)
Lemma similar_window_600000 car cents :
  car_price car = mkDec cents (-2) ->
  in_price_window (mkDec 60000000 (-2)) float_0_15 car
  = (51000001 <=? cents) && (cents <=? 68999999).
Proof.
  intros Hp. unfold in_price_window.
  destruct similar_bounds_600000 as [-> ->]. rewrite Hp, !leb_align.
  cbn [expo coeff]. unfold align. cbn [expo coeff].
  change (Z.min (-22) (-2)) with (-22). change (Z.min (-2) (-22)) with (-22).
  change (-22 - -22) with 0. change (-2 - -22) with 20.
  change (10 ^ 0) with 1. change (10 ^ 20) with 100000000000000000000.
  destruct (Z.leb_spec 51000001 cents), (Z.leb_spec cents 68999999);
    cbn [andb];
    repeat match goal with
      | |- context [?x <=? ?y] => destruct (Z.leb_spec x y)
      end; cbn [andb]; try reflexivity; lia.
Qed.

Lemma leb_total a b : Dec.leb a b = false -> Dec.leb b a = true.
Proof.
  rewrite !leb_align, (Z.min_comm (expo b) (expo a)).
  intros H. apply Z.leb_gt in H. apply Z.leb_le. lia.
Qed.

(** Insertion sort gives a sorted list with the same elements. *)
Lemma insert_by_sorted {A : Type} (le : A -> A -> bool) (x : A) l :
  (forall a b, le a b = false -> le b a = true) ->
  Sorted (fun a b => le a b = true) l ->
  Sorted (fun a b => le a b = true) (insert_by le x l).
Proof.
  intros Htotal. induction l as [|y l IH]; intros Hs.
  - cbn. constructor; constructor.
  - cbn. destruct (le x y) eqn:Hxy.
    + constructor; [exact Hs|]. constructor. exact Hxy.
    + inversion Hs as [|? ? Hs' Hhd]; subst.
      constructor; [apply IH; exact Hs'|].
      destruct l as [|z l]; cbn.
      * constructor. apply Htotal. exact Hxy.
      * destruct (le x z); constructor.
        -- apply Htotal. exact Hxy.
        -- inversion Hhd; assumption.
Qed.

Lemma sort_by_sorted {A : Type} (le : A -> A -> bool) l :
  (forall a b, le a b = false -> le b a = true) ->
  Sorted (fun a b => le a b = true) (sort_by le l).
Proof.
  intros Htotal. induction l as [|x l IH]; cbn; [constructor|].
  apply insert_by_sorted; assumption.
Qed.

Lemma insert_by_in {A : Type} (le : A -> A -> bool) (x y : A) l :
  In y (insert_by le x l) <-> y = x \/ In y l.
Proof.
  induction l as [|z l IH]; cbn; [intuition congruence|].
  destruct (le x z); cbn; [intuition congruence|].
  rewrite IH. intuition congruence.
Qed.

Lemma sort_by_in {A : Type} (le : A -> A -> bool) (y : A) l :
  In y (sort_by le l) <-> In y l.
Proof.
  induction l as [|x l IH]; cbn; [tauto|].
  rewrite insert_by_in, IH. intuition congruence.
Qed.

Lemma insert_by_length {A : Type} (le : A -> A -> bool) (x : A) l :
  length (insert_by le x l) = S (length l).
Proof.
  induction l as [|y l IH]; [reflexivity|].
  cbn. destruct (le x y); cbn; [reflexivity|]. rewrite IH. reflexivity.
Qed.

Lemma sort_by_length {A : Type} (le : A -> A -> bool) l :
  length (sort_by le l) = length l.
Proof.
  induction l as [|x l IH]; [reflexivity|].
  cbn. rewrite insert_by_length. f_equal. exact IH.
Qed.

Lemma firstn_sorted {A : Type} (R : A -> A -> Prop) n l :
  Sorted R l -> Sorted R (firstn n l).
Proof.
  revert l. induction n as [|n IH]; intros l Hs; [constructor|].
  destruct l as [|x l]; [constructor|].
  inversion Hs as [|? ? Hs' Hhd]; subst. cbn.
  constructor; [apply IH; exact Hs'|].
  destruct n, l; cbn; try constructor. inversion Hhd; assumption.
Qed.

Lemma firstn_in {A : Type} (x : A) n l : In x (firstn n l) -> In x l.
Proof.
  revert l. induction n as [|n IH]; intros l; [contradiction|].
  destruct l as [|y l]; [contradiction|].
  cbn. intros [->|H]; [left; reflexivity|right; apply IH; exact H].
Qed.

(** What the similarity lookup returns, for any target and tolerance: it
    is ordered by the distance of the price to the target, and each car
    is a car of the catalog whose price is between the two computed
    bounds and which passes the exclusion filter. *)
Lemma find_similar_sound db target exclude_brand exclude_model tolerance limit :
  let found :=
    find_similar_priced_cars db (Some target) exclude_brand exclude_model
                             tolerance limit in
  Sorted (fun a b => Dec.leb (price_distance target a)
                             (price_distance target b) = true) found
  /\ (length found <= limit)%nat
  /\ forall car, In car found ->
       In car (cars db)
       /\ in_price_window target tolerance car = true
       /\ not_excluded exclude_brand exclude_model car = true.
Proof.
  cbv zeta. unfold find_similar_priced_cars. split; [|split].
  - apply firstn_sorted, sort_by_sorted. intros a b. apply leb_total.
  - apply firstn_le_length.
  - intros car Hin. apply firstn_in in Hin. apply sort_by_in in Hin.
    apply filter_In in Hin. destruct Hin as [Hin Hc].
    apply andb_true_iff in Hc. tauto.
Qed.

(** Without a limit in the way, every car of the catalog between the
    bounds that passes the exclusion filter is returned. *)
Lemma find_similar_complete db target exclude_brand exclude_model tolerance
    limit car :
  (length (cars db) <= limit)%nat ->
  In car (cars db) ->
  in_price_window target tolerance car = true ->
  not_excluded exclude_brand exclude_model car = true ->
  In car (find_similar_priced_cars db (Some target) exclude_brand
                                   exclude_model tolerance limit).
Proof.
  intros Hlen Hin Hw Hx. unfold find_similar_priced_cars.
  set (kept := List.filter _ (cars db)).
  assert (Hk : In car kept).
  { apply filter_In. split; [exact Hin|]. rewrite Hw, Hx. reflexivity. }
  assert (Hl : (length (sort_by (fun a b => Dec.leb (price_distance target a)
                                              (price_distance target b)) kept)
                <= limit)%nat).
  { rewrite sort_by_length. unfold kept.
    pose proof (filter_length_le
                  (fun car0 => in_price_window target tolerance car0
                               && not_excluded exclude_brand exclude_model car0)
                  (cars db)). lia. }
  rewrite firstn_all2 by exact Hl. apply sort_by_in. exact Hk.
Qed.

(** The pair of the anchor is excluded, whatever the case of the letters. *)
Lemma not_excluded_pair brand model car :
  brand <> "" -> model <> "" ->
  not_excluded (Some brand) (Some model) car
  = negb (ci_eqb (car_brand car) brand && ci_eqb (car_model car) model).
Proof.
  intros Hb Hm. unfold not_excluded. cbn [opt_str_truthy default].
  rewrite !str_truthy_nonempty by assumption. reflexivity.
Qed.

End SimilarityFacts.

(** C7, at the failing input. The first turn searches the brand Toyota and
    shows the Corolla at 600000.00, the anchor. The catalog also holds a
    Civic at 510000.00 and a Megane at 690000.00, the two ends of the
    interval. The similarity request of the second turn runs the lookup
    and finds nothing: the bounds computed from the float 0.15 are
    510000.0000000000033306690739 and 689999.9999999999966693309262. *)
Theorem similarity_window_excludes_endpoints :
  let t1 :=
    Agent.process_message demo_catalog demo_render "Toyota"
      (with_brand "Toyota" plain_entities) Agent.new_agent in
  let t2 :=
    Agent.process_message demo_catalog demo_render "benzer" similarity_entities
      (Agent.t_agent t1) in
  Agent.t_response t1 = Some (Agent.ShowResults [toyota_corolla])
  /\ Agent.last_shown_target_price (Agent.current_context (Agent.t_agent t1))
     = Some (Dec.mkDec 60000000 (-2))
  /\ Agent.t_action t2 = Some Agent.find_similar
  /\ Agent.t_events t2 = [Agent.FindSimilarRun]
  /\ Agent.t_response t2 = Some Agent.NoSimilarResults
  /\ Catalog.find_similar_priced_cars demo_catalog
       (Some (Dec.mkDec 60000000 (-2))) (Some "Toyota") (Some "Corolla")
       Dec.float_0_15 5
     = [].
Proof. cbv zeta. vm_compute. repeat split; reflexivity. Qed.

(** One cent inside each end, the cars are found, nearest first. *)
Example similarity_window_inside :
  Catalog.find_similar_priced_cars
    (Catalog.mkDb
       [toyota_corolla;
        demo_car 2 "Honda" "Civic" 51000001;
        demo_car 3 "Renault" "Megane" 68999999;
        demo_car 4 "Fiat" "Egea" 61000000;
        demo_car 5 "TOYOTA" "corolla" 60000000] [])
    (Some (Dec.mkDec 60000000 (-2))) (Some "Toyota") (Some "Corolla")
    Dec.float_0_15 5
  = [demo_car 4 "Fiat" "Egea" 61000000;
     demo_car 2 "Honda" "Civic" 51000001;
     demo_car 3 "Renault" "Megane" 68999999].
Proof. vm_compute. reflexivity. Qed.

(** ** The column keys of the filters are never given a value *)

Section ColumnFacts.
Import Agent.

Lemma same_columns_refl ctx : same_columns ctx ctx.
Proof. split; reflexivity. Qed.

Lemma same_columns_trans c1 c2 c3 :
  same_columns c1 c2 -> same_columns c2 c3 -> same_columns c1 c3.
Proof. unfold same_columns. intros [] []. split; congruence. Qed.

Lemma same_columns_of_filters ctx ctx' :
  filters ctx' = filters ctx -> same_columns ctx ctx'.
Proof. intros H. unfold same_columns. rewrite H. auto. Qed.

Lemma search_branch_columns db ctx r :
  same_columns ctx (search_branch db ctx r).1.1.2.
Proof.
  unfold search_branch.
  destruct (_ && _); [apply same_columns_refl|].
  destruct (filters_all_unset _); [apply same_columns_refl|].
  destruct (Catalog.find_cars_by_criteria _ _ _);
    apply same_columns_of_filters; reflexivity.
Qed.

Lemma next_question_columns ctx : same_columns ctx (_get_next_question ctx).2.
Proof.
  apply same_columns_of_filters. apply next_question_keeps.
Qed.

Lemma ask_branch_columns ctx : same_columns ctx (ask_branch ctx).1.
Proof.
  unfold ask_branch.
  pose proof (next_question_keeps ctx) as (Hf & _).
  destruct (_get_next_question ctx) as [[q|] ctx']; cbn in Hf.
  - apply same_columns_of_filters. rewrite <- Hf.
    destruct (last_question_key ctx') as [k|];
      [destruct (asked_flag_of k)|];
      destruct (opt_str_truthy _); reflexivity.
  - apply same_columns_of_filters. rewrite <- Hf.
    destruct (_ && _); reflexivity.
Qed.

Lemma list_all_branch_columns db ctx :
  same_columns ctx (list_all_branch db ctx).1.
Proof.
  unfold list_all_branch. apply same_columns_of_filters.
  destruct (is_nil _); reflexivity.
Qed.

Lemma find_similar_branch_columns db ctx :
  same_columns ctx (find_similar_branch db ctx).1.
Proof.
  unfold find_similar_branch. apply same_columns_of_filters.
  destruct (_ && _); [destruct (is_nil _)|]; reflexivity.
Qed.

Lemma clarify_model_branch_columns db ctx :
  same_columns ctx (clarify_model_branch db ctx).1.
Proof.
  unfold clarify_model_branch.
  destruct (f_model (filters ctx)) as [m|]; [|apply same_columns_refl].
  destruct (str_truthy m); [|apply same_columns_refl].
  destruct (Catalog.find_cars_by_criteria _ _ _) as [|car [|car' rest]];
    split; cbn; destruct (filters ctx); reflexivity.
Qed.

Lemma confirmation_branch_columns entities ctx :
  same_columns ctx (handle_model_confirmation_branch entities ctx).1.
Proof.
  unfold handle_model_confirmation_branch.
  destruct (confirmation_is "yes" entities),
    (potential_model_matches ctx) as [[|car rest]|];
    try destruct (confirmation_is "no" entities);
    try (match goal with
         | |- context [_get_next_question ?c] =>
             pose proof (next_question_keeps c) as (Hf & _);
             destruct (_get_next_question c) as [next_q ctx'];
             cbn in Hf
         end);
    split; cbn; rewrite ?Hf; cbn; destruct (filters ctx); reflexivity.
Qed.

Ltac name_branches db :=
  repeat match goal with
    | |- context [ask_branch ?c] =>
        pose proof (ask_branch_columns c);
        destruct (ask_branch c) as [? ?]
    | |- context [list_all_branch db ?c] =>
        pose proof (list_all_branch_columns db c);
        destruct (list_all_branch db c) as [? ?]
    | |- context [find_similar_branch db ?c] =>
        pose proof (find_similar_branch_columns db c);
        destruct (find_similar_branch db c) as [? ?]
    | |- context [clarify_model_branch db ?c] =>
        pose proof (clarify_model_branch_columns db c);
        destruct (clarify_model_branch db c) as [? ?]
    | |- context [handle_model_confirmation_branch ?e ?c] =>
        pose proof (confirmation_branch_columns e c);
        destruct (handle_model_confirmation_branch e c) as [? ?]
    end.

Ltac close_columns :=
  unfold same_columns in *; cbn in *;
  repeat match goal with
    | |- context [if ?b then _ else _] => destruct b
    end;
  cbn in *; intuition congruence.

(** The executor leaves the column keys alone. *)
Lemma execute_action_columns db action entities ctx :
  same_columns ctx (_execute_action db action entities ctx).1.1.
Proof.
  unfold _execute_action.
  destruct action; decide_actions;
    cbn -[search_branch ask_branch list_all_branch find_similar_branch
          clarify_model_branch handle_model_confirmation_branch wait_branch];
    try (unfold search_branch;
         destruct (_ && _);
         [|destruct (filters_all_unset _);
           [|destruct (Catalog.find_cars_by_criteria _ _ _)]];
         decide_actions;
         cbn -[ask_branch list_all_branch find_similar_branch
               clarify_model_branch handle_model_confirmation_branch
               wait_branch]);
    name_branches db; decide_actions; close_columns.
Qed.

Lemma reset_model_columns before st :
  f_price (m_filters (reset_model_on_brand_change before st))
  = f_price (m_filters st)
  /\ f_year (m_filters (reset_model_on_brand_change before st))
     = f_year (m_filters st).
Proof.
  unfold reset_model_on_brand_change.
  destruct (_ && _); [|auto].
  destruct (f_model (m_filters st)); [|auto].
  cbn. destruct (m_filters st); auto.
Qed.

(** So does the update. *)
Lemma update_columns entities a :
  same_columns (current_context a)
    (current_context (_update_context_with_entities entities a).1).
Proof.
  destruct (entities_empty entities) eqn:He.
  - rewrite update_empty_mapping by exact He. apply same_columns_refl.
  - destruct (update_writes_back entities a He) as (Hf & _).
    unfold same_columns. rewrite Hf. unfold merged.
    pose proof (merge_customer_filters entities (current_context a)) as [Hcf _].
    destruct (merge_customer entities (current_context a))
      as [[ctx updated] keys]. cbn in Hcf.
    destruct (reset_model_columns (f_brand (filters ctx))
                (merge_filters entities
                   (mkMerge (filters ctx) (asked_questions ctx) updated keys [])))
      as [-> ->].
    rewrite merge_filters_filters, overlay_price, overlay_year. cbn.
    rewrite Hcf. auto.
Qed.

Lemma identify_customer_columns db entities ctx :
  same_columns ctx (identify_customer db entities ctx).
Proof.
  apply same_columns_of_filters. unfold identify_customer.
  destruct (e_phone entities) as [[phone|]|]; try reflexivity.
  destruct (_ && _); [|reflexivity].
  destruct (Catalog.find_customer_lead_by_phone db phone);
    destruct (opt_int_truthy _); try destruct (opt_str_truthy _); reflexivity.
Qed.

Lemma finish_context render action events a :
  current_context (t_agent (finish render action events a)) = current_context a.
Proof. apply finish_outcome. Qed.

(** The immediate step keeps them unset, and leaves the agent as it is
    when it takes no action. *)
Lemma immediate_step_columns db entities a :
  columns_unset (current_context a) ->
  columns_unset (current_context (immediate_step db entities a).1.1.1)
  /\ ((immediate_step db entities a).1.1.2 = false ->
      (immediate_step db entities a).1.1.1 = a).
Proof.
  intros H1.
  assert (Hkeep : forall ctx', same_columns (current_context a) ctx' ->
                               columns_unset ctx').
  { intros ctx' [Hp Hy]. destruct H1 as [Hp0 Hy0]. split; congruence. }
  unfold immediate_step.
  destruct (_ || _); [|split; [exact H1|reflexivity]].
  unfold _handle_immediate_actions.
  destruct (flag_set (e_is_reset entities)).
  { split; [split; reflexivity|discriminate]. }
  destruct (flag_set (e_is_farewell entities)).
  { split; [|discriminate]. apply Hkeep. apply same_columns_of_filters.
    cbn. destruct (last_response (current_context a)); reflexivity. }
  destruct (_ && _).
  { destruct (_ && _); [|split; [exact H1|reflexivity]].
    split; [|discriminate]. apply Hkeep. apply same_columns_of_filters.
    reflexivity. }
  destruct (flag_set (e_is_list_all entities));
    [|split; [exact H1|reflexivity]].
  destruct (negb (has_other_filters entities));
    [|split; [exact H1|reflexivity]].
  pose proof (execute_action_columns db list_all entities
                (current_context a)) as H.
  destruct (_execute_action db list_all entities _) as [[ctx act] ev].
  split; [|discriminate]. apply Hkeep.
  eapply same_columns_trans; [exact H|].
  apply same_columns_of_filters. cbn.
  destruct (is_some (last_response ctx)); reflexivity.
Qed.

Lemma select_action_columns entities context_updated a :
  columns_unset (current_context a) ->
  columns_unset (current_context (select_action entities context_updated a).2).
Proof.
  intros H3. unfold select_action.
  destruct context_updated; [exact H3|].
  destruct (confirmation_is "yes" entities).
  { destruct (results_shown _); exact H3. }
  destruct (confirmation_is "no" entities).
  { destruct (results_shown _); [split; reflexivity|].
    destruct (last_question_key _) as [k|]; [|exact H3].
    destruct (str_truthy k); [|exact H3].
    unfold add_asked. destruct (asked_flag_of k); exact H3. }
  destruct (_ && _); exact H3.
Qed.

Lemma normal_flow_columns db render entities a :
  columns_unset (current_context a) ->
  columns_unset (current_context (t_agent (normal_flow db render entities a))).
Proof.
  intros H1.
  assert (Hkeep : forall c c', columns_unset c -> same_columns c c' ->
                               columns_unset c').
  { intros c c' [Hp0 Hy0] [Hp Hy]. split; congruence. }
  unfold normal_flow.
  pose proof (update_columns entities a) as Hupd.
  destruct (_update_context_with_entities entities a) as [a3 upd].
  cbn in Hupd. pose proof (Hkeep _ _ H1 Hupd) as H3.
  destruct (needs_clarification upd a3).
  { pose proof (execute_action_columns db clarify_model entities
                  (current_context a3)) as H.
    destruct (_execute_action db clarify_model entities _) as [[ctx act] ev'].
    rewrite finish_context. exact (Hkeep _ _ H3 H). }
  pose proof (select_action_columns entities upd a3 H3) as Hsel.
  destruct (select_action entities upd a3) as [action a4]. cbn in Hsel.
  pose proof (execute_action_columns db action entities (current_context a4)) as H.
  destruct (_execute_action db action entities _) as [[ctx act] ev'].
  rewrite finish_context. exact (Hkeep _ _ Hsel H).
Qed.

(** A turn keeps the column keys unset. *)
Lemma process_message_columns db render user_message entities a :
  columns_unset (current_context a) ->
  columns_unset
    (current_context
       (t_agent (process_message db render user_message entities a))).
Proof.
  intros Hun.
  assert (Hkeep : forall c c', columns_unset c -> same_columns c c' ->
                               columns_unset c').
  { intros c c' [Hp0 Hy0] [Hp Hy]. split; congruence. }
  unfold process_message. cbv zeta.
  change (current_context (begin_turn user_message a)) with (current_context a).
  set (a0 := begin_turn user_message a).
  destruct (awaiting_model_confirmation (current_context a)).
  { pose proof (execute_action_columns db handle_model_confirmation entities
                  (set_last_response None (current_context a))) as H.
    destruct (_execute_action db handle_model_confirmation entities _)
      as [[ctx act] ev]. rewrite finish_context. exact (Hkeep _ _ Hun H). }
  destruct (flag_set (e_is_similarity_request entities)).
  { destruct (_ && _).
    - pose proof (execute_action_columns db find_similar entities
                    (current_context a)) as H.
      destruct (_execute_action db find_similar entities _) as [[ctx act] ev].
      rewrite finish_context. exact (Hkeep _ _ Hun H).
    - rewrite finish_context. exact Hun. }
  pose proof (identify_customer_columns db entities (current_context a)) as Hid.
  set (a1 := with_context (identify_customer db entities (current_context a)) a0).
  assert (H1 : columns_unset (current_context a1)) by exact (Hkeep _ _ Hun Hid).
  clearbody a1.
  destruct (immediate_step_columns db entities a1 H1) as [H2 Hsame].
  destruct (immediate_step db entities a1) as [[[a2 taken] imm] ev].
  cbn in H2, Hsame.
  destruct taken; [rewrite finish_context; exact H2|].
  rewrite (Hsame eq_refl). apply normal_flow_columns. exact H1.
Qed.

Lemma update_filters_columns initial_filters f :
  f_price (update_filters initial_filters f) = f_price f
  /\ f_year (update_filters initial_filters f) = f_year f.
Proof.
  unfold update_filters, set_if_given.
  destruct (d_transmission initial_filters), (d_body_type initial_filters),
    (d_engine_type initial_filters), (d_model initial_filters),
    (d_brand initial_filters); split; reflexivity.
Qed.

Lemma proactive_part_columns db initial_filters ctx0 :
  columns_unset ctx0 ->
  columns_unset (proactive_part db initial_filters ctx0).1.
Proof.
  intros H0. unfold proactive_part.
  destruct (desired_has_key initial_filters); [|exact H0].
  cbv zeta.
  set (ctx1 := set_filters _ ctx0).
  assert (H1 : columns_unset ctx1).
  { destruct (update_filters_columns initial_filters (filters ctx0))
      as [Hp Hy]. destruct H0 as [Hp0 Hy0].
    split; cbn; congruence. }
  clearbody ctx1.
  destruct (_ && _).
  { pose proof (execute_action_columns db clarify_model no_entities ctx1)
      as [Hp Hy].
    destruct (_execute_action db clarify_model no_entities ctx1)
      as [[ctx2 act] ev]. cbn in Hp, Hy |- *.
    destruct H1 as [Hp1 Hy1]. split; congruence. }
  destruct (_should_search ctx1).
  { destruct (Catalog.find_cars_by_criteria db (filters ctx1) 3);
      exact H1. }
  pose proof (next_question_keeps ctx1) as (Hf & _).
  destruct (_get_next_question ctx1) as [[q|] ctx2]; cbn in Hf |- *.
  - destruct (last_question_key ctx2) as [k|];
      [unfold add_asked; destruct (asked_flag_of k)|];
      split; cbn; rewrite Hf; apply H1.
  - split; rewrite Hf; apply H1.
Qed.

Lemma initialized_columns customer a :
  columns_unset
    (set_results_shown false
       (set_search_performed false
          (set_potential_model_matches None
             (set_awaiting_model_confirmation false
                (clear_similarity_context
                   (current_context (_initialize_with_customer customer a))))))).
Proof. split; reflexivity. Qed.

(** A proactive start leaves them unset. *)
Lemma proactive_start_columns db render customer initial_filters a :
  columns_unset (current_context a) ->
  columns_unset
    (current_context
       (generate_proactive_start_message db render customer initial_filters a).1).
Proof.
  intros Hun. unfold generate_proactive_start_message.
  destruct customer as [customer|]; [|exact Hun].
  cbv zeta.
  pose proof (proactive_part_columns db initial_filters _
                (initialized_columns customer a)) as Hpart.
  destruct (proactive_part db initial_filters _) as [ctx1 part].
  exact Hpart.
Qed.

End ColumnFacts.

(** In every agent a conversation reaches, the column keys are unset. *)
Lemma reachable_columns_unset db render a :
  reachable db render a -> columns_unset (Agent.current_context a).
Proof.
  induction 1 as [|a user_message entities _ IH
                  |a customer initial_filters _ IH|a _ _].
  - split; reflexivity.
  - apply process_message_columns. exact IH.
  - apply proactive_start_columns. exact IH.
  - split; reflexivity.
Qed.

(* ===================================================================== *)
(** * Further properties of the code *)
(* ===================================================================== *)

(** ** More on the normalizer *)

Section CanonicalFacts.
Import PyStr Normalizer.

Lemma filter_str_idempotent p s :
  filter_str p (filter_str p s) = filter_str p s.
Proof.
  induction s as [|c s IH]; [reflexivity|].
  cbn. destruct (p c) eqn:Hc; [cbn; rewrite Hc, IH; reflexivity|exact IH].
Qed.

Lemma digit_value_range c :
  is_digit c = true -> 0 <= digit_value c <= 9.
Proof.
  unfold is_digit, between, digit_value. intros H.
  apply andb_true_iff in H. destruct H as [H1 H2].
  apply Nat.leb_le in H1, H2. lia.
Qed.

Lemma int_of_digits_from_nonneg s :
  forall acc, 0 <= acc -> 0 <= int_of_digits_from acc s.
Proof.
  induction s as [|c s IH]; intros acc Hacc; [exact Hacc|].
  cbn. apply IH. unfold digit_value. lia.
Qed.

Lemma year_token_value s :
  year_token_at s = true ->
  1900 <= int_of_digits (String.substring 0 4 s) <= 2099
  /\ String.length (String.substring 0 4 s) = 4%nat.
Proof.
  destruct s as [|c1 [|c2 [|c3 [|c4 rest]]]]; try discriminate.
  unfold year_token_at. intros H.
  apply andb_true_iff in H. destruct H as [H _].
  apply andb_true_iff in H. destruct H as [H H4].
  apply andb_true_iff in H. destruct H as [H H3].
  pose proof (digit_value_range _ H3). pose proof (digit_value_range _ H4).
  change (String.substring 0 4 (String c1 (String c2 (String c3 (String c4 rest)))))
    with (String c1 (String c2 (String c3 (String c4 (String.substring 0 0 rest))))).
  replace (String.substring 0 0 rest) with "" by (destruct rest; reflexivity).
  split; [|reflexivity].
  apply orb_true_iff in H. destruct H as [H|H];
    apply String.eqb_eq in H; injection H as -> ->;
    unfold int_of_digits; cbn [int_of_digits_from];
    change (digit_value "2") with 2; change (digit_value "0") with 0;
    change (digit_value "1") with 1; change (digit_value "9") with 9; lia.
Qed.

Lemma search_year_token s :
  forall previous d,
    search_year_from previous s = Some d ->
    1900 <= int_of_digits d <= 2099 /\ String.length d = 4%nat.
Proof.
  induction s as [|c s IH]; intros previous d; [discriminate|].
  cbn [search_year_from].
  destruct (negb previous && year_token_at (String c s)) eqn:Hhere.
  - intros [= <-]. apply andb_true_iff in Hhere.
    apply (year_token_value (String c s)). tauto.
  - apply IH.
Qed.

Lemma parse_year_str_range s y :
  parse_year_str s = Some y -> 1900 <= y <= 2099.
Proof.
  unfold parse_year_str.
  destruct (search_year s) as [d|] eqn:Hd; [|discriminate].
  apply search_year_token in Hd. destruct Hd as [Hr Hl].
  unfold int_of_digits_checked. rewrite Hl. cbn.
  intros [= <-]. exact Hr.
Qed.

End CanonicalFacts.

(** X1. A telephone number the normalizer accepts is the digits of the
    input, it has 10 to 13 characters, all of them digits, and normalizing
    it again returns it unchanged. *)
Theorem normalize_phone_canonical (s r : string) :
  Normalizer._normalize_phone (Some s) = Some r ->
  r = digits_of s
  /\ digits_of r = r
  /\ (10 <= String.length r <= 13)%nat
  /\ Normalizer._normalize_phone (Some r) = Some r.
Proof.
  unfold Normalizer._normalize_phone, PyStr.sub_non_digits, digits_of.
  destruct (Nat.leb 10 _ && Nat.leb _ 13) eqn:Hlen; [|discriminate].
  intros [= <-]. rewrite filter_str_idempotent, Hlen.
  apply andb_true_iff in Hlen. destruct Hlen as [H1 H2].
  apply Nat.leb_le in H1, H2. auto.
Qed.

Lemma normalize_phone_canonical_witness :
  Normalizer._normalize_phone (Some "+90 (532) 123 45 67") = Some "905321234567"
  /\ digits_of "905321234567" = "905321234567"
  /\ Normalizer._normalize_phone (Some "905321234567") = Some "905321234567".
Proof.
  split; [reflexivity|].
  destruct (normalize_phone_canonical "+90 (532) 123 45 67" "905321234567"
              eq_refl) as (_ & H2 & _ & H4).
  split; [exact H2|exact H4].
Defined.

(** X2. Whatever the raw value, a year the parser returns lies between 1900
    and 2099: an integer outside the open interval (1900, 2100) is read
    again as text, and the text pattern only admits 19xx and 20xx. *)
Theorem parse_year_in_range (year_val : pyval) (y : Z) :
  Normalizer._parse_year year_val = Some y -> 1900 <= y <= 2099.
Proof.
  destruct year_val as [|b|z|f repr|s|repr truth]; cbn [Normalizer._parse_year];
    try discriminate; try apply parse_year_str_range.
  destruct ((1900 <? z) && (z <? 2100)) eqn:Hz.
  - intros [= <-]. apply andb_true_iff in Hz. lia.
  - apply parse_year_str_range.
Qed.

Lemma parse_year_in_range_witness :
  Normalizer._parse_year (PStr "2015 model") = Some 2015
  /\ 1900 <= 2015 <= 2099.
Proof.
  split; [reflexivity|].
  apply (parse_year_in_range (PStr "2015 model") 2015). reflexivity.
Defined.

(** X3. A price read from a text is never negative: the parser keeps the
    first run of digits and drops any sign before it. *)
Theorem parse_price_text_nonnegative (s : string) (n : Z) :
  Normalizer._parse_price (PStr s) = Ok (Some n) -> 0 <= n.
Proof.
  cbn [Normalizer._parse_price]. unfold Normalizer.parse_price_str.
  intros [= H]. revert H.
  destruct (if PyStr.contains "milyon" _ then _ else _) as [multiplier rest]
    eqn:Hm.
  assert (Hpos : 0 <= multiplier).
  { revert Hm. destruct (PyStr.contains "milyon" _); [intros [= <- _]; lia|].
    destruct (_ || _); intros [= <- _]; lia. }
  destruct (PyStr.search_digits _) as [d|]; [|discriminate].
  unfold PyStr.int_of_digits_checked. destruct (Nat.ltb _ _); [discriminate|].
  intros [= <-].
  apply Z.mul_nonneg_nonneg; [|exact Hpos].
  apply int_of_digits_from_nonneg. lia.
Qed.

Lemma parse_price_text_nonnegative_witness :
  Normalizer._parse_price (PStr "-750 bin TL") = Ok (Some 750000)
  /\ 0 <= 750000.
Proof.
  split; [reflexivity|].
  apply (parse_price_text_nonnegative "-750 bin TL" 750000). reflexivity.
Defined.

(** What the price path does on one value: it raises on a float that is
    not finite, and otherwise returns a price that the last line can render
    unless the value is an over-long price text. *)
Lemma parse_price_outcome v :
  json_value v ->
  if non_finite v
  then exists e, Normalizer._parse_price v = Raise e
  else exists price,
         Normalizer._parse_price v = Ok price
         /\ Normalizer.renders price = negb (over_long_price v).
Proof.
  destruct v as [|b|z|[num den|neg|] repr|s|repr t]; cbn; intros Hv;
    try (eexists; reflexivity);
    try (eexists; split; [reflexivity|]).
  - reflexivity.
  - destruct b; reflexivity.
  - cbn. rewrite Hv. reflexivity.
  - cbn. rewrite Hv. reflexivity.
  - destruct (Normalizer.parse_price_str s); reflexivity.
  - destruct (Normalizer.parse_price_str repr); reflexivity.
Qed.

Lemma json_mapping_get entities k :
  json_mapping entities -> json_value (dict_get entities k).
Proof.
  intros H. unfold dict_get. destruct (entities !! k) as [v|] eqn:Hk.
  - exact (H k v Hk).
  - exact I.
Qed.

(** X4. On a mapping that [json.loads] can deliver, the normalizer raises in
    two cases and in no other: the value of ['min_price'] or of
    ['max_price'] is a float that is not finite ([int()] is called on it
    outside the [try]), or it is a text that parses to an integer of more
    than 4300 digits (the last line renders the result in an f-string, and
    [repr] refuses such an integer). *)
Theorem normalize_entities_raises_iff (entities : gmap string pyval) :
  json_mapping entities ->
  (exists e, Normalizer._normalize_entities entities = Raise e)
  <-> non_finite (dict_get entities "min_price") = true
      \/ non_finite (dict_get entities "max_price") = true
      \/ over_long_price (dict_get entities "min_price") = true
      \/ over_long_price (dict_get entities "max_price") = true.
Proof.
  intros Hjson.
  pose proof (parse_price_outcome _ (json_mapping_get entities "min_price" Hjson))
    as Hmin.
  pose proof (parse_price_outcome _ (json_mapping_get entities "max_price" Hjson))
    as Hmax.
  unfold Normalizer._normalize_entities, bind.
  destruct (non_finite (dict_get entities "min_price")).
  { destruct Hmin as [e ->]. split; [auto|]. intros _. eexists. reflexivity. }
  destruct Hmin as (min_p & -> & Hrmin).
  destruct (non_finite (dict_get entities "max_price")).
  { destruct Hmax as [e ->]. split; [auto|]. intros _. eexists. reflexivity. }
  destruct Hmax as (max_p & -> & Hrmax).
  cbv zeta. rewrite Hrmin, Hrmax.
  destruct (over_long_price (dict_get entities "min_price"));
    destruct (over_long_price (dict_get entities "max_price")); cbn; split;
    try (intros _; eexists; reflexivity); auto;
    try (intros [e H]; discriminate H).
  intros [H|[H|[H|H]]]; discriminate H.
Qed.

Lemma normalize_entities_raises_iff_witness :
  let entities : gmap string pyval :=
    {[ "max_price" := PFloat (FInfinity false) "inf" ]} in
  (exists e, Normalizer._normalize_entities entities = Raise e)
  <-> non_finite (dict_get entities "min_price") = true
      \/ non_finite (dict_get entities "max_price") = true
      \/ over_long_price (dict_get entities "min_price") = true
      \/ over_long_price (dict_get entities "max_price") = true.
Proof.
  cbv zeta.
  apply (normalize_entities_raises_iff
           ({[ "max_price" := PFloat (FInfinity false) "inf" ]})).
  intros k v Hk. apply lookup_singleton_Some in Hk.
  destruct Hk as [_ <-]. exact I.
Defined.

(** ** More on the memory *)

(** X5. A manager created with [max_turns <= 0] keeps nothing: whatever is
    added, the memory stays empty (every append is cut off again). *)
Theorem memory_without_capacity (max_turns : Z) (calls : list Memory.Message) :
  max_turns <= 0 ->
  Memory.memory (Memory.add_messages calls (Memory.init max_turns)) = [].
Proof.
  intros Hmax.
  assert (H : forall m,
            Memory.max_messages m <= 0 -> Memory.memory m = [] ->
            Memory.memory (Memory.add_messages calls m) = []).
  { induction calls as [|msg calls IH]; intros m Hm He; [exact He|].
    cbn [Memory.add_messages fold_left].
    change (fold_left _ calls ?x) with (Memory.add_messages calls x).
    apply IH.
    - rewrite add_message_max. exact Hm.
    - rewrite add_message_memory.
      destruct (PyStr.is_empty (Memory.content msg)); [exact He|].
      cbv zeta. rewrite He. cbn [app length].
      replace (Z.to_nat (Z.of_nat 1 - Memory.max_messages m))
        with (S (Z.to_nat (- Memory.max_messages m))) by lia.
      cbn [skipn]. apply skipn_nil. }
  apply H; [cbn; lia|reflexivity].
Qed.

Lemma memory_without_capacity_witness :
  Memory.memory
    (Memory.add_messages
       [Memory.mkMessage "user" "a"; Memory.mkMessage "assistant" "b"]
       (Memory.init 0))
  = [].
Proof.
  apply (memory_without_capacity 0
           [Memory.mkMessage "user" "a"; Memory.mkMessage "assistant" "b"]).
  lia.
Defined.

Section TitleFacts.
Import PyStr Normalizer.

Ltac by_ascii c :=
  destruct c as [[] [] [] [] [] [] [] []]; vm_compute; try reflexivity;
  try discriminate; auto.

Lemma cased_char_facts c :
  is_cased c = true ->
  is_cased (upper_char c) = true /\ is_cased (lower_char c) = true
  /\ upper_char (upper_char c) = upper_char c
  /\ lower_char (lower_char c) = lower_char c
  /\ lower_char (upper_char c) = lower_char c
  /\ is_space c = false
  /\ is_space (upper_char c) = false /\ is_space (lower_char c) = false.
Proof. by_ascii c; repeat split; reflexivity. Qed.

Lemma uncased_char_lower c : is_cased c = false -> lower_char c = c.
Proof. by_ascii c. Qed.

(** The head of a titled string is a blank exactly when the head of the
    string is. *)
Lemma title_from_head_space b c s :
  exists c' b',
    title_from b (String c s) = String c' (title_from b' s)
    /\ is_space c' = is_space c.
Proof.
  cbn [title_from]. destruct (is_cased c) eqn:Hc.
  - destruct (cased_char_facts c Hc) as (_ & _ & _ & _ & _ & H0 & H1 & H2).
    destruct b; eexists _, _; (split; [reflexivity|]); congruence.
  - eexists _, _. split; reflexivity.
Qed.

Lemma title_from_is_empty b s : is_empty (title_from b s) = is_empty s.
Proof.
  destruct s as [|c s]; [reflexivity|].
  cbn. destruct (is_cased c); reflexivity.
Qed.

Lemma title_from_idempotent s :
  forall b, title_from b (title_from b s) = title_from b s.
Proof.
  induction s as [|c s IH]; intros b; [reflexivity|].
  cbn [title_from]. destruct (is_cased c) eqn:Hc.
  - destruct (cased_char_facts c Hc) as (Hu & Hl & Huu & Hll & _).
    destruct b; cbn [title_from].
    + rewrite Hl, Hll, IH. reflexivity.
    + rewrite Hu, Huu, IH. reflexivity.
  - cbn [title_from]. rewrite Hc, IH. reflexivity.
Qed.

Lemma lower_title_from s : forall b, lower (title_from b s) = lower s.
Proof.
  unfold lower.
  induction s as [|c s IH]; intros b; [reflexivity|].
  cbn [title_from]. destruct (is_cased c) eqn:Hc.
  - destruct (cased_char_facts c Hc) as (_ & _ & _ & Hll & Hlu & _).
    destruct b; cbn [map_str]; rewrite ?Hll, ?Hlu, IH; reflexivity.
  - cbn [map_str]. rewrite IH. reflexivity.
Qed.

Lemma lstrip_length s : (String.length (lstrip s) <= String.length s)%nat.
Proof.
  induction s as [|c s IH]; [reflexivity|].
  cbn. destruct (is_space c); cbn; lia.
Qed.

(** A string [lstrip] leaves alone does not start with a blank. *)
Lemma lstrip_fixed_head c s :
  lstrip (String c s) = String c s -> is_space c = false.
Proof.
  cbn. destruct (is_space c); [|reflexivity].
  intros H. pose proof (lstrip_length s) as Hl. rewrite H in Hl.
  cbn in Hl. lia.
Qed.

Lemma lstrip_idempotent s : lstrip (lstrip s) = lstrip s.
Proof.
  induction s as [|c s IH]; [reflexivity|].
  cbn. destruct (is_space c) eqn:Hc; [exact IH|]. cbn. rewrite Hc. reflexivity.
Qed.

Lemma rstrip_idempotent s : rstrip (rstrip s) = rstrip s.
Proof.
  induction s as [|c s IH]; [reflexivity|].
  cbn [rstrip]. cbv zeta.
  destruct (is_space c && is_empty (rstrip s)) eqn:H; [reflexivity|].
  cbn [rstrip]. cbv zeta. rewrite IH, H. reflexivity.
Qed.

Lemma lstrip_rstrip s : lstrip s = s -> lstrip (rstrip s) = rstrip s.
Proof.
  destruct s as [|c s]; [reflexivity|]. intros H.
  apply lstrip_fixed_head in H.
  cbn [rstrip]. cbv zeta. rewrite H. cbn. rewrite H. reflexivity.
Qed.

(** [strip] returns a string that [lstrip] and [rstrip] leave alone. *)
Lemma strip_fixed s :
  lstrip (strip s) = strip s /\ rstrip (strip s) = strip s.
Proof.
  unfold strip. split.
  - apply lstrip_rstrip, lstrip_idempotent.
  - apply rstrip_idempotent.
Qed.

Lemma lstrip_title_from b s :
  lstrip s = s -> lstrip (title_from b s) = title_from b s.
Proof.
  destruct s as [|c s]; [reflexivity|]. intros H.
  apply lstrip_fixed_head in H.
  destruct (title_from_head_space b c s) as (c' & b' & -> & Hc).
  cbn. rewrite Hc, H. reflexivity.
Qed.

Lemma rstrip_title_from s :
  forall b, rstrip s = s -> rstrip (title_from b s) = title_from b s.
Proof.
  induction s as [|c s IH]; intros b; [reflexivity|].
  cbn [rstrip]. cbv zeta.
  destruct (is_space c && is_empty (rstrip s)) eqn:H; [discriminate|].
  intros [= Hs].
  destruct (title_from_head_space b c s) as (c' & b' & -> & Hc).
  cbn [rstrip]. cbv zeta.
  rewrite (IH b' Hs), title_from_is_empty, Hc. rewrite Hs in H. rewrite H.
  reflexivity.
Qed.

(** Titling commutes with stripping on a stripped string. *)
Lemma strip_title_strip s : strip (title (strip s)) = title (strip s).
Proof.
  destruct (strip_fixed s) as [Hl Hr].
  unfold strip at 1. unfold title.
  rewrite (lstrip_title_from false _ Hl).
  apply rstrip_title_from. exact Hr.
Qed.

Lemma mapping_get_in m k v :
  mapping_get m k = Some v -> In (k, v) m.
Proof.
  induction m as [|[k' v'] m IH]; [discriminate|].
  cbn. destruct (String.eqb_spec k' k) as [->|_].
  - intros [= ->]. left. reflexivity.
  - intros H. right. apply IH. exact H.
Qed.

(** Every entry of the three tables is canonical. *)
Lemma tables_canonical m :
  In (Some m) filter_mappings -> forallb (entry_is_canonical m) m = true.
Proof.
  intros [H|[H|[H|[H|[]]]]]; try discriminate; injection H as <-;
    vm_compute; reflexivity.
Qed.

Lemma mapped_value_canonical m k v :
  In (Some m) filter_mappings ->
  mapping_get m k = Some v ->
  str_truthy v = true /\ strip v = v /\ mapping_get m (lower v) = Some v.
Proof.
  intros Hm Hk. apply mapping_get_in in Hk.
  pose proof (tables_canonical m Hm) as Hall.
  rewrite forallb_forall in Hall. specialize (Hall _ Hk).
  unfold entry_is_canonical in Hall. cbn [fst snd] in Hall.
  apply andb_true_iff in Hall. destruct Hall as [Hall H3].
  apply andb_true_iff in Hall. destruct Hall as [H1 H2].
  apply String.eqb_eq in H2.
  destruct (mapping_get m (lower v)) as [v'|]; [|discriminate].
  apply String.eqb_eq in H3. subst v'. auto.
Qed.

Lemma ascii_char_cases c :
  Nat.leb 128 (code c) = false ->
  Nat.leb 128 (code (upper_char c)) = false
  /\ Nat.leb 128 (code (lower_char c)) = false.
Proof. by_ascii c. Qed.

Lemma ascii_lstrip s : ascii_text s -> ascii_text (lstrip s).
Proof.
  unfold ascii_text. induction s as [|c s IH]; [trivial|].
  cbn. destruct (is_space c); [|trivial].
  intros H. apply orb_false_iff in H. apply IH. tauto.
Qed.

Lemma ascii_rstrip s : ascii_text s -> ascii_text (rstrip s).
Proof.
  unfold ascii_text. induction s as [|c s IH]; [trivial|].
  cbn [rstrip exists_str]. cbv zeta. intros H.
  apply orb_false_iff in H. destruct H as [Hc Hs].
  destruct (is_space c && is_empty (rstrip s)); [reflexivity|].
  cbn [exists_str]. rewrite Hc. apply IH. exact Hs.
Qed.

Lemma ascii_strip s : ascii_text s -> ascii_text (strip s).
Proof. intros H. apply ascii_rstrip, ascii_lstrip, H. Qed.

Lemma ascii_title_from s : forall b, ascii_text s -> ascii_text (title_from b s).
Proof.
  unfold ascii_text. induction s as [|c s IH]; intros b; [trivial|].
  cbn [title_from exists_str]. intros H.
  apply orb_false_iff in H. destruct H as [Hc Hs].
  destruct (ascii_char_cases c Hc) as [Hu Hl].
  destruct (is_cased c); [destruct b|]; cbn [exists_str];
    rewrite ?Hu, ?Hl, ?Hc; apply IH; exact Hs.
Qed.

(** The values of the three tables are in ASCII. *)
Lemma tables_ascii m k v :
  In (Some m) filter_mappings -> mapping_get m k = Some v -> ascii_text v.
Proof.
  intros Hm Hk. apply mapping_get_in in Hk.
  assert (Hall : forallb
                   (fun entry =>
                      negb (exists_str (fun c => Nat.leb 128 (code c)) entry.2))
                   m = true).
  { destruct Hm as [H|[H|[H|[H|[]]]]]; try discriminate; injection H as <-;
      vm_compute; reflexivity. }
  rewrite forallb_forall in Hall. specialize (Hall _ Hk).
  apply negb_true_iff in Hall. exact Hall.
Qed.

End TitleFacts.

(** X6. On text in ASCII, normalizing a string filter is idempotent: for
    the brand, the model and the three mapped fields, the value the
    normalizer emits is again in ASCII and is returned unchanged when it is
    normalized again. *)
Theorem normalize_filter_idempotent
    (mapping : option (list (string * string))) (value : pyval) (r : string) :
  In mapping filter_mappings ->
  json_value value ->
  Normalizer.normalize_filter mapping value = Some r ->
  ascii_text r /\ Normalizer.normalize_filter mapping (PStr r) = Some r.
Proof.
  intros Hm Hascii. unfold Normalizer.normalize_filter at 1.
  destruct value as [| | | |s|]; try discriminate.
  cbn in Hascii.
  destruct (PyStr.is_empty (PyStr.strip s)) eqn:He; [discriminate|].
  assert (Htitle :
    forall m',
      match m' with
      | Some m => Normalizer.mapping_get m (PyStr.lower (PyStr.strip s)) = None
      | None => True
      end ->
      ascii_text (PyStr.title (PyStr.strip s))
      /\ Normalizer.normalize_filter m' (PStr (PyStr.title (PyStr.strip s)))
         = Some (PyStr.title (PyStr.strip s))).
  { intros m' Hnone. split; [apply ascii_title_from, ascii_strip, Hascii|].
    unfold Normalizer.normalize_filter.
    rewrite strip_title_strip. unfold PyStr.title at 1.
    rewrite title_from_is_empty, He.
    unfold PyStr.title at 1. rewrite lower_title_from.
    unfold PyStr.title. rewrite title_from_idempotent.
    destruct m' as [m|]; [rewrite Hnone|]; reflexivity. }
  destruct mapping as [m|]; [|intros [= <-]; apply Htitle; exact I].
  destruct (Normalizer.mapping_get m (PyStr.lower (PyStr.strip s)))
    as [mapped|] eqn:Hget; [|intros [= <-]; apply Htitle; exact Hget].
  destruct (mapped_value_canonical m _ _ Hm Hget) as (Ht & Hs & Hk).
  rewrite Ht. intros [= <-]. split; [exact (tables_ascii m _ _ Hm Hget)|].
  unfold Normalizer.normalize_filter. rewrite Hs, Hk, Ht.
  destruct mapped; [discriminate|reflexivity].
Qed.

Lemma normalize_filter_idempotent_witness :
  Normalizer.normalize_filter (Some Normalizer.body_type_mapping) (PStr " hb ")
  = Some "Hatchback"
  /\ ascii_text "Hatchback"
  /\ Normalizer.normalize_filter (Some Normalizer.body_type_mapping)
       (PStr "Hatchback")
     = Some "Hatchback".
Proof.
  split; [reflexivity|].
  apply (normalize_filter_idempotent (Some Normalizer.body_type_mapping)
           (PStr " hb ") "Hatchback").
  - right. right. left. reflexivity.
  - reflexivity.
  - reflexivity.
Defined.

(** ** More on the catalog queries *)

Section QueryFacts.
Import Dec Catalog.

Lemma align_shift e0 e d :
  e0 <= e -> e <= expo d -> align e0 d = align e d * 10 ^ (e - e0).
Proof.
  intros H0 H1. unfold align.
  rewrite <- Z.mul_assoc, <- Z.pow_add_r by lia.
  f_equal. f_equal. lia.
Qed.

(** The comparison, read at any common exponent below the two. *)
Lemma leb_at e0 a b :
  e0 <= expo a -> e0 <= expo b ->
  Dec.leb a b = (align e0 a <=? align e0 b).
Proof.
  intros Ha Hb. rewrite leb_align.
  set (e := Z.min (expo a) (expo b)).
  rewrite (align_shift e0 e a), (align_shift e0 e b) by (unfold e; lia).
  assert (Hp : 0 < 10 ^ (e - e0)) by (apply Z.pow_pos_nonneg; unfold e; lia).
  destruct (Z.leb_spec (align e a) (align e b)) as [H|H];
    symmetry; [apply Z.leb_le|apply Z.leb_gt]; nia.
Qed.

Lemma leb_trans a b c :
  Dec.leb a b = true -> Dec.leb b c = true -> Dec.leb a c = true.
Proof.
  set (e0 := Z.min (expo a) (Z.min (expo b) (expo c))).
  rewrite (leb_at e0 a b), (leb_at e0 b c), (leb_at e0 a c)
    by (unfold e0; lia).
  rewrite !Z.leb_le. lia.
Qed.

(** In a list sorted by a transitive order, whatever comes first is below
    whatever comes after. *)
Lemma sorted_prefix_below {A : Type} (R : A -> A -> Prop) l :
  (forall a b c, R a b -> R b c -> R a c) ->
  Sorted R l ->
  forall n x y, In x (firstn n l) -> In y (skipn n l) -> R x y.
Proof.
  intros Htrans Hs.
  assert (Hss : StronglySorted R l).
  { apply Sorted_StronglySorted; [|exact Hs].
    intros a b c. apply Htrans. }
  clear Hs. induction Hss as [|a l Hss IH Hall]; intros n x y Hx Hy.
  - destruct n; contradiction.
  - destruct n as [|n]; [contradiction|].
    cbn in Hx, Hy. destruct Hx as [<-|Hx].
    + apply (proj1 (List.Forall_forall _ _) Hall).
      rewrite <- (firstn_skipn n l). apply in_or_app. right. exact Hy.
    + eapply IH; eassumption.
Qed.

Lemma in_firstn_or_skipn {A : Type} (x : A) n l :
  In x l -> In x (firstn n l) \/ In x (skipn n l).
Proof.
  intros H. rewrite <- (firstn_skipn n l) in H.
  apply in_app_or in H. exact H.
Qed.

Lemma skipn_inhabited_firstn_full {A : Type} (y : A) n l :
  In y (skipn n l) -> length (firstn n l) = n.
Proof.
  intros H. apply firstn_length_le.
  destruct (Nat.le_gt_cases n (length l)) as [Hle|Hgt]; [exact Hle|].
  rewrite skipn_all2 in H by lia. contradiction.
Qed.

Lemma lower_is_empty s : PyStr.is_empty (PyStr.lower s) = PyStr.is_empty s.
Proof. destruct s; reflexivity. Qed.

Lemma match_str_same_text a b column :
  same_text a b -> match_str a column = match_str b column.
Proof.
  unfold same_text, match_str.
  destruct a as [v|], b as [w|]; cbn; try discriminate; [|reflexivity].
  intros [= H].
  rewrite <- (lower_is_empty v), <- (lower_is_empty w), H.
  unfold ci_eqb. rewrite H. reflexivity.
Qed.

Lemma car_matches_same_up_to_case f g car :
  same_up_to_case f g -> car_matches f car = car_matches g car.
Proof.
  intros (H1 & H2 & H3 & H4 & H5 & H6 & H7 & H8 & H9 & H10 & H11).
  unfold car_matches.
  rewrite (match_str_same_text _ _ _ H1), (match_str_same_text _ _ _ H2),
    (match_str_same_text _ _ _ H3), (match_str_same_text _ _ _ H4),
    (match_str_same_text _ _ _ H5), H6, H7, H8, H9, H10, H11.
  reflexivity.
Qed.

(** The pieces of the lookup of cars. *)
Lemma find_cars_in db f limit car :
  In car (find_cars_by_criteria db f limit) ->
  In car (cars db) /\ car_matches f car = true.
Proof.
  unfold find_cars_by_criteria. intros H.
  assert (Hs : In car (sort_by (fun a b => Dec.leb (car_price a) (car_price b))
                               (List.filter (car_matches f) (cars db)))).
  { destruct limit as [|k]; [exact H|]. eapply firstn_in. exact H. }
  apply sort_by_in in Hs. apply filter_In in Hs. exact Hs.
Qed.

Lemma find_cars_length db f limit :
  limit <> 0%nat -> (length (find_cars_by_criteria db f limit) <= limit)%nat.
Proof.
  unfold find_cars_by_criteria. destruct limit as [|k]; [congruence|].
  intros _. apply firstn_le_length.
Qed.

Lemma find_cars_sorted db f limit :
  Sorted cheaper_or_equal (find_cars_by_criteria db f limit).
Proof.
  unfold find_cars_by_criteria.
  assert (Hs : Sorted cheaper_or_equal
                 (sort_by (fun a b => Dec.leb (car_price a) (car_price b))
                          (List.filter (car_matches f) (cars db)))).
  { apply (sort_by_sorted (fun a b => Dec.leb (car_price a) (car_price b))).
    intros a b. apply leb_total. }
  destruct limit as [|k]; [exact Hs|]. apply firstn_sorted. exact Hs.
Qed.

Lemma leb_refl a : Dec.leb a a = true.
Proof.
  destruct (Dec.leb a a) eqn:H; [reflexivity|].
  pose proof (leb_total a a H) as H'. congruence.
Qed.

(** The first car found is the cheapest of all the matches. *)
Lemma find_cars_head_cheapest db f limit first rest car :
  find_cars_by_criteria db f limit = first :: rest ->
  In car (cars db) -> car_matches f car = true ->
  cheaper_or_equal first car.
Proof.
  unfold find_cars_by_criteria. intros Hfound Hin Hm.
  set (sorted := sort_by _ _) in Hfound.
  assert (Hs : Sorted cheaper_or_equal sorted).
  { apply (sort_by_sorted (fun a b => Dec.leb (car_price a) (car_price b))).
    intros a b. apply leb_total. }
  assert (Hc : In car sorted).
  { apply sort_by_in. apply filter_In. split; assumption. }
  assert (Hhead : exists tail, sorted = first :: tail).
  { destruct limit as [|k]; cbn [apply_limit] in Hfound.
    - exists rest. exact Hfound.
    - destruct sorted as [|x tail]; [discriminate|].
      cbn in Hfound. injection Hfound as -> _. exists tail. reflexivity. }
  destruct Hhead as [tail Htail]. rewrite Htail in Hs, Hc.
  destruct Hc as [<-|Hc]; [apply leb_refl|].
  apply Sorted_StronglySorted in Hs;
    [|intros a b c; apply leb_trans].
  inversion Hs as [|? ? _ Hall]; subst.
  apply (proj1 (List.Forall_forall _ _) Hall). exact Hc.
Qed.

End QueryFacts.

(** X7. What [find_cars_by_criteria] returns: cars of the catalog, each
    passing every filter that is set, in ascending order of price, and no
    more than [limit] of them when a limit is given. *)
Theorem find_cars_by_criteria_sound
    (db : Catalog.Database) (filters : Filters) (limit : nat) :
  let found := Catalog.find_cars_by_criteria db filters limit in
  Sorted cheaper_or_equal found
  /\ (limit <> 0%nat -> (length found <= limit)%nat)
  /\ forall car, In car found ->
       In car (Catalog.cars db) /\ Catalog.car_matches filters car = true.
Proof.
  cbv zeta. split; [apply find_cars_sorted|].
  split; [apply find_cars_length|]. intros car. apply find_cars_in.
Qed.

(** X8. The lookup returns the cheapest matches: a car of the catalog that
    passes the filters is returned, unless the limit is reached, and then
    every car returned costs no more than it. With [limit = 0], which the
    code reads as no limit, every match is returned. *)
Theorem find_cars_by_criteria_cheapest
    (db : Catalog.Database) (filters : Filters) (limit : nat)
    (car : Catalog.Car) :
  In car (Catalog.cars db) ->
  Catalog.car_matches filters car = true ->
  let found := Catalog.find_cars_by_criteria db filters limit in
  In car found
  \/ (limit <> 0%nat /\ length found = limit
      /\ forall shown, In shown found -> cheaper_or_equal shown car).
Proof.
  intros Hin Hm. cbv zeta. unfold Catalog.find_cars_by_criteria.
  set (sorted := Catalog.sort_by _ _).
  assert (Hs : Sorted cheaper_or_equal sorted).
  { apply (sort_by_sorted (fun a b => Dec.leb (Catalog.car_price a)
                                               (Catalog.car_price b))).
    intros a b. apply leb_total. }
  assert (Hc : In car sorted).
  { apply sort_by_in. apply filter_In. split; assumption. }
  destruct limit as [|k]; cbn [Catalog.apply_limit]; [left; exact Hc|].
  destruct (in_firstn_or_skipn car (S k) sorted Hc) as [H|H];
    [left; exact H|right].
  split; [discriminate|].
  split; [eapply skipn_inhabited_firstn_full; exact H|].
  intros shown Hshown.
  eapply (sorted_prefix_below cheaper_or_equal sorted); try eassumption.
  intros a b c. apply leb_trans.
Qed.

Lemma find_cars_by_criteria_cheapest_witness :
  In toyota_corolla (Catalog.cars demo_catalog)
  /\ Catalog.car_matches empty_filters toyota_corolla = true
  /\ (In toyota_corolla (Catalog.find_cars_by_criteria demo_catalog empty_filters 1)
      \/ (1%nat <> 0%nat
          /\ length (Catalog.find_cars_by_criteria demo_catalog empty_filters 1)
             = 1%nat
          /\ forall shown,
               In shown (Catalog.find_cars_by_criteria demo_catalog
                           empty_filters 1) ->
               cheaper_or_equal shown toyota_corolla)).
Proof.
  split; [left; reflexivity|]. split; [reflexivity|].
  apply (find_cars_by_criteria_cheapest demo_catalog empty_filters 1
           toyota_corolla).
  - left. reflexivity.
  - reflexivity.
Defined.

(** X9. The text filters are case-insensitive: two filter dicts that differ
    only in the case of the letters of their text values find the same
    cars. *)
Theorem find_cars_by_criteria_ignores_case
    (db : Catalog.Database) (f g : Filters) (limit : nat) :
  same_up_to_case f g ->
  Catalog.find_cars_by_criteria db f limit
  = Catalog.find_cars_by_criteria db g limit.
Proof.
  intros H. unfold Catalog.find_cars_by_criteria.
  f_equal. f_equal. apply filter_ext.
  intros car. apply car_matches_same_up_to_case. exact H.
Qed.

Lemma find_cars_by_criteria_ignores_case_witness :
  same_up_to_case (set_f_brand (Some "toyota") empty_filters)
                  (set_f_brand (Some "TOYOTA") empty_filters)
  /\ Catalog.find_cars_by_criteria demo_catalog
       (set_f_brand (Some "toyota") empty_filters) 5
     = Catalog.find_cars_by_criteria demo_catalog
         (set_f_brand (Some "TOYOTA") empty_filters) 5.
Proof.
  assert (H : same_up_to_case (set_f_brand (Some "toyota") empty_filters)
                              (set_f_brand (Some "TOYOTA") empty_filters)).
  { repeat split; reflexivity. }
  split; [exact H|].
  apply (find_cars_by_criteria_ignores_case demo_catalog _ _ 5 H).
Defined.

(** X10. The lookup of a lead by telephone: a lead is returned exactly when
    the given text is not empty and some lead's stored phone is the digits
    of the text, and the lead returned is such a lead. An empty text finds
    nothing. *)
Theorem find_customer_lead_by_phone_spec
    (db : Catalog.Database) (phone : string) :
  match Catalog.find_customer_lead_by_phone db phone with
  | Some lead =>
      phone <> ""
      /\ In lead (Catalog.customer_leads db)
      /\ Catalog.lead_phone lead = digits_of phone
  | None =>
      phone = ""
      \/ forall lead, In lead (Catalog.customer_leads db) ->
           Catalog.lead_phone lead <> digits_of phone
  end.
Proof.
  unfold Catalog.find_customer_lead_by_phone, PyStr.sub_non_digits, digits_of.
  destruct phone as [|c phone]; [left; reflexivity|].
  cbn [PyStr.is_empty].
  set (digits := PyStr.filter_str PyStr.is_digit (String c phone)).
  destruct (List.find _ _) as [lead|] eqn:Hfind.
  - apply find_some in Hfind. destruct Hfind as [Hin Heq].
    apply String.eqb_eq in Heq. split; [discriminate|]. split; assumption.
  - right. intros lead Hin Heq.
    pose proof (find_none _ _ Hfind lead Hin) as Hne. cbn in Hne.
    rewrite Heq, String.eqb_refl in Hne. discriminate.
Qed.

(** X11. The lookup of a lead ignores the formatting of the number: a text
    with at least one digit finds what its digits alone find. In
    particular the normalized phone of the entities finds what the raw
    text would. *)
Theorem find_customer_lead_by_phone_ignores_formatting
    (db : Catalog.Database) (phone : string) :
  digits_of phone <> "" ->
  Catalog.find_customer_lead_by_phone db (digits_of phone)
  = Catalog.find_customer_lead_by_phone db phone.
Proof.
  intros Hd. unfold Catalog.find_customer_lead_by_phone, PyStr.sub_non_digits.
  unfold digits_of in *. rewrite filter_str_idempotent.
  destruct (PyStr.filter_str PyStr.is_digit phone) eqn:Hf; [congruence|].
  destruct phone; [discriminate|]. reflexivity.
Qed.

Lemma find_customer_lead_by_phone_ignores_formatting_witness :
  digits_of "0532 123 45 67" <> ""
  /\ Catalog.find_customer_lead_by_phone
       (Catalog.mkDb [] [Catalog.mkLead 7 "Ayse" None "05321234567" None])
       (digits_of "0532 123 45 67")
     = Catalog.find_customer_lead_by_phone
         (Catalog.mkDb [] [Catalog.mkLead 7 "Ayse" None "05321234567" None])
         "0532 123 45 67".
Proof.
  assert (H : digits_of "0532 123 45 67" <> "") by discriminate.
  split; [exact H|].
  apply (find_customer_lead_by_phone_ignores_formatting _ _ H).
Defined.

(** X12. The similarity lookup never returns the anchor itself: with a
    brand and a model to exclude, no car returned has both, whatever the
    case of the letters; every car returned is a car of the catalog inside
    the computed window, and there are at most [limit] of them. *)
Theorem find_similar_excludes_anchor
    (db : Catalog.Database) (target : Dec.decimal) (brand model : string)
    (tolerance : Dec.float64) (limit : nat) :
  brand <> "" -> model <> "" ->
  let found :=
    Catalog.find_similar_priced_cars db (Some target) (Some brand) (Some model)
                                     tolerance limit in
  (length found <= limit)%nat
  /\ forall car, In car found ->
       In car (Catalog.cars db)
       /\ Catalog.in_price_window target tolerance car = true
       /\ ~ (PyStr.lower (Catalog.car_brand car) = PyStr.lower brand
             /\ PyStr.lower (Catalog.car_model car) = PyStr.lower model).
Proof.
  intros Hb Hm. cbv zeta.
  destruct (find_similar_sound db target (Some brand) (Some model) tolerance
              limit) as (_ & Hlen & Hall).
  split; [exact Hlen|].
  intros car Hin. destruct (Hall car Hin) as (H1 & H2 & H3).
  split; [exact H1|]. split; [exact H2|].
  rewrite not_excluded_pair in H3 by assumption.
  intros [Eb Em]. unfold Catalog.ci_eqb in H3.
  rewrite Eb, Em, !String.eqb_refl in H3. discriminate.
Qed.

Lemma find_similar_excludes_anchor_witness :
  "Toyota" <> "" /\ "Corolla" <> ""
  /\ (length (Catalog.find_similar_priced_cars
                (Catalog.mkDb
                   [toyota_corolla; demo_car 4 "Fiat" "Egea" 61000000;
                    demo_car 5 "TOYOTA" "corolla" 60000000] [])
                (Some (Dec.mkDec 60000000 (-2))) (Some "Toyota")
                (Some "Corolla") Dec.float_0_15 5) <= 5)%nat.
Proof.
  assert (Hb : "Toyota" <> "") by discriminate.
  assert (Hm : "Corolla" <> "") by discriminate.
  split; [exact Hb|]. split; [exact Hm|].
  apply (find_similar_excludes_anchor
           (Catalog.mkDb
              [toyota_corolla; demo_car 4 "Fiat" "Egea" 61000000;
               demo_car 5 "TOYOTA" "corolla" 60000000] [])
           (Dec.mkDec 60000000 (-2)) "Toyota" "Corolla" Dec.float_0_15 5 Hb Hm).
Defined.

(** X13. The similarity lookup returns the nearest cars: a car of the
    catalog inside the window that passes the exclusion is returned, unless
    the limit is reached, and then the price of every car returned is no
    farther from the target than its price. *)
Theorem find_similar_nearest
    (db : Catalog.Database) (target : Dec.decimal)
    (exclude_brand exclude_model : option string)
    (tolerance : Dec.float64) (limit : nat) (car : Catalog.Car) :
  In car (Catalog.cars db) ->
  Catalog.in_price_window target tolerance car = true ->
  Catalog.not_excluded exclude_brand exclude_model car = true ->
  let found :=
    Catalog.find_similar_priced_cars db (Some target) exclude_brand
                                     exclude_model tolerance limit in
  In car found
  \/ (length found = limit
      /\ forall shown, In shown found -> nearer_or_equal target shown car).
Proof.
  intros Hin Hw Hx. cbv zeta. unfold Catalog.find_similar_priced_cars.
  set (sorted := Catalog.sort_by _ _).
  assert (Hs : Sorted (nearer_or_equal target) sorted).
  { apply (sort_by_sorted
             (fun a b => Dec.leb (Catalog.price_distance target a)
                                 (Catalog.price_distance target b))).
    intros a b. apply leb_total. }
  assert (Hc : In car sorted).
  { apply sort_by_in. apply filter_In. split; [exact Hin|].
    rewrite Hw, Hx. reflexivity. }
  destruct (in_firstn_or_skipn car limit sorted Hc) as [H|H];
    [left; exact H|right].
  split; [eapply skipn_inhabited_firstn_full; exact H|].
  intros shown Hshown.
  eapply (sorted_prefix_below (nearer_or_equal target) sorted);
    try eassumption.
  intros a b c. apply leb_trans.
Qed.

Lemma find_similar_nearest_witness :
  let db :=
    Catalog.mkDb
      [toyota_corolla; demo_car 2 "Honda" "Civic" 51000001;
       demo_car 4 "Fiat" "Egea" 61000000] [] in
  let found :=
    Catalog.find_similar_priced_cars db (Some (Dec.mkDec 60000000 (-2)))
      (Some "Toyota") (Some "Corolla") Dec.float_0_15 1 in
  In (demo_car 2 "Honda" "Civic" 51000001) found
  \/ (length found = 1%nat
      /\ forall shown, In shown found ->
           nearer_or_equal (Dec.mkDec 60000000 (-2)) shown
             (demo_car 2 "Honda" "Civic" 51000001)).
Proof.
  cbv zeta.
  apply (find_similar_nearest
           (Catalog.mkDb
              [toyota_corolla; demo_car 2 "Honda" "Civic" 51000001;
               demo_car 4 "Fiat" "Egea" 61000000] [])
           (Dec.mkDec 60000000 (-2)) (Some "Toyota") (Some "Corolla")
           Dec.float_0_15 1 (demo_car 2 "Honda" "Civic" 51000001)).
  - right. left. reflexivity.
  - vm_compute. reflexivity.
  - vm_compute. reflexivity.
Defined.

(** ** The order of the questions *)

Section QuestionFacts.
Import Agent.

Lemma first_open_question_spec qs ctx :
  forallb (fun entry => question_field_exists entry.1) qs = true ->
  match first_open_question qs ctx with
  | Some k =>
      exists before flag priority after,
        qs = (before ++ (k, (flag, priority)) :: after)%list
        /\ (flag ∉ asked_questions ctx)
        /\ needs_asking (filters ctx) k = true
        /\ Forall (question_closed ctx) before
  | None => Forall (question_closed ctx) qs
  end.
Proof.
  induction qs as [|[k [flag priority]] qs IH]; intros Hex.
  - constructor.
  - cbn [forallb fst] in Hex. apply andb_true_iff in Hex.
    destruct Hex as [Hk Hex]. specialize (IH Hex).
    cbn [first_open_question]. rewrite Hk. cbn [negb].
    case_bool_decide as Hflag.
    + destruct (first_open_question qs ctx) as [k'|].
      * destruct IH as (before & flag' & priority' & after & -> & H1 & H2 & H3).
        exists ((k, (flag, priority)) :: before), flag', priority', after.
        split; [reflexivity|]. split; [exact H1|]. split; [exact H2|].
        constructor; [left; exact Hflag|exact H3].
      * constructor; [left; exact Hflag|exact IH].
    + destruct (needs_asking (filters ctx) k) eqn:Hneeds.
      * exists [], flag, priority, qs. repeat split; auto.
      * destruct (first_open_question qs ctx) as [k'|].
        -- destruct IH as (before & flag' & priority' & after & -> & H1 & H2 & H3).
           exists ((k, (flag, priority)) :: before), flag', priority', after.
           split; [reflexivity|]. split; [exact H1|]. split; [exact H2|].
           constructor; [right; exact Hneeds|exact H3].
        -- constructor; [right; exact Hneeds|exact IH].
Qed.

(** [FILTER_QUESTIONS] is listed by strictly increasing priority. *)
Lemma filter_questions_sorted :
  StronglySorted (fun a b : string * (string * Z) => a.2.2 < b.2.2)
                 FILTER_QUESTIONS.
Proof.
  unfold FILTER_QUESTIONS.
  repeat (constructor; [|repeat constructor; cbn; lia]). constructor.
Qed.

Lemma strongly_sorted_split {A : Type} (R : A -> A -> Prop) before e after :
  StronglySorted R (before ++ e :: after) ->
  forall x, In x after -> R e x.
Proof.
  induction before as [|b before IH]; cbn; intros Hs x Hx.
  - inversion Hs as [|? ? _ Hall]; subst.
    apply (proj1 (List.Forall_forall _ _) Hall). exact Hx.
  - inversion Hs; subst. apply IH; assumption.
Qed.

Lemma filter_questions_exist :
  forallb (fun entry : string * (string * Z) => question_field_exists entry.1)
          FILTER_QUESTIONS = true.
Proof. reflexivity. Qed.

(** The next question, in closed form. *)
Lemma next_question_spec ctx :
  match first_open_question FILTER_QUESTIONS ctx with
  | Some k =>
      exists flag priority,
        In (k, (flag, priority)) FILTER_QUESTIONS
        /\ (flag ∉ asked_questions ctx)
        /\ needs_asking (filters ctx) k = true
        /\ forall entry, In entry FILTER_QUESTIONS ->
             entry.2.2 < priority -> question_closed ctx entry
  | None =>
      forall entry, In entry FILTER_QUESTIONS -> question_closed ctx entry
  end.
Proof.
  pose proof (first_open_question_spec FILTER_QUESTIONS ctx
                filter_questions_exist) as H.
  destruct (first_open_question FILTER_QUESTIONS ctx) as [k|].
  - destruct H as (before & flag & priority & after & Hqs & H1 & H2 & H3).
    exists flag, priority. split; [rewrite Hqs; apply in_elt|].
    split; [exact H1|]. split; [exact H2|].
    intros entry Hin Hlt. rewrite Hqs in Hin.
    apply in_app_or in Hin. destruct Hin as [Hin|[<-|Hin]].
    + apply (proj1 (List.Forall_forall _ _) H3). exact Hin.
    + cbn in Hlt. lia.
    + pose proof filter_questions_sorted as Hs. rewrite Hqs in Hs.
      pose proof (strongly_sorted_split _ _ _ _ Hs entry Hin) as Hgt.
      cbn in Hgt. lia.
  - intros entry Hin. apply (proj1 (List.Forall_forall _ _) H). exact Hin.
Qed.

(** The next question depends on the filters and the flags only. *)
Lemma first_open_question_ext qs ctx ctx' :
  filters ctx' = filters ctx ->
  asked_questions ctx' = asked_questions ctx ->
  first_open_question qs ctx' = first_open_question qs ctx.
Proof.
  intros Hf Ha. induction qs as [|[k [flag priority]] qs IH]; [reflexivity|].
  cbn [first_open_question]. rewrite Hf, Ha, IH. reflexivity.
Qed.

(** The ask action, called as such. *)
Lemma execute_ask db entities ctx :
  let ctx0 :=
    set_awaiting_model_confirmation false
      (set_potential_model_matches None
         (clear_similarity_context
            (set_results_shown false (set_search_performed false ctx)))) in
  _execute_action db ask entities ctx
  = (set_last_response (Some (ask_branch ctx0).2) (ask_branch ctx0).1,
     ask, [AskRun]).
Proof.
  cbv zeta. unfold _execute_action. decide_actions.
  cbn -[ask_branch clear_similarity_context].
  destruct (ask_branch _) as [ctx' r]. decide_actions. reflexivity.
Qed.

(** What the ask branch does to the filters and to the flags. *)
Lemma ask_branch_flags ctx :
  filters (ask_branch ctx).1 = filters ctx
  /\ match first_open_question FILTER_QUESTIONS ctx with
     | Some k =>
         exists flag priority,
           In (k, (flag, priority)) FILTER_QUESTIONS
           /\ (flag ∉ asked_questions ctx)
           /\ asked_questions (ask_branch ctx).1
              = {[flag]} ∪ asked_questions ctx
     | None => asked_questions (ask_branch ctx).1 = asked_questions ctx
     end.
Proof.
  pose proof (next_question_spec ctx) as Hspec.
  unfold ask_branch, _get_next_question.
  destruct (first_open_question FILTER_QUESTIONS ctx) as [k|].
  - destruct Hspec as (flag & priority & Hin & Hflag & _).
    assert (Hk : asked_flag_of k = Some flag).
    { unfold FILTER_QUESTIONS in Hin. cbn in Hin.
      repeat (destruct Hin as [Hin|Hin];
              [injection Hin as <- <- <-; reflexivity|]).
      contradiction. }
    cbn [last_question_key set_last_question_key]. rewrite Hk.
    split.
    + destruct (opt_str_truthy _); reflexivity.
    + exists flag, priority. split; [exact Hin|]. split; [exact Hflag|].
      destruct (opt_str_truthy _); reflexivity.
  - split; destruct (_ && _); reflexivity.
Qed.

Lemma unflagged_length ctx : (length (unflagged ctx) <= 7)%nat.
Proof.
  unfold unflagged.
  etransitivity; [apply filter_length_le|]. reflexivity.
Qed.

Lemma filter_length_lt {A : Type} (p q : A -> bool) (x : A) l :
  (forall y, q y = true -> p y = true) ->
  In x l -> p x = true -> q x = false ->
  (length (List.filter q l) < length (List.filter p l))%nat.
Proof.
  intros Hqp Hin Hp Hq.
  assert (Hle : forall l', (length (List.filter q l')
                            <= length (List.filter p l'))%nat).
  { induction l' as [|y l' IH]; [reflexivity|]. cbn [List.filter].
    destruct (q y) eqn:Hy; [rewrite (Hqp y Hy); cbn; lia|].
    destruct (p y); cbn; lia. }
  induction l as [|y l IH]; [contradiction|].
  cbn [List.filter]. destruct Hin as [->|Hin].
  - rewrite Hp, Hq. cbn. specialize (Hle l). lia.
  - specialize (IH Hin).
    destruct (q y) eqn:Hy; [rewrite (Hqp y Hy); cbn; lia|].
    destruct (p y); cbn; lia.
Qed.

(** Flagging an unflagged question leaves fewer of them. *)
Lemma unflagged_decreases ctx ctx' k flag priority :
  In (k, (flag, priority)) FILTER_QUESTIONS ->
  flag ∉ asked_questions ctx ->
  asked_questions ctx' = {[flag]} ∪ asked_questions ctx ->
  (length (unflagged ctx') < length (unflagged ctx))%nat.
Proof.
  intros Hin Hflag Hasked. unfold unflagged. rewrite Hasked.
  apply (filter_length_lt _ _ (k, (flag, priority))).
  - intros entry H. apply negb_true_iff in H. apply negb_true_iff.
    apply bool_decide_eq_false in H. apply bool_decide_eq_false.
    intros Hc. apply H. apply elem_of_union. right. exact Hc.
  - exact Hin.
  - cbn. rewrite (bool_decide_eq_false_2 _ Hflag). reflexivity.
  - cbn. rewrite bool_decide_eq_true_2; [reflexivity|].
    apply elem_of_union. left. apply elem_of_singleton. reflexivity.
Qed.

(** With every flag set there is no question left. *)
Lemma unflagged_nil ctx :
  unflagged ctx = [] -> first_open_question FILTER_QUESTIONS ctx = None.
Proof.
  intros H. pose proof (next_question_spec ctx) as Hspec.
  destruct (first_open_question FILTER_QUESTIONS ctx) as [k|]; [|reflexivity].
  destruct Hspec as (flag & priority & Hin & Hflag & _).
  assert (Hu : In (k, (flag, priority)) (unflagged ctx)).
  { apply filter_In. split; [exact Hin|]. cbn.
    rewrite (bool_decide_eq_false_2 _ Hflag). reflexivity. }
  rewrite H in Hu. contradiction.
Qed.

(** After [n] ask actions, no question is left or at most [7 - n] flags are
    still unset. *)
Lemma asks_progress db entities ctx n :
  let ctx' := Nat.iter n (ask_once db entities) ctx in
  first_open_question FILTER_QUESTIONS ctx' = None
  \/ (length (unflagged ctx') + n <= 7)%nat.
Proof.
  cbv zeta. induction n as [|n IH].
  - right. change (Nat.iter 0 (ask_once db entities) ctx) with ctx.
    pose proof (unflagged_length ctx). lia.
  - change (Nat.iter (S n) (ask_once db entities) ctx)
      with (ask_once db entities (Nat.iter n (ask_once db entities) ctx)).
    set (ctx1 := Nat.iter n (ask_once db entities) ctx) in *.
    unfold ask_once.
    rewrite (execute_ask db entities ctx1). cbv zeta.
    set (ctx0 := set_awaiting_model_confirmation false _).
    assert (Hf0 : filters ctx0 = filters ctx1) by reflexivity.
    assert (Ha0 : asked_questions ctx0 = asked_questions ctx1) by reflexivity.
    clearbody ctx0. cbn [fst].
    destruct (ask_branch_flags ctx0) as [Hf Hflags].
    rewrite (first_open_question_ext _ ctx1 ctx0 Hf0 Ha0) in Hflags.
    destruct (first_open_question FILTER_QUESTIONS ctx1) as [k|] eqn:Hopen.
    + right. destruct IH as [IH|IH]; [discriminate|].
      destruct Hflags as (flag & priority & Hin & Hflag & Hasked).
      rewrite Ha0 in Hflag, Hasked.
      pose proof (unflagged_decreases ctx1
                    (set_last_response (Some (ask_branch ctx0).2)
                                       (ask_branch ctx0).1)
                    k flag priority Hin Hflag Hasked).
      lia.
    + left. rewrite <- Hopen. apply first_open_question_ext.
      * cbn. rewrite Hf. exact Hf0.
      * cbn. rewrite Hflags. exact Ha0.
Qed.

End QuestionFacts.

(** X14. The next question is the open question of the highest priority:
    its flag is not in [asked_questions], its filter needs asking, and
    every question of a higher priority (a smaller number) is flagged or
    needs no asking. No question is returned exactly when every question is
    in that case. *)
Theorem next_question_by_priority (ctx : Agent.Context) :
  match (Agent._get_next_question ctx).1 with
  | Some (Agent.AskQuestion k) =>
      exists flag priority,
        In (k, (flag, priority)) Agent.FILTER_QUESTIONS
        /\ (flag ∉ Agent.asked_questions ctx)
        /\ Agent.needs_asking (Agent.filters ctx) k = true
        /\ forall entry, In entry Agent.FILTER_QUESTIONS ->
             entry.2.2 < priority -> question_closed ctx entry
  | None =>
      forall entry, In entry Agent.FILTER_QUESTIONS ->
        question_closed ctx entry
  end.
Proof.
  pose proof (next_question_spec ctx) as H.
  unfold Agent._get_next_question.
  destruct (Agent.first_open_question Agent.FILTER_QUESTIONS ctx); exact H.
Qed.

(** X15. Questions run out: from any context, after seven ask actions in a
    row there is no question left to ask. Each ask action flags the
    question it asks, and no ask action removes a flag or changes a
    filter. *)
Theorem seven_asks_exhaust_questions
    (db : Catalog.Database) (entities : Entities) (ctx : Agent.Context) :
  (Agent._get_next_question (Nat.iter 7 (ask_once db entities) ctx)).1 = None.
Proof.
  unfold Agent._get_next_question.
  destruct (asks_progress db entities ctx 7) as [H|H].
  - rewrite H. reflexivity.
  - rewrite unflagged_nil; [reflexivity|].
    destruct (unflagged _); [reflexivity|cbn in H; lia].
Qed.

(** ** More on the context update *)

Section UpdateReportFacts.
Import Agent.

(** A round that reports nothing changes nothing. *)
Lemma merge_filter_quiet {V : Type} `{EqDecision V}
    (get : Filters -> option V) (set : option V -> Filters -> Filters)
    value_str context_key new_value st :
  m_updated (merge_filter get set value_str context_key new_value st) = false ->
  merge_filter get set value_str context_key new_value st = st.
Proof.
  unfold merge_filter.
  destruct new_value as [v|]; [|reflexivity].
  destruct (_ || _); [|reflexivity].
  case_bool_decide; [reflexivity|discriminate].
Qed.

Lemma merge_filters_quiet entities st :
  m_updated (merge_filters entities st) = false ->
  merge_filters entities st = st.
Proof.
  unfold merge_filters. intros H.
  repeat match goal with
    | H : m_updated (merge_filter ?g ?s ?v ?k ?n ?st') = false |- _ =>
        let E := fresh "E" in
        pose proof (merge_filter_quiet g s v k n st' H) as E;
        rewrite E in H |- *
    end.
  reflexivity.
Qed.

Lemma reset_model_quiet before st :
  m_updated (reset_model_on_brand_change before st) = false ->
  reset_model_on_brand_change before st = st.
Proof.
  unfold reset_model_on_brand_change.
  destruct (_ && _); [|reflexivity].
  destruct (f_model (m_filters st)); [|reflexivity].
  destruct (Catalog.hasattr_Car "model"); [discriminate|reflexivity].
Qed.

Lemma merge_customer_quiet entities ctx :
  (merge_customer entities ctx).1.2 = false ->
  merge_customer entities ctx = (ctx, false, ∅).
Proof.
  unfold merge_customer.
  destruct (e_first_name entities) as [n|], (e_phone entities) as [p|];
    repeat case_bool_decide; cbn; try discriminate; reflexivity.
Qed.

(** The update leaves the memory alone. *)
Lemma update_keeps_memory entities a :
  memory_manager (_update_context_with_entities entities a).1
  = memory_manager a.
Proof.
  unfold _update_context_with_entities.
  destruct (entities_empty entities); [reflexivity|].
  destruct (merge_customer entities (current_context a))
    as [[ctx updated] keys]. reflexivity.
Qed.

(** When the last stage clears a model, the brand is set. *)
Lemma reset_model_brand before st :
  is_some (f_model (m_filters st)) = true ->
  is_some (f_model (m_filters (reset_model_on_brand_change before st))) = false ->
  is_some (f_brand (m_filters (reset_model_on_brand_change before st))) = true.
Proof.
  unfold reset_model_on_brand_change. cbv zeta.
  destruct (opt_str_truthy (f_brand (m_filters st))) eqn:Hb;
    cbn [andb]; cbv iota; [|intros; congruence].
  destruct (negb _); cbv iota; [|intros; congruence].
  destruct (f_model (m_filters st)); cbv iota; [|cbn; intros; congruence].
  intros _ _. cbn.
  destruct (f_brand (m_filters st)); [reflexivity|discriminate].
Qed.

Lemma merge_filter_asked {V : Type} `{EqDecision V}
    (get : Filters -> option V) (set : option V -> Filters -> Filters)
    value_str context_key new_value st :
  m_asked st ⊆ m_asked (merge_filter get set value_str context_key new_value st).
Proof.
  unfold merge_filter.
  destruct new_value as [v|]; [|reflexivity].
  destruct (_ || _); [|reflexivity].
  case_bool_decide; [reflexivity|]. cbn.
  destruct (asked_flag_of _); [|reflexivity].
  apply union_subseteq_r.
Qed.

Lemma merge_filters_asked entities st :
  m_asked st ⊆ m_asked (merge_filters entities st).
Proof.
  unfold merge_filters.
  repeat (etransitivity; [|apply merge_filter_asked]). reflexivity.
Qed.

Lemma reset_model_asked before st flag :
  flag ∈ m_asked st -> flag <> "asked_model" ->
  flag ∈ m_asked (reset_model_on_brand_change before st).
Proof.
  intros Hin Hne. unfold reset_model_on_brand_change.
  destruct (_ && _); [|exact Hin].
  destruct (f_model (m_filters st)); [|exact Hin].
  cbn. apply elem_of_difference. split; [exact Hin|].
  rewrite elem_of_singleton. exact Hne.
Qed.

(** The last stage touches the model only. *)
Lemma reset_model_other_filters before st :
  set_f_model None (m_filters (reset_model_on_brand_change before st))
  = set_f_model None (m_filters st).
Proof.
  unfold reset_model_on_brand_change.
  destruct (_ && _); [|reflexivity].
  destruct (f_model (m_filters st)); reflexivity.
Qed.

Lemma overlay_stays_set entities f :
  stays_set (f_brand f) (f_brand (overlay entities f))
  /\ stays_set (f_engine_type f) (f_engine_type (overlay entities f))
  /\ stays_set (f_body_type f) (f_body_type (overlay entities f))
  /\ stays_set (f_transmission f) (f_transmission (overlay entities f))
  /\ stays_set (f_price f) (f_price (overlay entities f))
  /\ stays_set (f_year f) (f_year (overlay entities f))
  /\ stays_set (f_min_price f) (f_min_price (overlay entities f))
  /\ stays_set (f_max_price f) (f_max_price (overlay entities f))
  /\ stays_set (f_min_year f) (f_min_year (overlay entities f))
  /\ stays_set (f_max_year f) (f_max_year (overlay entities f)).
Proof.
  unfold overlay, apply_opt, stays_set.
  destruct (e_max_year entities), (e_min_year entities),
    (e_max_price entities), (e_min_price entities),
    (e_transmission entities), (e_body_type entities),
    (e_engine_type entities), (e_model entities), (e_brand entities);
    cbn; auto 20.
Qed.

End UpdateReportFacts.

(** X16. The value the update returns tells what it did. When it returns
    false, the context is left as it was, but for the acknowledgment, which
    is cleared unless the mapping has no key. When it returns true, the flags
    [search_performed] and [results_shown] are false. The memory is never
    touched. *)
Theorem update_reports_changes (entities : Entities) (a : Agent.Agent) :
  let r := Agent._update_context_with_entities entities a in
  Agent.memory_manager r.1 = Agent.memory_manager a
  /\ if r.2
     then Agent.search_performed (Agent.current_context r.1) = false
          /\ Agent.results_shown (Agent.current_context r.1) = false
     else Agent.current_context r.1
          = (if entities_empty entities then Agent.current_context a
             else Agent.set_last_acknowledged_info None
                    (Agent.current_context a)).
Proof.
  cbv zeta. unfold Agent._update_context_with_entities.
  destruct (entities_empty entities); [split; reflexivity|].
  pose proof (merge_customer_quiet entities (Agent.current_context a)) as Hc.
  destruct (Agent.merge_customer entities (Agent.current_context a))
    as [[ctx updated] keys]. cbn [fst snd] in Hc. cbv beta iota zeta.
  set (st0 := Agent.mkMerge _ _ _ _ _).
  pose proof (reset_model_quiet (f_brand (Agent.filters ctx))
                (Agent.merge_filters entities st0)) as Hr.
  pose proof (merge_filters_quiet entities st0) as Hm.
  destruct (Agent.m_updated
              (Agent.reset_model_on_brand_change _ _)) eqn:Hup;
    cbn [fst snd Agent.current_context Agent.memory_manager].
  - split; [reflexivity|]. split; reflexivity.
  - split; [reflexivity|].
    rewrite (Hr eq_refl) in Hup |- *. rewrite (Hm Hup) in Hup |- *.
    unfold st0 in Hup |- *. cbn [Agent.m_updated] in Hup.
    injection (Hc Hup) as -> _ _.
    cbn [Agent.m_filters Agent.m_asked].
    destruct (Agent.current_context a). reflexivity.
Qed.

(** X17. The update only adds: a filter that holds a value before the
    update holds one after it, the model excepted (a change of brand clears
    it), and a flag of [asked_questions] stays, the flag of the model
    question excepted. *)
Theorem update_never_unsets (entities : Entities) (a : Agent.Agent) :
  let before := Agent.current_context a in
  let after :=
    Agent.current_context (Agent._update_context_with_entities entities a).1 in
  let f := Agent.filters before in
  let g := Agent.filters after in
  stays_set (f_brand f) (f_brand g)
  /\ stays_set (f_engine_type f) (f_engine_type g)
  /\ stays_set (f_body_type f) (f_body_type g)
  /\ stays_set (f_transmission f) (f_transmission g)
  /\ stays_set (f_price f) (f_price g)
  /\ stays_set (f_year f) (f_year g)
  /\ stays_set (f_min_price f) (f_min_price g)
  /\ stays_set (f_max_price f) (f_max_price g)
  /\ stays_set (f_min_year f) (f_min_year g)
  /\ stays_set (f_max_year f) (f_max_year g)
  /\ forall flag,
       flag ∈ Agent.asked_questions before -> flag <> "asked_model" ->
       flag ∈ Agent.asked_questions after.
Proof.
  cbv zeta.
  destruct (entities_empty entities) eqn:He.
  { rewrite update_empty_mapping by exact He. unfold stays_set.
    cbn [fst]. auto 20. }
  destruct (update_writes_back entities a He) as (Hf & Ha & _).
  rewrite Hf, Ha. unfold merged.
  pose proof (merge_customer_filters entities (Agent.current_context a))
    as [Hcf Hca].
  destruct (Agent.merge_customer entities (Agent.current_context a))
    as [[ctx updated] keys]. cbn [fst] in Hcf, Hca. cbv beta iota.
  rewrite Hcf, Hca.
  set (st0 := Agent.mkMerge _ _ _ _ _).
  pose proof (reset_model_other_filters
                (f_brand (Agent.filters (Agent.current_context a)))
                (Agent.merge_filters entities st0)) as Hother.
  rewrite merge_filters_filters in Hother. unfold st0 in Hother at 2.
  cbn [Agent.m_filters] in Hother.
  pose proof (overlay_stays_set entities
                (Agent.filters (Agent.current_context a))) as Hover.
  set (g := Agent.m_filters (Agent.reset_model_on_brand_change _ _)) in *.
  set (o := overlay entities (Agent.filters (Agent.current_context a))) in *.
  assert (Hb : f_brand g = f_brand o)
    by (change (f_brand (set_f_model None g) = f_brand (set_f_model None o));
        rewrite Hother; reflexivity).
  assert (H3 : f_engine_type g = f_engine_type o)
    by (change (f_engine_type (set_f_model None g)
                = f_engine_type (set_f_model None o));
        rewrite Hother; reflexivity).
  assert (H4 : f_body_type g = f_body_type o)
    by (change (f_body_type (set_f_model None g)
                = f_body_type (set_f_model None o));
        rewrite Hother; reflexivity).
  assert (H5 : f_transmission g = f_transmission o)
    by (change (f_transmission (set_f_model None g)
                = f_transmission (set_f_model None o));
        rewrite Hother; reflexivity).
  assert (H6 : f_price g = f_price o)
    by (change (f_price (set_f_model None g) = f_price (set_f_model None o));
        rewrite Hother; reflexivity).
  assert (H7 : f_year g = f_year o)
    by (change (f_year (set_f_model None g) = f_year (set_f_model None o));
        rewrite Hother; reflexivity).
  assert (H8 : f_min_price g = f_min_price o)
    by (change (f_min_price (set_f_model None g)
                = f_min_price (set_f_model None o));
        rewrite Hother; reflexivity).
  assert (H9 : f_max_price g = f_max_price o)
    by (change (f_max_price (set_f_model None g)
                = f_max_price (set_f_model None o));
        rewrite Hother; reflexivity).
  assert (H10 : f_min_year g = f_min_year o)
    by (change (f_min_year (set_f_model None g)
                = f_min_year (set_f_model None o));
        rewrite Hother; reflexivity).
  assert (H11 : f_max_year g = f_max_year o)
    by (change (f_max_year (set_f_model None g)
                = f_max_year (set_f_model None o));
        rewrite Hother; reflexivity).
  rewrite Hb, H3, H4, H5, H6, H7, H8, H9, H10, H11.
  destruct Hover as (O1 & O2 & O3 & O4 & O5 & O6 & O7 & O8 & O9 & O10).
  repeat (split; [assumption|]).
  intros flag Hin Hne. apply reset_model_asked; [|exact Hne].
  apply merge_filters_asked. unfold st0. cbn [Agent.m_asked].
  exact Hin.
Qed.

(** X18. The update never takes the permission to search away: when the
    minimum criteria are met before the update, they are met after it. (The
    model is the only filter the update can clear, and it clears it only
    under a brand.) *)
Theorem update_keeps_should_search (entities : Entities) (a : Agent.Agent) :
  Agent._should_search (Agent.current_context a) = true ->
  Agent._should_search
    (Agent.current_context (Agent._update_context_with_entities entities a).1)
  = true.
Proof.
  intros Hbefore.
  destruct (entities_empty entities) eqn:He.
  { rewrite update_empty_mapping by exact He. exact Hbefore. }
  destruct (update_writes_back entities a He) as (Hf & _).
  rewrite should_search_closed_form in Hbefore |- *.
  rewrite Hf. unfold merged.
  pose proof (merge_customer_filters entities (Agent.current_context a))
    as [Hcf _].
  destruct (Agent.merge_customer entities (Agent.current_context a))
    as [[ctx updated] keys]. cbn [fst] in Hcf. cbv beta iota.
  rewrite Hcf.
  set (st0 := Agent.mkMerge _ _ _ _ _).
  pose proof (reset_model_other_filters
                (f_brand (Agent.filters (Agent.current_context a)))
                (Agent.merge_filters entities st0)) as Hother.
  pose proof (reset_model_brand
                (f_brand (Agent.filters (Agent.current_context a)))
                (Agent.merge_filters entities st0)) as Hbrand.
  rewrite merge_filters_filters in Hother, Hbrand.
  unfold st0 in Hother at 2. unfold st0 in Hbrand at 1.
  cbn [Agent.m_filters] in Hother, Hbrand.
  pose proof (overlay_stays_set entities
                (Agent.filters (Agent.current_context a)))
    as (O1 & O2 & O3 & O4 & _ & O6 & O7 & O8 & O9 & O10).
  pose proof (overlay_model entities
                (Agent.filters (Agent.current_context a))) as Omodel.
  set (g := Agent.m_filters (Agent.reset_model_on_brand_change _ _)) in *.
  set (o := overlay entities (Agent.filters (Agent.current_context a))) in *.
  set (f := Agent.filters (Agent.current_context a)) in *.
  assert (Hb : f_brand g = f_brand o)
    by (change (f_brand (set_f_model None g) = f_brand (set_f_model None o));
        rewrite Hother; reflexivity).
  assert (H3 : f_engine_type g = f_engine_type o)
    by (change (f_engine_type (set_f_model None g)
                = f_engine_type (set_f_model None o));
        rewrite Hother; reflexivity).
  assert (H4 : f_body_type g = f_body_type o)
    by (change (f_body_type (set_f_model None g)
                = f_body_type (set_f_model None o));
        rewrite Hother; reflexivity).
  assert (H5 : f_transmission g = f_transmission o)
    by (change (f_transmission (set_f_model None g)
                = f_transmission (set_f_model None o));
        rewrite Hother; reflexivity).
  assert (H7 : f_year g = f_year o)
    by (change (f_year (set_f_model None g) = f_year (set_f_model None o));
        rewrite Hother; reflexivity).
  assert (H8 : f_min_price g = f_min_price o)
    by (change (f_min_price (set_f_model None g)
                = f_min_price (set_f_model None o));
        rewrite Hother; reflexivity).
  assert (H9 : f_max_price g = f_max_price o)
    by (change (f_max_price (set_f_model None g)
                = f_max_price (set_f_model None o));
        rewrite Hother; reflexivity).
  assert (H10 : f_min_year g = f_min_year o)
    by (change (f_min_year (set_f_model None g)
                = f_min_year (set_f_model None o));
        rewrite Hother; reflexivity).
  assert (H11 : f_max_year g = f_max_year o)
    by (change (f_max_year (set_f_model None g)
                = f_max_year (set_f_model None o));
        rewrite Hother; reflexivity).
  assert (Hmodel : is_some (f_model f) = true -> is_some (f_model o) = true).
  { rewrite Omodel. destruct (e_model entities); [reflexivity|auto]. }
  unfold stays_set in *.
  rewrite H3, H4, H5, H7, H8, H9, H10, H11.
  destruct (is_some (f_model g)) eqn:Hmg; [rewrite orb_true_r; reflexivity|].
  destruct (is_some (f_model f)) eqn:Hmf.
  { rewrite (Hbrand (Hmodel eq_refl) eq_refl). reflexivity. }
  rewrite Hb.
  repeat match goal with
    | H : ?x = true -> ?y = true |- _ =>
        destruct x eqn:?; [rewrite (H eq_refl)|clear H]
    end;
    cbn in Hbefore |- *; rewrite ?orb_true_r; try reflexivity;
    try discriminate.
Qed.

Lemma update_keeps_should_search_witness :
  let a :=
    agent_with
      (Agent.set_filters
         (set_f_model (Some "Corolla")
            (set_f_brand (Some "Toyota") empty_filters))
         Agent.fresh_context) in
  Agent._should_search (Agent.current_context a) = true
  /\ Agent._should_search
       (Agent.current_context
          (Agent._update_context_with_entities
             (with_brand "Honda" plain_entities) a).1)
     = true.
Proof.
  cbv zeta. split; [reflexivity|].
  apply (update_keeps_should_search (with_brand "Honda" plain_entities)
           (agent_with
              (Agent.set_filters
                 (set_f_model (Some "Corolla")
                    (set_f_brand (Some "Toyota") empty_filters))
                 Agent.fresh_context))).
  reflexivity.
Defined.

(** ** The reply of a turn *)

Section ReplyFacts.
Import Agent.

Ltac split_branches db :=
  repeat match goal with
    | |- context [ask_branch ?c] => destruct (ask_branch c) as [? ?]
    | |- context [list_all_branch db ?c] =>
        destruct (list_all_branch db c) as [? ?]
    | |- context [find_similar_branch db ?c] =>
        destruct (find_similar_branch db c) as [? ?]
    | |- context [clarify_model_branch db ?c] =>
        destruct (clarify_model_branch db c) as [? ?]
    | |- context [handle_model_confirmation_branch ?e ?c] =>
        destruct (handle_model_confirmation_branch e c) as [? ?]
    end.

(** The executor leaves a reply in the context, whatever the action; the
    wait action leaves the one it finds. *)
Lemma execute_action_reply db action entities ctx :
  (action <> wait ->
   is_some (last_response (_execute_action db action entities ctx).1.1) = true)
  /\ (action = wait ->
      last_response (_execute_action db action entities ctx).1.1
      = last_response ctx).
Proof.
  unfold _execute_action.
  destruct action; decide_actions;
    cbn -[search_branch ask_branch list_all_branch find_similar_branch
          clarify_model_branch handle_model_confirmation_branch wait_branch];
    try (unfold search_branch;
         destruct (_ && _);
         [|destruct (filters_all_unset _);
           [|destruct (Catalog.find_cars_by_criteria _ _ _)]];
         decide_actions;
         cbn -[ask_branch list_all_branch find_similar_branch
               clarify_model_branch handle_model_confirmation_branch
               wait_branch]);
    split_branches db; decide_actions; cbn;
    (split; [intros Hne|intros Heq]); try congruence; try reflexivity;
    repeat match goal with
      | |- context [if ?b then _ else _] => destruct b eqn:?
      end; cbn; auto.
Qed.

Lemma identify_customer_reply db entities ctx :
  last_response (identify_customer db entities ctx) = last_response ctx
  /\ awaiting_model_confirmation (identify_customer db entities ctx)
     = awaiting_model_confirmation ctx.
Proof.
  unfold identify_customer.
  destruct (e_phone entities) as [[phone|]|]; try (split; reflexivity).
  destruct (_ && _); [|split; reflexivity].
  destruct (Catalog.find_customer_lead_by_phone db phone);
    destruct (opt_int_truthy _); try destruct (opt_str_truthy _);
    split; reflexivity.
Qed.

(** An immediate action that is taken leaves a reply. *)
Lemma immediate_step_reply db entities a :
  (immediate_step db entities a).1.1.2 = true ->
  is_some (last_response
             (current_context (immediate_step db entities a).1.1.1)) = true.
Proof.
  unfold immediate_step.
  destruct (_ || _); [|discriminate].
  unfold _handle_immediate_actions.
  destruct (flag_set (e_is_reset entities)); [reflexivity|].
  destruct (flag_set (e_is_farewell entities)); [reflexivity|].
  destruct (_ && _).
  { destruct (_ && _); [reflexivity|discriminate]. }
  destruct (flag_set (e_is_list_all entities)); [|discriminate].
  destruct (negb (has_other_filters entities)); [|discriminate].
  destruct (_execute_action db list_all entities _) as [[ctx act] ev].
  intros _. cbn.
  destruct (is_some (last_response ctx)) eqn:H; [exact H|reflexivity].
Qed.

(** When the selector chooses to wait, it has stored the reply. *)
Lemma select_action_reply entities context_updated a :
  (select_action entities context_updated a).1 = wait ->
  is_some (last_response
             (current_context (select_action entities context_updated a).2))
  = true.
Proof.
  unfold select_action.
  destruct context_updated.
  { destruct (_should_search _); discriminate. }
  destruct (confirmation_is "yes" entities).
  { destruct (results_shown _); [reflexivity|].
    destruct (_should_search _); discriminate. }
  destruct (confirmation_is "no" entities).
  { destruct (results_shown _); [reflexivity|].
    destruct (last_question_key _) as [k|]; [|discriminate].
    destruct (str_truthy k); discriminate. }
  destruct (_ && _); discriminate.
Qed.

Lemma finish_reply render action events a :
  t_response (finish render action events a) = last_response (current_context a).
Proof. reflexivity. Qed.

(** The list-all action, called as such: the listing runs, and its reply
    is stored only when no reply is stored yet. *)
Lemma execute_list_all db entities ctx :
  (_execute_action db list_all entities ctx).1.2 = list_all
  /\ (_execute_action db list_all entities ctx).2 = [ListAllRun]
  /\ last_response (_execute_action db list_all entities ctx).1.1
     = Some (match last_response ctx with
             | Some r => r
             | None => listing db
             end).
Proof.
  unfold _execute_action, listing, list_all_branch. decide_actions.
  cbn -[Catalog.find_cars_by_criteria].
  destruct (is_nil (Catalog.find_cars_by_criteria db empty_filters 5));
    decide_actions; cbn; destruct (last_response ctx) eqn:E; cbn;
    rewrite ?E; auto.
Qed.

(** A turn ends with a reply stored, which is the reply returned. *)
Lemma process_message_reply db render user_message entities a :
  let t := process_message db render user_message entities a in
  exists r,
    t_response t = Some r
    /\ last_response (current_context (t_agent t)) = Some r.
Proof.
  cbv zeta.
  assert (Hsome : forall o : option Response,
            is_some o = true -> exists r, o = Some r).
  { intros [r|]; [eexists; reflexivity|discriminate]. }
  assert (Hfin : forall action events a',
            is_some (last_response (current_context a')) = true ->
            exists r,
              t_response (finish render action events a') = Some r
              /\ last_response
                   (current_context
                      (t_agent (finish render action events a')))
                 = Some r).
  { intros action events a' H. rewrite finish_context, finish_reply.
    destruct (Hsome _ H) as [r ->]. exists r. auto. }
  unfold process_message. cbv zeta.
  set (a0 := begin_turn user_message a).
  destruct (awaiting_model_confirmation (current_context a0)).
  { pose proof (execute_action_reply db handle_model_confirmation entities
                  (set_last_response None (current_context a0)))
      as [H _].
    destruct (_execute_action db handle_model_confirmation _ _)
      as [[ctx act] ev].
    apply Hfin. apply H. discriminate. }
  destruct (flag_set (e_is_similarity_request entities)).
  { destruct (_ && _).
    - pose proof (execute_action_reply db find_similar entities
                    (current_context a0)) as [H _].
      destruct (_execute_action db find_similar _ _)
        as [[ctx act] ev].
      apply Hfin. apply H. discriminate.
    - apply Hfin. reflexivity. }
  set (a1 := with_context _ a0). clearbody a1.
  pose proof (immediate_step_reply db entities a1) as Himm.
  destruct (immediate_step db entities a1) as [[[a2 taken] imm] ev].
  cbn [fst snd] in Himm.
  destruct taken; [apply Hfin; apply Himm; reflexivity|].
  unfold normal_flow.
  destruct (_update_context_with_entities entities a2) as [a3 upd].
  destruct (needs_clarification upd a3).
  { pose proof (execute_action_reply db clarify_model entities
                  (current_context a3)) as [H _].
    destruct (_execute_action db clarify_model _ _)
      as [[ctx act] ev'].
    apply Hfin. apply H. discriminate. }
  pose proof (select_action_reply entities upd a3) as Hsel.
  destruct (select_action entities upd a3) as [action a4].
  cbn [fst snd] in Hsel.
  pose proof (execute_action_reply db action entities
                (current_context a4)) as [H Hwait].
  destruct (_execute_action db action entities _) as [[ctx act] ev'].
  cbn [fst] in H, Hwait. apply Hfin. cbn [current_context with_context].
  destruct (Action_eq_dec action wait) as [Hw|Hw].
  - rewrite (Hwait Hw). apply Hsel. exact Hw.
  - apply H. exact Hw.
Qed.

End ReplyFacts.

(** X19. [process_message] always returns a reply. When the body of its
    [try] completes, the reply is the one stored as [last_response]. When
    the body raises, the reply is the error fallback; it is not stored
    ([last_response] is left as it was at the raise), and the clarification
    sub-state is cleared. *)
Theorem process_message_always_replies
    (db : Catalog.Database) (render : Agent.Response -> string)
    (user_message : string) (body : Agent.Body) (a : Agent.Agent) :
  let t := Agent.process_message_try db render user_message body a in
  exists r,
    Agent.t_response t = Some r
    /\ match body with
       | Agent.Completes _ =>
           Agent.last_response (Agent.current_context (Agent.t_agent t))
           = Some r
       | Agent.Raises at_raise _ =>
           r = Agent.ErrorFallback
           /\ Agent.last_response (Agent.current_context (Agent.t_agent t))
              = Agent.last_response (Agent.current_context at_raise)
           /\ idle (Agent.current_context (Agent.t_agent t))
       end.
Proof.
  cbv zeta. destruct body as [entities|at_raise events].
  - apply process_message_reply.
  - exists Agent.ErrorFallback. repeat split.
Qed.

(** X20. A turn that asks for the whole list, when no confirmation is
    pending, runs the listing but returns the listing only when the context
    holds no reply yet: when a reply of an earlier turn is stored, the
    executor keeps it and it is returned again. *)
Theorem list_all_turn_reply
    (db : Catalog.Database) (render : Agent.Response -> string)
    (user_message : string) (entities : Entities) (a : Agent.Agent) :
  Agent.awaiting_model_confirmation (Agent.current_context a) = false ->
  list_all_request entities = true ->
  let t := Agent.process_message db render user_message entities a in
  Agent.t_action t = Some Agent.list_all
  /\ Agent.t_events t = [Agent.ListAllRun]
  /\ Agent.t_response t
     = Some (match Agent.last_response (Agent.current_context a) with
             | Some stored => stored
             | None => listing db
             end).
Proof.
  intros Hawait Hreq. cbv zeta.
  unfold list_all_request in Hreq.
  repeat (apply andb_true_iff in Hreq; destruct Hreq as [Hreq ?]).
  repeat match goal with
    | H : negb _ = true |- _ => apply negb_true_iff in H
    end.
  unfold Agent.process_message. cbv zeta.
  change (Agent.current_context (Agent.begin_turn user_message a))
    with (Agent.current_context a).
  rewrite Hawait.
  match goal with
  | H : flag_set (e_is_similarity_request entities) = false |- _ => rewrite H
  end.
  destruct (identify_customer_reply db entities (Agent.current_context a))
    as [Hlast _].
  set (ctx1 := Agent.identify_customer db entities (Agent.current_context a))
    in *.
  clearbody ctx1.
  unfold Agent.immediate_step, Agent._handle_immediate_actions.
  repeat match goal with
    | H : flag_set _ = _ |- _ => rewrite H
    | H : Agent.has_other_filters _ = _ |- _ => rewrite H
    end.
  cbn [orb andb negb].
  cbn [Agent.current_context Agent.with_context].
  destruct (execute_list_all db entities ctx1) as (Hact & Hev & Hreply).
  destruct (Agent._execute_action db Agent.list_all entities ctx1)
    as [[ctx2 act] ev].
  cbn [fst snd] in Hact, Hev, Hreply. subst act ev.
  cbv beta iota. cbn [Agent.current_context Agent.with_context].
  rewrite Hreply. cbn [is_some].
  unfold Agent.finish.
  cbn [Agent.t_action Agent.t_events Agent.t_response Agent.current_context
       Agent.with_context].
  rewrite Hreply, Hlast. auto.
Qed.

Lemma list_all_turn_reply_witness :
  let a :=
    Agent.t_agent
      (Agent.process_message demo_catalog demo_render "Toyota"
         (with_brand "Toyota" plain_entities) Agent.new_agent) in
  Agent.t_events
    (Agent.process_message demo_catalog demo_render "hepsi" list_all_entities a)
  = [Agent.ListAllRun]
  /\ Agent.t_response
       (Agent.process_message demo_catalog demo_render "hepsi"
          list_all_entities a)
     = Some (Agent.ShowResults [toyota_corolla]).
Proof.
  cbv zeta.
  destruct (list_all_turn_reply demo_catalog demo_render "hepsi"
              list_all_entities
              (Agent.t_agent
                 (Agent.process_message demo_catalog demo_render "Toyota"
                    (with_brand "Toyota" plain_entities) Agent.new_agent))
              eq_refl eq_refl) as (_ & Hev & Hr).
  split; [exact Hev|]. exact Hr.
Defined.

(** X21. A reset turn, when no confirmation is pending and the message is no
    similarity request, leaves a fresh context that holds only the reply:
    every filter, flag and customer field is cleared, and the memory is
    emptied before the reply goes in, so the user's message is dropped too. *)
Theorem reset_turn_clears_everything
    (db : Catalog.Database) (render : Agent.Response -> string)
    (user_message : string) (entities : Entities) (a : Agent.Agent) :
  Agent.awaiting_model_confirmation (Agent.current_context a) = false ->
  flag_set (e_is_similarity_request entities) = false ->
  flag_set (e_is_reset entities) = true ->
  let t := Agent.process_message db render user_message entities a in
  Agent.t_response t = Some Agent.ConfirmReset
  /\ Agent.t_action t = Some Agent.reset
  /\ Agent.t_events t = []
  /\ Agent.current_context (Agent.t_agent t)
     = Agent.set_last_response (Some Agent.ConfirmReset) Agent.fresh_context
  /\ Agent.memory_manager (Agent.t_agent t)
     = Memory.add_message "assistant" (render Agent.ConfirmReset)
         (Memory.clear_memory (Agent.memory_manager a)).
Proof.
  intros Hawait Hsim Hreset. cbv zeta.
  unfold Agent.process_message. cbv zeta.
  change (Agent.current_context (Agent.begin_turn user_message a))
    with (Agent.current_context a).
  rewrite Hawait, Hsim.
  unfold Agent.immediate_step, Agent._handle_immediate_actions.
  rewrite Hreset. cbn [orb].
  cbv beta iota zeta.
  rewrite bool_decide_eq_false_2 by discriminate.
  unfold Agent.finish, Agent._reset_context, Agent.remember.
  cbn [Agent.current_context Agent.with_context Agent.memory_manager
       Agent.last_response Agent.set_last_response Agent.fresh_context
       is_some Agent.t_response Agent.t_action Agent.t_events Agent.t_agent
       Agent.begin_turn Agent.remember].
  repeat (split; [reflexivity|]).
  unfold Memory.clear_memory. rewrite add_message_max. reflexivity.
Qed.

Lemma reset_turn_clears_everything_witness :
  let a :=
    Agent.t_agent
      (Agent.process_message demo_catalog demo_render "Toyota"
         (with_brand "Toyota" plain_entities) Agent.new_agent) in
  Agent.filters (Agent.current_context a)
  = set_f_brand (Some "Toyota") empty_filters
  /\ Agent.current_context
       (Agent.t_agent
          (Agent.process_message demo_catalog demo_render "reset"
             reset_entities a))
     = Agent.set_last_response (Some Agent.ConfirmReset) Agent.fresh_context.
Proof.
  cbv zeta. split; [reflexivity|].
  apply (reset_turn_clears_everything demo_catalog demo_render "reset"
           reset_entities
           (Agent.t_agent
              (Agent.process_message demo_catalog demo_render "Toyota"
                 (with_brand "Toyota" plain_entities) Agent.new_agent))
           eq_refl eq_refl eq_refl).
Defined.

(** ** The candidates of a model clarification *)

Section CandidateFacts.
Import Agent.

Lemma idle_consistent db ctx : idle ctx -> candidates_consistent db ctx.
Proof. intros [Hp Ha]. unfold candidates_consistent. rewrite Hp. exact Ha. Qed.

(** Without a pending confirmation, a consistent sub-state is idle. *)
Lemma consistent_idle db ctx :
  candidates_consistent db ctx ->
  awaiting_model_confirmation ctx = false -> idle ctx.
Proof.
  unfold candidates_consistent, idle. intros H Ha.
  destruct (potential_model_matches ctx); [|auto].
  destruct H as [H _]. congruence.
Qed.

Lemma consistent_ext db ctx ctx' :
  potential_model_matches ctx' = potential_model_matches ctx ->
  awaiting_model_confirmation ctx' = awaiting_model_confirmation ctx ->
  filters ctx' = filters ctx ->
  candidates_consistent db ctx -> candidates_consistent db ctx'.
Proof.
  unfold candidates_consistent. intros -> -> ->. auto.
Qed.

Lemma idle_ext ctx ctx' :
  potential_model_matches ctx' = potential_model_matches ctx ->
  awaiting_model_confirmation ctx' = awaiting_model_confirmation ctx ->
  idle ctx -> idle ctx'.
Proof. unfold idle. intros -> ->. auto. Qed.

(** A car found under a model filter carries that model. *)
Lemma car_matches_model f car model_name :
  f_model f = Some model_name -> model_name <> "" ->
  Catalog.car_matches f car = true ->
  PyStr.lower (Catalog.car_model car) = PyStr.lower model_name.
Proof.
  intros Hm Hne H. unfold Catalog.car_matches in H. rewrite Hm in H.
  repeat (apply andb_true_iff in H; destruct H as [H ?]).
  match goal with
  | H : Catalog.match_str (Some model_name) _ = true |- _ =>
      unfold Catalog.match_str in H;
      destruct model_name; [congruence|]; cbn [PyStr.is_empty] in H;
      unfold Catalog.ci_eqb in H; apply String.eqb_eq in H; exact H
  end.
Qed.

(** The clarification branch leaves the sub-state consistent. *)
Lemma clarify_model_branch_candidates db ctx :
  candidates_consistent db ctx ->
  candidates_consistent db (clarify_model_branch db ctx).1.
Proof.
  intros Hin. unfold clarify_model_branch.
  destruct (f_model (filters ctx)) as [m|] eqn:Hm; [|exact Hin].
  destruct (str_truthy m) eqn:Ht; [|exact Hin].
  assert (Hne : m <> "") by (intros ->; discriminate).
  pose proof (find_cars_length db (set_f_brand None (filters ctx)) 3
                ltac:(discriminate)) as Hlen.
  pose proof (fun car => find_cars_in db (set_f_brand None (filters ctx)) 3 car)
    as Hall.
  destruct (Catalog.find_cars_by_criteria db _ 3) as [|car [|car' rest]] eqn:Hf.
  - apply idle_consistent. split; reflexivity.
  - unfold candidates_consistent. cbn.
    split; [reflexivity|]. split; [discriminate|]. split; [exact Hlen|].
    exists m. split; [exact Hm|]. split; [exact Hne|].
    intros c Hc. destruct (Hall c Hc) as [H1 H2]. split; [exact H1|].
    apply (car_matches_model (set_f_brand None (filters ctx))); auto.
  - unfold candidates_consistent. cbn.
    split; [reflexivity|]. split; [discriminate|]. split; [exact Hlen|].
    exists m. split; [exact Hm|]. split; [exact Hne|].
    intros c Hc. destruct (Hall c Hc) as [H1 H2]. split; [exact H1|].
    apply (car_matches_model (set_f_brand None (filters ctx))); auto.
Qed.

Lemma ask_branch_idle ctx : idle ctx -> idle (ask_branch ctx).1.
Proof.
  apply idle_ext; unfold ask_branch;
    pose proof (next_question_keeps ctx) as (_ & _ & Ha & Hp);
    destruct (_get_next_question ctx) as [[q|] ctx']; cbn in Ha, Hp |- *;
    rewrite <- ?Ha, <- ?Hp;
    try (destruct (last_question_key ctx') as [k|];
         [destruct (asked_flag_of k)|]);
    try destruct (opt_str_truthy _); try destruct (_ && _); reflexivity.
Qed.

Lemma list_all_branch_idle db ctx : idle ctx -> idle (list_all_branch db ctx).1.
Proof.
  apply idle_ext; unfold list_all_branch; destruct (is_nil _); reflexivity.
Qed.

Lemma find_similar_branch_idle db ctx :
  idle ctx -> idle (find_similar_branch db ctx).1.
Proof.
  apply idle_ext; unfold find_similar_branch;
    (destruct (_ && _); [destruct (is_nil _)|]); reflexivity.
Qed.

(** The clarification, called as such. *)
Lemma execute_clarify_form db entities ctx :
  let ctx0 :=
    clear_similarity_context
      (set_results_shown false (set_search_performed false ctx)) in
  _execute_action db clarify_model entities ctx
  = (set_last_response (Some (clarify_model_branch db ctx0).2)
       (clarify_model_branch db ctx0).1,
     clarify_model, [ClarifyModelRun]).
Proof.
  cbv zeta. unfold _execute_action. decide_actions.
  cbn -[clarify_model_branch clear_similarity_context].
  destruct (clarify_model_branch db _) as [ctx' r]. decide_actions.
  reflexivity.
Qed.

Lemma if_both {A : Type} (P : A -> Prop) (b : bool) (x y : A) :
  P x -> P y -> P (if b then x else y).
Proof. destruct b; auto. Qed.

Ltac use_branches db :=
  repeat match goal with
    | |- context [ask_branch ?c] =>
        pose proof (ask_branch_idle c);
        destruct (ask_branch c) as [? ?]
    | |- context [list_all_branch db ?c] =>
        pose proof (list_all_branch_idle db c);
        destruct (list_all_branch db c) as [? ?]
    | |- context [find_similar_branch db ?c] =>
        pose proof (find_similar_branch_idle db c);
        destruct (find_similar_branch db c) as [? ?]
    | |- context [clarify_model_branch db ?c] =>
        pose proof (clarify_model_branch_candidates db c);
        destruct (clarify_model_branch db c) as [? ?]
    end.

(** The executor leaves the sub-state consistent. *)
Lemma execute_action_candidates db action entities ctx :
  candidates_consistent db ctx ->
  candidates_consistent db (_execute_action db action entities ctx).1.1.
Proof.
  intros Hin.
  destruct (Action_eq_dec action handle_model_confirmation) as [->|Hh].
  { rewrite execute_confirmation. cbv zeta. cbn [fst].
    apply idle_consistent.
    destruct (confirmation_branch_exits entities (clear_similarity_context ctx))
      as [Ha Hp].
    split; cbn [potential_model_matches awaiting_model_confirmation
                set_last_response]; assumption. }
  destruct (Action_eq_dec action clarify_model) as [->|Hc].
  { rewrite execute_clarify_form. cbv zeta. cbn [fst].
    set (ctx0 := clear_similarity_context _).
    assert (H0 : candidates_consistent db ctx0).
    { apply (consistent_ext db ctx ctx0); [reflexivity..|exact Hin]. }
    clearbody ctx0.
    apply (consistent_ext db (clarify_model_branch db ctx0).1);
      [reflexivity..|].
    apply clarify_model_branch_candidates. exact H0. }
  assert (Hidle : forall c, idle (set_awaiting_model_confirmation false
                                    (set_potential_model_matches None c)))
    by (intros c; split; reflexivity).
  destruct action; try (exfalso; congruence);
    unfold _execute_action; decide_actions;
    try (cbn [fst snd existsb negb orb andb app]; decide_actions;
         cbn [fst snd existsb negb orb andb app];
         repeat apply (if_both (candidates_consistent db));
         apply idle_consistent; split; reflexivity);
    cbn -[search_branch ask_branch list_all_branch find_similar_branch
          clarify_model_branch handle_model_confirmation_branch wait_branch
          clear_similarity_context candidates_consistent];
    try (unfold search_branch;
         destruct (_ && _);
         [|destruct (filters_all_unset _);
           [|destruct (Catalog.find_cars_by_criteria _ _ _)]];
         decide_actions;
         cbn -[ask_branch list_all_branch find_similar_branch
               clarify_model_branch handle_model_confirmation_branch
               wait_branch clear_similarity_context candidates_consistent]);
    use_branches db; decide_actions;
    cbn -[clear_similarity_context candidates_consistent];
    repeat apply (if_both (candidates_consistent db));
    try (eapply consistent_ext; [| | |
           match goal with
           | H : candidates_consistent _ _ -> candidates_consistent _ ?c
             |- _ => apply H; apply idle_consistent; apply Hidle
           end]; reflexivity);
    try (apply idle_consistent;
         eapply idle_ext; [| |
           match goal with
           | H : idle _ -> idle ?c |- _ => apply H; apply Hidle
           end]; reflexivity);
    try (apply idle_consistent; split; reflexivity).
Qed.

Lemma update_keeps_candidates entities a :
  potential_model_matches
    (current_context (_update_context_with_entities entities a).1)
  = potential_model_matches (current_context a)
  /\ awaiting_model_confirmation
       (current_context (_update_context_with_entities entities a).1)
     = awaiting_model_confirmation (current_context a).
Proof.
  unfold _update_context_with_entities.
  destruct (entities_empty entities); [split; reflexivity|].
  assert (Hc : potential_model_matches
                 (merge_customer entities (current_context a)).1.1
               = potential_model_matches (current_context a)
               /\ awaiting_model_confirmation
                    (merge_customer entities (current_context a)).1.1
                  = awaiting_model_confirmation (current_context a)).
  { unfold merge_customer.
    destruct (e_first_name entities) as [n|], (e_phone entities) as [p|];
      repeat case_bool_decide; cbn; auto. }
  destruct (merge_customer entities (current_context a))
    as [[ctx updated] keys]. cbn [fst] in Hc. cbv beta iota zeta.
  destruct (m_updated _); cbn; exact Hc.
Qed.

Lemma identify_customer_candidates db entities ctx :
  potential_model_matches (identify_customer db entities ctx)
  = potential_model_matches ctx
  /\ awaiting_model_confirmation (identify_customer db entities ctx)
     = awaiting_model_confirmation ctx.
Proof.
  unfold identify_customer.
  destruct (e_phone entities) as [[phone|]|]; try (split; reflexivity).
  destruct (_ && _); [|split; reflexivity].
  destruct (Catalog.find_customer_lead_by_phone db phone);
    destruct (opt_int_truthy _); try destruct (opt_str_truthy _);
    split; reflexivity.
Qed.

Lemma select_action_idle entities context_updated a :
  idle (current_context a) ->
  idle (current_context (select_action entities context_updated a).2).
Proof.
  intros H. unfold select_action.
  destruct context_updated; [exact H|].
  destruct (confirmation_is "yes" entities).
  { destruct (results_shown _); exact H. }
  destruct (confirmation_is "no" entities).
  { destruct (results_shown _); [split; reflexivity|].
    destruct (last_question_key _) as [k|]; [|exact H].
    destruct (str_truthy k); [|exact H].
    unfold add_asked. destruct (asked_flag_of k); exact H. }
  destruct (_ && _); exact H.
Qed.

(** The immediate step leaves the sub-state consistent, and leaves the
    agent as it is when it takes no action. *)
Lemma immediate_step_candidates db entities a :
  idle (current_context a) ->
  candidates_consistent db
    (current_context (immediate_step db entities a).1.1.1)
  /\ ((immediate_step db entities a).1.1.2 = false ->
      (immediate_step db entities a).1.1.1 = a).
Proof.
  intros H.
  pose proof (idle_consistent db _ H) as Hc.
  unfold immediate_step.
  destruct (_ || _); [|split; [exact Hc|reflexivity]].
  unfold _handle_immediate_actions.
  destruct (flag_set (e_is_reset entities)).
  { split; [apply idle_consistent; split; reflexivity|discriminate]. }
  destruct (flag_set (e_is_farewell entities)).
  { split; [|discriminate]. cbn.
    destruct (last_response (current_context a)); exact Hc. }
  destruct (_ && _).
  { destruct (_ && _); [|split; [exact Hc|reflexivity]].
    split; [|discriminate]. exact Hc. }
  destruct (flag_set (e_is_list_all entities));
    [|split; [exact Hc|reflexivity]].
  destruct (negb (has_other_filters entities));
    [|split; [exact Hc|reflexivity]].
  pose proof (execute_action_candidates db list_all entities
                (current_context a) Hc) as Hex.
  destruct (_execute_action db list_all entities _) as [[ctx act] ev].
  split; [|discriminate]. cbn in Hex |- *.
  destruct (is_some (last_response ctx)); exact Hex.
Qed.

Lemma normal_flow_candidates db render entities a :
  idle (current_context a) ->
  candidates_consistent db
    (current_context (t_agent (normal_flow db render entities a))).
Proof.
  intros H. unfold normal_flow.
  pose proof (update_keeps_candidates entities a) as [Hp Ha].
  destruct (_update_context_with_entities entities a) as [a3 upd].
  cbn [fst] in Hp, Ha.
  assert (H3 : idle (current_context a3)) by (eapply idle_ext; eassumption).
  destruct (needs_clarification upd a3).
  { pose proof (execute_action_candidates db clarify_model entities
                  (current_context a3) (idle_consistent db _ H3)) as Hex.
    destruct (_execute_action db clarify_model entities _) as [[ctx act] ev'].
    rewrite finish_context. exact Hex. }
  pose proof (select_action_idle entities upd a3 H3) as Hsel.
  destruct (select_action entities upd a3) as [action a4]. cbn [snd] in Hsel.
  pose proof (execute_action_candidates db action entities
                (current_context a4) (idle_consistent db _ Hsel)) as Hex.
  destruct (_execute_action db action entities _) as [[ctx act] ev'].
  rewrite finish_context. exact Hex.
Qed.

(** A turn leaves the sub-state consistent. *)
Lemma process_message_candidates db render user_message entities a :
  candidates_consistent db (current_context a) ->
  candidates_consistent db
    (current_context
       (t_agent (process_message db render user_message entities a))).
Proof.
  intros Hin. unfold process_message. cbv zeta.
  change (current_context (begin_turn user_message a)) with (current_context a).
  set (a0 := begin_turn user_message a).
  destruct (awaiting_model_confirmation (current_context a)) eqn:Hawait.
  { pose proof (execute_action_candidates db handle_model_confirmation entities
                  (set_last_response None (current_context a))) as Hex.
    destruct (_execute_action db handle_model_confirmation entities _)
      as [[ctx act] ev]. rewrite finish_context. apply Hex.
    eapply consistent_ext; [| | |exact Hin]; reflexivity. }
  pose proof (consistent_idle db _ Hin Hawait) as Hidle.
  destruct (flag_set (e_is_similarity_request entities)).
  { destruct (_ && _).
    - pose proof (execute_action_candidates db find_similar entities
                    (current_context a) Hin) as Hex.
      destruct (_execute_action db find_similar entities _) as [[ctx act] ev].
      rewrite finish_context. exact Hex.
    - rewrite finish_context. exact Hin. }
  destruct (identify_customer_candidates db entities (current_context a))
    as [Hp Ha].
  set (a1 := with_context (identify_customer db entities (current_context a)) a0).
  assert (H1 : idle (current_context a1)) by (eapply idle_ext; eassumption).
  clearbody a1.
  destruct (immediate_step_candidates db entities a1 H1) as [H2 Hsame].
  destruct (immediate_step db entities a1) as [[[a2 taken] imm] ev].
  cbn [fst snd] in H2, Hsame.
  destruct taken; [rewrite finish_context; exact H2|].
  rewrite (Hsame eq_refl). apply normal_flow_candidates. exact H1.
Qed.

Lemma proactive_part_candidates db initial_filters ctx0 :
  idle ctx0 ->
  candidates_consistent db (proactive_part db initial_filters ctx0).1.
Proof.
  intros H0. unfold proactive_part.
  destruct (desired_has_key initial_filters);
    [|apply idle_consistent; exact H0].
  cbv zeta.
  set (ctx1 := set_filters _ ctx0).
  assert (H1 : idle ctx1) by exact H0.
  clearbody ctx1.
  destruct (_ && _).
  { pose proof (execute_action_candidates db clarify_model no_entities ctx1
                  (idle_consistent db _ H1)) as Hex.
    destruct (_execute_action db clarify_model no_entities ctx1)
      as [[ctx2 act] ev]. exact Hex. }
  apply idle_consistent.
  destruct (_should_search ctx1).
  { destruct (Catalog.find_cars_by_criteria db (filters ctx1) 3); exact H1. }
  pose proof (next_question_keeps ctx1) as (_ & _ & Ha & Hp).
  destruct (_get_next_question ctx1) as [[q|] ctx2]; cbn [snd fst] in Ha, Hp |- *.
  - destruct (last_question_key ctx2) as [k|];
      [unfold add_asked; destruct (asked_flag_of k)|];
      (eapply idle_ext; [| |exact H1]); cbn; assumption.
  - eapply idle_ext; [| |exact H1]; assumption.
Qed.

Lemma proactive_start_candidates db render customer initial_filters a :
  candidates_consistent db (current_context a) ->
  candidates_consistent db
    (current_context
       (generate_proactive_start_message db render customer initial_filters a).1).
Proof.
  intros Hin. unfold generate_proactive_start_message.
  destruct customer as [customer|]; [|exact Hin].
  cbv zeta.
  match goal with
  | |- context [proactive_part db initial_filters ?c] =>
      pose proof (proactive_part_candidates db initial_filters c
                    ltac:(split; reflexivity)) as Hpart;
      destruct (proactive_part db initial_filters c) as [ctx1 part]
  end.
  exact Hpart.
Qed.

End CandidateFacts.

(** X22. In every agent a conversation reaches, the clarification sub-state
    is consistent: a confirmation is awaited exactly when candidates are
    stored, and then there are one to three of them, each a car of the
    catalog that carries the model held in the filters. *)
Theorem reachable_candidates_consistent
    (db : Catalog.Database) (render : Agent.Response -> string)
    (a : Agent.Agent) :
  reachable db render a ->
  candidates_consistent db (Agent.current_context a).
Proof.
  induction 1 as [|a user_message entities _ IH
                  |a customer initial_filters _ IH|a _ _].
  - reflexivity.
  - apply process_message_candidates. exact IH.
  - apply proactive_start_candidates. exact IH.
  - reflexivity.
Qed.

Lemma reachable_candidates_consistent_witness :
  let a :=
    Agent.t_agent
      (Agent.process_message demo_catalog demo_render "Corolla"
         (with_model "Corolla" plain_entities) Agent.new_agent) in
  Agent.potential_model_matches (Agent.current_context a)
  = Some [toyota_corolla]
  /\ candidates_consistent demo_catalog (Agent.current_context a).
Proof.
  cbv zeta. split; [reflexivity|].
  apply (reachable_candidates_consistent demo_catalog demo_render).
  apply reach_turn. apply reach_new.
Defined.

(** ** The anchor of a search, and the customer of a proactive start *)

Section AnchorFacts.
Import Agent.

Lemma ask_branch_results ctx :
  results_shown (ask_branch ctx).1 = results_shown ctx.
Proof.
  unfold ask_branch, _get_next_question.
  destruct (first_open_question FILTER_QUESTIONS ctx) as [k|]; cbn.
  - destruct (asked_flag_of k); destruct (opt_str_truthy _); reflexivity.
  - destruct (_ && _); reflexivity.
Qed.

Lemma clarify_model_branch_results db ctx :
  results_shown (clarify_model_branch db ctx).1 = results_shown ctx.
Proof.
  unfold clarify_model_branch.
  destruct (f_model (filters ctx)) as [m|]; [|reflexivity].
  destruct (str_truthy m); [|reflexivity].
  destruct (Catalog.find_cars_by_criteria _ _ _) as [|car [|car' rest]];
    reflexivity.
Qed.

(** The search action, in its three cases. *)
Lemma execute_search_cases db entities ctx :
  let ctx' := (_execute_action db search entities ctx).1.1 in
  results_shown ctx' = false
  \/ exists first rest,
       Catalog.find_cars_by_criteria db (filters ctx) 5 = first :: rest
       /\ results_shown ctx' = true
       /\ last_shown_cars ctx' = Some (first :: rest)
       /\ last_shown_target_price ctx' = Some (Catalog.car_price first)
       /\ last_shown_target_brand ctx' = Some (Catalog.car_brand first)
       /\ last_shown_target_model ctx' = Some (Catalog.car_model first)
       /\ last_response ctx' = Some (ShowResults (first :: rest)).
Proof.
  cbv zeta. unfold _execute_action, search_branch. decide_actions.
  cbn -[ask_branch clarify_model_branch Catalog.find_cars_by_criteria].
  destruct (_ && _).
  { left. decide_actions.
    cbn -[ask_branch clarify_model_branch Catalog.find_cars_by_criteria].
    match goal with
    | |- context [clarify_model_branch db ?c] =>
        pose proof (clarify_model_branch_results db c) as Hr;
        destruct (clarify_model_branch db c) as [ctx' r]
    end.
    decide_actions. cbn in Hr |- *. exact Hr. }
  destruct (filters_all_unset (filters ctx)).
  { left. decide_actions.
    cbn -[ask_branch clarify_model_branch Catalog.find_cars_by_criteria].
    match goal with
    | |- context [ask_branch ?c] =>
        pose proof (ask_branch_results c) as Hr;
        destruct (ask_branch c) as [ctx' r]
    end.
    decide_actions. cbn in Hr |- *. exact Hr. }
  destruct (Catalog.find_cars_by_criteria db (filters ctx) 5)
    as [|first rest]; decide_actions; cbn; [left; reflexivity|right].
  exists first, rest. auto 10.
Qed.

Lemma execute_clarify_customer db entities ctx :
  same_customer ctx (_execute_action db clarify_model entities ctx).1.1.
Proof.
  rewrite execute_clarify_form. cbv zeta. cbn [fst].
  unfold clarify_model_branch.
  destruct (f_model _) as [m|]; [|repeat split].
  destruct (str_truthy m); [|repeat split].
  destruct (Catalog.find_cars_by_criteria _ _ _) as [|car [|car' rest]];
    repeat split.
Qed.

Lemma proactive_part_customer db initial_filters ctx :
  same_customer ctx (proactive_part db initial_filters ctx).1.
Proof.
  unfold proactive_part.
  destruct (desired_has_key initial_filters); [|repeat split].
  cbv zeta.
  set (ctx1 := set_filters _ ctx).
  assert (H1 : same_customer ctx ctx1) by (repeat split).
  clearbody ctx1.
  destruct (_ && _).
  { pose proof (execute_clarify_customer db no_entities ctx1) as H.
    destruct (_execute_action db clarify_model no_entities ctx1)
      as [[ctx2 act] ev]. cbn [fst] in H |- *.
    unfold same_customer in *. intuition congruence. }
  destruct (_should_search ctx1).
  { destruct (Catalog.find_cars_by_criteria db (filters ctx1) 3); exact H1. }
  unfold _get_next_question.
  destruct (first_open_question FILTER_QUESTIONS ctx1) as [k|]; cbn.
  - unfold add_asked. destruct (asked_flag_of k); exact H1.
  - exact H1.
Qed.

End AnchorFacts.

(** X23. When the search action shows results, the anchor it stores for a
    later similarity request is the first car shown, and that car is the
    cheapest match: it is a car of the catalog that passes the filters, and
    no car of the catalog that passes them costs less. *)
Theorem search_anchor_is_cheapest
    (db : Catalog.Database) (entities : Entities) (ctx : Agent.Context)
    (car : Catalog.Car) :
  let ctx' := (Agent._execute_action db Agent.search entities ctx).1.1 in
  Agent.results_shown ctx' = true ->
  In car (Catalog.cars db) ->
  Catalog.car_matches (Agent.filters ctx) car = true ->
  exists anchor,
    In anchor (Catalog.cars db)
    /\ Catalog.car_matches (Agent.filters ctx) anchor = true
    /\ Agent.last_shown_target_price ctx' = Some (Catalog.car_price anchor)
    /\ Agent.last_shown_target_brand ctx' = Some (Catalog.car_brand anchor)
    /\ Agent.last_shown_target_model ctx' = Some (Catalog.car_model anchor)
    /\ cheaper_or_equal anchor car.
Proof.
  cbv zeta. intros Hshown Hin Hm.
  destruct (execute_search_cases db entities ctx)
    as [Hno|(first & rest & Hfound & _ & _ & Hp & Hb & Hmo & _)];
    [congruence|].
  exists first.
  destruct (find_cars_in db (Agent.filters ctx) 5 first) as [H1 H2].
  { rewrite Hfound. left. reflexivity. }
  split; [exact H1|]. split; [exact H2|].
  split; [exact Hp|]. split; [exact Hb|]. split; [exact Hmo|].
  eapply find_cars_head_cheapest; eassumption.
Qed.

Lemma search_anchor_is_cheapest_witness :
  let ctx :=
    Agent.set_filters (set_f_engine_type (Some "Benzin") empty_filters)
                      Agent.fresh_context in
  let ctx' :=
    (Agent._execute_action demo_catalog Agent.search plain_entities ctx).1.1 in
  Agent.results_shown ctx' = true
  /\ exists anchor,
       In anchor (Catalog.cars demo_catalog)
       /\ Catalog.car_matches (Agent.filters ctx) anchor = true
       /\ Agent.last_shown_target_price ctx' = Some (Catalog.car_price anchor)
       /\ Agent.last_shown_target_brand ctx' = Some (Catalog.car_brand anchor)
       /\ Agent.last_shown_target_model ctx' = Some (Catalog.car_model anchor)
       /\ cheaper_or_equal anchor toyota_corolla.
Proof.
  cbv zeta. split; [reflexivity|].
  apply (search_anchor_is_cheapest demo_catalog plain_entities
           (Agent.set_filters (set_f_engine_type (Some "Benzin") empty_filters)
                              Agent.fresh_context)
           toyota_corolla).
  - reflexivity.
  - left. reflexivity.
  - reflexivity.
Defined.

(** X24. A proactive start for a lead leaves the agent on that lead: the
    customer fields of the context are the lead's, the personalized
    greeting is marked as done, the reply is stored, and the memory,
    emptied by the reset, holds the opening message alone. The branches on
    the lead's wishes (clarification, search, question) never touch the
    customer fields. *)
Theorem proactive_start_installs_customer
    (db : Catalog.Database) (render : Agent.Response -> string)
    (customer : Catalog.CustomerLead) (initial_filters : Agent.DesiredCar)
    (a : Agent.Agent) :
  let r :=
    Agent.generate_proactive_start_message db render (Some customer)
      initial_filters a in
  let ctx := Agent.current_context r.1 in
  Agent.customer_id ctx = Some (Catalog.lead_id customer)
  /\ Agent.customer_first_name ctx = Some (Catalog.lead_first_name customer)
  /\ Agent.customer_phone ctx = Some (Catalog.lead_phone customer)
  /\ Agent.customer_desired_car ctx = Catalog.lead_desired_car_info customer
  /\ Agent.initial_personalized_greeting_done ctx = true
  /\ Agent.last_response ctx = Some r.2
  /\ Agent.memory_manager r.1
     = Memory.add_message "assistant" (render r.2)
         (Memory.clear_memory (Agent.memory_manager a)).
Proof.
  cbv zeta. unfold Agent.generate_proactive_start_message. cbv zeta.
  match goal with
  | |- context [Agent.proactive_part db initial_filters ?c] =>
      pose proof (proactive_part_customer db initial_filters c)
        as (H1 & H2 & H3 & H4 & H5);
      destruct (Agent.proactive_part db initial_filters c) as [ctx1 part]
  end.
  cbn [fst snd] in *. cbn in H1, H2, H3, H4, H5.
  cbn. rewrite H1, H2, H3, H4, H5. auto 10.
Qed.

(** ** The memory over a turn *)

Section TurnMemoryFacts.
Import Agent.

Lemma clear_after_add role content m :
  Memory.clear_memory (Memory.add_message role content m)
  = Memory.clear_memory m.
Proof. unfold Memory.clear_memory. rewrite add_message_max. reflexivity. Qed.

(** The memory at the end of a turn: the reply is added to the memory the
    agent has then. *)
Lemma finish_memory render action events a r :
  last_response (current_context a) = Some r ->
  memory_manager (t_agent (finish render action events a))
  = Memory.add_message "assistant" (render r) (memory_manager a).
Proof. intros H. unfold finish. rewrite H. reflexivity. Qed.

(** The action the executor ends on is the one it was called with, but for
    a search handed over to the ask or the clarification branch. *)
Lemma execute_action_final db action entities ctx :
  (_execute_action db action entities ctx).1.2 = action
  \/ (action = search
      /\ ((_execute_action db action entities ctx).1.2 = ask
          \/ (_execute_action db action entities ctx).1.2 = clarify_model)).
Proof.
  unfold _execute_action.
  destruct action; decide_actions;
    cbn -[search_branch ask_branch list_all_branch find_similar_branch
          clarify_model_branch handle_model_confirmation_branch wait_branch];
    try (unfold search_branch;
         destruct (_ && _);
         [|destruct (filters_all_unset _);
           [|destruct (Catalog.find_cars_by_criteria _ _ _)]];
         decide_actions;
         cbn -[ask_branch list_all_branch find_similar_branch
               clarify_model_branch handle_model_confirmation_branch
               wait_branch]);
    repeat match goal with
      | |- context [ask_branch ?c] => destruct (ask_branch c) as [? ?]
      | |- context [list_all_branch db ?c] =>
          destruct (list_all_branch db c) as [? ?]
      | |- context [find_similar_branch db ?c] =>
          destruct (find_similar_branch db c) as [? ?]
      | |- context [clarify_model_branch db ?c] =>
          destruct (clarify_model_branch db c) as [? ?]
      | |- context [handle_model_confirmation_branch ?e ?c] =>
          destruct (handle_model_confirmation_branch e c) as [? ?]
      end; decide_actions; cbn; auto.
Qed.

(** What the selector returns: a search or an ask on the agent as it is, or
    a wait on a reply it has just stored, after a reset when that reply is
    the request for new criteria. *)
Lemma select_action_cases entities context_updated a :
  let r := select_action entities context_updated a in
  ((r.1 = search \/ r.1 = ask) /\ memory_manager r.2 = memory_manager a)
  \/ (r.1 = wait
      /\ last_response (current_context r.2) = Some NarrowOrAlternatives
      /\ memory_manager r.2 = memory_manager a)
  \/ (r.1 = wait
      /\ last_response (current_context r.2) = Some AskNewCriteria
      /\ memory_manager r.2 = Memory.clear_memory (memory_manager a)).
Proof.
  cbv zeta. unfold select_action.
  destruct context_updated.
  { destruct (_should_search _); left; auto. }
  destruct (confirmation_is "yes" entities).
  { destruct (results_shown _); [right; left; auto|].
    destruct (_should_search _); left; auto. }
  destruct (confirmation_is "no" entities).
  { destruct (results_shown _); [right; right; auto|].
    destruct (last_question_key _) as [k|]; [|left; auto].
    destruct (str_truthy k); left; auto. }
  destruct (_ && _); left; auto.
Qed.

(** An immediate action that is taken is the reset, on a memory just
    emptied, or another one, on the memory as it is. *)
Lemma immediate_step_cases db entities a :
  let r := immediate_step db entities a in
  r.1.1.2 = true ->
  (r.1.2 = Some reset
   /\ memory_manager r.1.1.1 = Memory.clear_memory (memory_manager a))
  \/ (r.1.2 <> Some reset /\ r.1.2 <> Some wait
      /\ memory_manager r.1.1.1 = memory_manager a).
Proof.
  cbv zeta. unfold immediate_step.
  destruct (_ || _); [|discriminate].
  unfold _handle_immediate_actions.
  destruct (flag_set (e_is_reset entities)); [left; auto|].
  destruct (flag_set (e_is_farewell entities));
    [right; repeat split; discriminate|].
  destruct (_ && _).
  { destruct (_ && _); [right; repeat split; discriminate|discriminate]. }
  destruct (flag_set (e_is_list_all entities)); [|discriminate].
  destruct (negb (has_other_filters entities)); [|discriminate].
  destruct (_execute_action db list_all entities _) as [[ctx act] ev].
  right. repeat split; discriminate.
Qed.

(** The memory at the end of a turn that completes. *)
Lemma process_message_memory_cases db render user_message entities a :
  let t := process_message db render user_message entities a in
  exists r,
    t_response t = Some r
    /\ ((resets_conversation t
         /\ memory_manager (t_agent t)
            = Memory.add_message "assistant" (render r)
                (Memory.clear_memory (memory_manager a)))
        \/ (~ resets_conversation t
            /\ memory_manager (t_agent t)
               = Memory.add_message "assistant" (render r)
                   (Memory.add_message "user" user_message
                      (memory_manager a)))).
Proof.
  cbv zeta.
  destruct (process_message_reply db render user_message entities a)
    as (r & Hr & _).
  exists r. split; [exact Hr|]. revert Hr.
  set (m0 := Memory.add_message "user" user_message (memory_manager a)).
  assert (Hkeep : forall action events a',
            memory_manager a' = m0 ->
            action <> Some reset ->
            (action = Some wait ->
             last_response (current_context a') <> Some AskNewCriteria) ->
            t_response (finish render action events a') = Some r ->
            (resets_conversation (finish render action events a')
             /\ memory_manager (t_agent (finish render action events a'))
                = Memory.add_message "assistant" (render r)
                    (Memory.clear_memory (memory_manager a)))
            \/ (~ resets_conversation (finish render action events a')
                /\ memory_manager (t_agent (finish render action events a'))
                   = Memory.add_message "assistant" (render r) m0)).
  { intros action events a' Hm Hreset Hwait Hresp. right.
    rewrite finish_reply in Hresp. split.
    - unfold resets_conversation.
      destruct (finish_outcome render action events a') as (-> & _ & _).
      rewrite finish_reply. intros [H|[H1 H2]]; [contradiction|].
      exact (Hwait H1 H2).
    - rewrite (finish_memory render action events a' r Hresp), Hm.
      reflexivity. }
  assert (Hclear : forall action events a',
            memory_manager a' = Memory.clear_memory (memory_manager a) ->
            action = Some reset
            \/ (action = Some wait
                /\ last_response (current_context a') = Some AskNewCriteria) ->
            t_response (finish render action events a') = Some r ->
            (resets_conversation (finish render action events a')
             /\ memory_manager (t_agent (finish render action events a'))
                = Memory.add_message "assistant" (render r)
                    (Memory.clear_memory (memory_manager a)))
            \/ (~ resets_conversation (finish render action events a')
                /\ memory_manager (t_agent (finish render action events a'))
                   = Memory.add_message "assistant" (render r) m0)).
  { intros action events a' Hm Hreset Hresp. left.
    rewrite finish_reply in Hresp. split.
    - unfold resets_conversation.
      destruct (finish_outcome render action events a') as (-> & _ & _).
      rewrite finish_reply. exact Hreset.
    - rewrite (finish_memory render action events a' r Hresp), Hm.
      reflexivity. }
  unfold process_message. cbv zeta.
  set (a0 := begin_turn user_message a).
  assert (H0 : memory_manager a0 = m0) by reflexivity.
  destruct (awaiting_model_confirmation (current_context a0)).
  { pose proof (execute_action_final db handle_model_confirmation entities
                  (set_last_response None (current_context a0))) as Hact.
    destruct (_execute_action db handle_model_confirmation _ _)
      as [[ctx act] ev]. cbn [fst snd] in Hact.
    destruct Hact as [->|[Hs _]]; [|discriminate].
    apply Hkeep; [exact H0|discriminate|discriminate]. }
  destruct (flag_set (e_is_similarity_request entities)).
  { destruct (_ && _).
    - pose proof (execute_action_final db find_similar entities
                    (current_context a0)) as Hact.
      destruct (_execute_action db find_similar _ _) as [[ctx act] ev].
      cbn [fst snd] in Hact.
      destruct Hact as [->|[Hs _]]; [|discriminate].
      apply Hkeep; [exact H0|discriminate|discriminate].
    - apply Hkeep; [exact H0|discriminate|discriminate]. }
  set (a1 := with_context _ a0).
  assert (H1 : memory_manager a1 = m0) by reflexivity.
  clearbody a1.
  pose proof (immediate_step_cases db entities a1) as Himm.
  assert (Hsame : (immediate_step db entities a1).1.1.2 = false ->
                  (immediate_step db entities a1).1.1.1 = a1).
  { unfold immediate_step.
    destruct (_ || _); [|reflexivity].
    unfold _handle_immediate_actions.
    destruct (flag_set (e_is_reset entities)); [discriminate|].
    destruct (flag_set (e_is_farewell entities)); [discriminate|].
    destruct (_ && _).
    { destruct (_ && _); [discriminate|reflexivity]. }
    destruct (flag_set (e_is_list_all entities)); [|reflexivity].
    destruct (negb (has_other_filters entities)); [|reflexivity].
    destruct (_execute_action db list_all entities _)
      as [[ctx act] ev]. discriminate. }
  cbv zeta in Himm.
  destruct (immediate_step db entities a1) as [[[a2 taken] imm] ev].
  cbn [fst snd] in Himm, Hsame.
  destruct taken.
  { destruct (Himm eq_refl) as [[-> Hm]|(Hr1 & Hr2 & Hm)].
    - apply Hclear; [|left; reflexivity].
      rewrite Hm, H1. unfold m0. apply clear_after_add.
    - apply Hkeep; [congruence|exact Hr1|].
      intros Hw. contradiction. }
  rewrite (Hsame eq_refl). clear Hsame Himm a2.
  unfold normal_flow.
  pose proof (update_keeps_memory entities a1) as Hmem.
  destruct (_update_context_with_entities entities a1) as [a3 upd].
  cbn [fst] in Hmem.
  assert (H3 : memory_manager a3 = m0) by congruence.
  destruct (needs_clarification upd a3).
  { pose proof (execute_action_final db clarify_model entities
                  (current_context a3)) as Hact.
    destruct (_execute_action db clarify_model _ _) as [[ctx act] ev'].
    cbn [fst snd] in Hact.
    destruct Hact as [->|[Hs _]]; [|discriminate].
    apply Hkeep; [exact H3|discriminate|discriminate]. }
  pose proof (select_action_cases entities upd a3) as Hsel.
  cbv zeta in Hsel.
  destruct (select_action entities upd a3) as [action a4].
  cbn [fst snd] in Hsel.
  pose proof (execute_action_final db action entities (current_context a4))
    as Hact.
  pose proof (execute_action_reply db action entities (current_context a4))
    as [_ Hwait].
  destruct (_execute_action db action entities _) as [[ctx act] ev'].
  cbn [fst snd] in Hact, Hwait.
  destruct Hsel as [[Hsa Hm]|[(-> & Hl & Hm)|(-> & Hl & Hm)]].
  - apply Hkeep; [cbn; congruence| |].
    + destruct Hact as [->|[_ [->| ->]]]; [destruct Hsa as [->| ->]| |];
        discriminate.
    + intros [= ->].
      destruct Hact as [<-|[_ [?|?]]]; [destruct Hsa|..]; discriminate.
  - destruct Hact as [->|[? _]]; [|discriminate].
    apply Hkeep; [cbn; congruence|discriminate|].
    intros _. cbn. rewrite (Hwait eq_refl), Hl. discriminate.
  - destruct Hact as [->|[? _]]; [|discriminate].
    apply Hclear.
    + cbn. rewrite Hm, H3. unfold m0. apply clear_after_add.
    + right. split; [reflexivity|]. cbn. rewrite (Hwait eq_refl). exact Hl.
Qed.

End TurnMemoryFacts.

(** X25. What a turn does to the memory. On a turn that completes, the
    user's message is stored, then the reply; but when the turn resets the
    conversation (the reset intent, or a "no" after results were shown), the
    memory is emptied first, and the reply is all it holds. On a turn that
    raises, the error fallback is added to the memory as it was at the
    raise. *)
Theorem process_message_memory
    (db : Catalog.Database) (render : Agent.Response -> string)
    (user_message : string) (body : Agent.Body) (a : Agent.Agent) :
  let t := Agent.process_message_try db render user_message body a in
  let m := Agent.memory_manager a in
  match body with
  | Agent.Completes _ =>
      exists r,
        Agent.t_response t = Some r
        /\ (resets_conversation t ->
            Agent.memory_manager (Agent.t_agent t)
            = Memory.add_message "assistant" (render r)
                (Memory.clear_memory m))
        /\ (~ resets_conversation t ->
            Agent.memory_manager (Agent.t_agent t)
            = Memory.add_message "assistant" (render r)
                (Memory.add_message "user" user_message m))
  | Agent.Raises at_raise _ =>
      Agent.memory_manager (Agent.t_agent t)
      = Memory.add_message "assistant" (render Agent.ErrorFallback)
          (Agent.memory_manager at_raise)
  end.
Proof.
  cbv zeta. destruct body as [entities|at_raise events]; [|reflexivity].
  destruct (process_message_memory_cases db render user_message entities a)
    as (r & Hr & Hcases).
  exists r. split; [exact Hr|].
  destruct Hcases as [[Hreset Hm]|[Hkeep Hm]]; split; intros H;
    try exact Hm; contradiction.
Qed.
